(** * Student behaviour tracking: debounced detectors, attention scoring,
      session aggregation and the session report

    A shallow embedding of [gesture_detection.py] and [behavior_tracking.py].

    Conventions of the embedding.
    - A [datetime] is the number of microseconds since the epoch, a [Z]
      (microseconds are the resolution of Python's [datetime]).  A
      [timedelta] is the difference of two such numbers, and
      [total_seconds()] compared with a threshold of [s] seconds is the
      comparison of that difference with [s * 10^6].  The thresholds of the
      detectors are therefore kept in microseconds.
    - [datetime.now()] is an input: every function that reads the clock takes
      the reading as an argument.
    - Angles and attention scores are rationals ([Q]) and the arithmetic on
      them is exact.
    - The calls to the persistence layer ([mark_attendance], [log_behavior])
      are collected, in order, in a list of [db_call]s. *)

From Stdlib Require Import ZArith QArith Qabs Qminmax Lia Lqa.
From stdpp Require Import gmap strings list.

Local Open Scope Z_scope.

(** A clock reading, in microseconds. *)
Definition datetime := Z.

(** One call of a detector's update method: the reading of the clock made
    inside the call, and the raw signal passed to it. *)
Definition call := (datetime * bool)%type.

(** The thresholds of the source, in microseconds. *)
Definition seconds (n : Z) : Z := n * 1000000.

(** ** Results of the external collaborators

    What MediaPipe, OpenCV and the face recogniser hand to the code for one
    frame.  Only the parts the code reads are kept. *)

(** The two landmarks [_is_hand_raised] reads, with their [y] coordinate. *)
Record hand_landmarks := {
  wrist_y : Q;
  middle_finger_tip_y : Q
}.

(** The dictionary [_calculate_head_pose] returns when [solvePnP] succeeds. *)
Record head_pose := {
  pitch : Q;
  yaw : Q;
  roll : Q
}.

(** [a < b] on rationals, as a boolean. *)
Definition Qlt_bool (a b : Q) : bool := negb (Qle_bool b a).

(** Python's [max(0, x)]: [x] when [x > 0], the first argument otherwise. *)
Definition max0 (x : Q) : Q := if Qlt_bool 0 x then x else 0%Q.

(** ** The two detectors of [gesture_detection.py] *)

Module HandGestureDetector.

Record t := mk {
  hand_raised : bool;
  hand_raise_start_time : option datetime;
  hand_raise_duration_threshold : Z;
  hand_raise_count : Z;
  last_hand_raise_time : option datetime;
  cooldown_period : Z
}.

(** [__init__], the part that is not MediaPipe set-up. *)
Definition init : t :=
  {| hand_raised := false;
     hand_raise_start_time := None;
     hand_raise_duration_threshold := seconds 1;
     hand_raise_count := 0;
     last_hand_raise_time := None;
     cooldown_period := seconds 3 |}.

(** [update_hand_raise_count]: the new detector and the returned boolean. *)
Definition update_hand_raise_count (self : t) (current_time : datetime)
    (raised : bool) : t * bool :=
  if raised then
    if negb (hand_raised self) then
      ({| hand_raised := true;
          hand_raise_start_time := Some current_time;
          hand_raise_duration_threshold := hand_raise_duration_threshold self;
          hand_raise_count := hand_raise_count self;
          last_hand_raise_time := last_hand_raise_time self;
          cooldown_period := cooldown_period self |}, false)
    else
      match hand_raise_start_time self with
      | Some start =>
          let duration := current_time - start in
          if hand_raise_duration_threshold self <=? duration then
            if match last_hand_raise_time self with
               | None => true
               | Some last => cooldown_period self <=? current_time - last
               end
            then
              ({| hand_raised := hand_raised self;
                  hand_raise_start_time := None;
                  hand_raise_duration_threshold := hand_raise_duration_threshold self;
                  hand_raise_count := hand_raise_count self + 1;
                  last_hand_raise_time := Some current_time;
                  cooldown_period := cooldown_period self |}, true)
            else (self, false)
          else (self, false)
      | None => (self, false)
      end
  else
    ({| hand_raised := false;
        hand_raise_start_time := None;
        hand_raise_duration_threshold := hand_raise_duration_threshold self;
        hand_raise_count := hand_raise_count self;
        last_hand_raise_time := last_hand_raise_time self;
        cooldown_period := cooldown_period self |}, false).

Record hand_data := {
  hands_detected : bool;
  hand_data_hand_raised : bool;
  hand_data_landmarks : list hand_landmarks
}.

(** [_is_hand_raised]: the wrist in the upper 40% of the frame and the
    middle finger tip above it. *)
Definition _is_hand_raised (hand : hand_landmarks) : bool :=
  Qlt_bool (wrist_y hand) (4 # 10) && Qlt_bool (middle_finger_tip_y hand) (wrist_y hand).

(** [detect_hands], given [results.multi_hand_landmarks] ([[]] stands for
    Python's [None]): only the first hand is tested. *)
Definition detect_hands (multi_hand_landmarks : list hand_landmarks) : hand_data :=
  match multi_hand_landmarks with
  | [] =>
      {| hands_detected := false; hand_data_hand_raised := false;
         hand_data_landmarks := [] |}
  | first :: _ =>
      {| hands_detected := true; hand_data_hand_raised := _is_hand_raised first;
         hand_data_landmarks := multi_hand_landmarks |}
  end.

Definition get_hand_raise_count (self : t) : Z := hand_raise_count self.

Definition reset_count (self : t) : t :=
  {| hand_raised := false;
     hand_raise_start_time := None;
     hand_raise_duration_threshold := hand_raise_duration_threshold self;
     hand_raise_count := 0;
     last_hand_raise_time := None;
     cooldown_period := cooldown_period self |}.

(** A sequence of update calls on one instance: the final detector and the
    value each call returned. *)
Fixpoint run (self : t) (calls : list call) : t * list bool :=
  match calls with
  | [] => (self, [])
  | (now, raised) :: rest =>
      let '(self1, out) := update_hand_raise_count self now raised in
      let '(self2, outs) := run self1 rest in
      (self2, out :: outs)
  end.

End HandGestureDetector.

Module FaceMovementDetector.

Record t := mk {
  looking_away_count : Z;
  is_looking_away : bool;
  looking_away_start_time : option datetime;
  looking_away_threshold : Z;
  last_looking_away_time : option datetime;
  cooldown_period : Z;
  yaw_threshold : Q;
  pitch_threshold : Q
}.

Definition init : t :=
  {| looking_away_count := 0;
     is_looking_away := false;
     looking_away_start_time := None;
     looking_away_threshold := seconds 2;
     last_looking_away_time := None;
     cooldown_period := seconds 5;
     yaw_threshold := 20%Q;
     pitch_threshold := 15%Q |}.

Definition update_looking_away_count (self : t) (current_time : datetime)
    (looking_away : bool) : t * bool :=
  if looking_away then
    if negb (is_looking_away self) then
      ({| looking_away_count := looking_away_count self;
          is_looking_away := true;
          looking_away_start_time := Some current_time;
          looking_away_threshold := looking_away_threshold self;
          last_looking_away_time := last_looking_away_time self;
          cooldown_period := cooldown_period self;
          yaw_threshold := yaw_threshold self;
          pitch_threshold := pitch_threshold self |}, false)
    else
      match looking_away_start_time self with
      | Some start =>
          let duration := current_time - start in
          if looking_away_threshold self <=? duration then
            if match last_looking_away_time self with
               | None => true
               | Some last => cooldown_period self <=? current_time - last
               end
            then
              ({| looking_away_count := looking_away_count self + 1;
                  is_looking_away := is_looking_away self;
                  looking_away_start_time := None;
                  looking_away_threshold := looking_away_threshold self;
                  last_looking_away_time := Some current_time;
                  cooldown_period := cooldown_period self;
                  yaw_threshold := yaw_threshold self;
                  pitch_threshold := pitch_threshold self |}, true)
            else (self, false)
          else (self, false)
      | None => (self, false)
      end
  else
    ({| looking_away_count := looking_away_count self;
        is_looking_away := false;
        looking_away_start_time := None;
        looking_away_threshold := looking_away_threshold self;
        last_looking_away_time := last_looking_away_time self;
        cooldown_period := cooldown_period self;
        yaw_threshold := yaw_threshold self;
        pitch_threshold := pitch_threshold self |}, false).

Record face_data := {
  face_detected : bool;
  face_data_head_pose : option head_pose;
  looking_away : bool;
  attention_score : Q
}.

(** [detect_face_movement].  The argument is [None] when
    [results.multi_face_landmarks] is empty, and otherwise what
    [_calculate_head_pose] returned for the first face: [None] when
    [solvePnP] did not succeed. *)
Definition detect_face_movement (self : t)
    (multi_face_landmarks : option (option head_pose)) : face_data :=
  match multi_face_landmarks with
  | None =>
      {| face_detected := false; face_data_head_pose := None;
         looking_away := false; attention_score := 0%Q |}
  | Some None =>
      {| face_detected := true; face_data_head_pose := None;
         looking_away := false; attention_score := 0%Q |}
  | Some (Some pose) =>
      let yaw_score := max0 (100 - Qabs (yaw pose) * 2)%Q in
      let pitch_score := max0 (100 - Qabs (pitch pose) * 3)%Q in
      {| face_detected := true; face_data_head_pose := Some pose;
         looking_away :=
           Qlt_bool (yaw_threshold self) (Qabs (yaw pose))
           || Qlt_bool (pitch_threshold self) (Qabs (pitch pose));
         attention_score := ((yaw_score + pitch_score) / 2)%Q |}
  end.

Definition get_looking_away_count (self : t) : Z := looking_away_count self.

Definition reset_count (self : t) : t :=
  {| looking_away_count := 0;
     is_looking_away := false;
     looking_away_start_time := None;
     looking_away_threshold := looking_away_threshold self;
     last_looking_away_time := None;
     cooldown_period := cooldown_period self;
     yaw_threshold := yaw_threshold self;
     pitch_threshold := pitch_threshold self |}.

Fixpoint run (self : t) (calls : list call) : t * list bool :=
  match calls with
  | [] => (self, [])
  | (now, away) :: rest =>
      let '(self1, out) := update_looking_away_count self now away in
      let '(self2, outs) := run self1 rest in
      (self2, out :: outs)
  end.

End FaceMovementDetector.

(** ** [behavior_tracking.py]: the aggregator and the report *)

(** One entry of the list [recognize_faces] returns.  ['student_id'] is
    [None] for a face that matched no registered student. *)
Module Student.
Record t := {
  name : string;
  student_id : option string
}.
End Student.

(** The calls made on [self.db], with their arguments. *)
Inductive db_call :=
  | mark_attendance (student_id : string) (date : string) (time_in : string)
  | log_behavior (student_id : string) (session_date : string)
      (attention_score : Q) (hand_raises : Z) (looking_away_count : Z)
      (total_duration : Z).

(** [strftime("%H:%M:%S")] of a clock reading. *)
Definition two_digits (n : Z) : string :=
  String (Ascii.ascii_of_nat (48 + Z.to_nat (n / 10)))
    (String (Ascii.ascii_of_nat (48 + Z.to_nat (n mod 10))) EmptyString).

Definition strftime_HMS (now : datetime) : string :=
  let s := (now / 1000000) mod 86400 in
  (two_digits (s / 3600) +:+ ":" +:+ two_digits ((s / 60) mod 60) +:+ ":"
   +:+ two_digits (s mod 60))%string.

(** [int(delta.total_seconds())]: whole seconds, rounded towards zero.
    ([total_seconds()] is a float; the quotient below is its integer part for
    every span shorter than some 270 years.) *)
Definition whole_seconds (delta : Z) : Z := Z.quot delta 1000000.

(** [np.mean] of a non-empty list of scores. *)
Definition mean (scores : list Q) : Q :=
  (foldr Qplus 0 scores / inject_Z (Z.of_nat (length scores)))%Q.

Module BehaviorTrackingSystem.

(** The value stored under a student id in [active_students]. *)
Record student_data := {
  name : string;
  first_seen : datetime;
  last_seen : datetime;
  hand_raises : Z;
  looking_away_count : Z;
  attention_scores : list Q;
  total_frames : Z
}.

(** [active_students] is a Python [dict]: the keys are distinct and the
    iteration order is the insertion order.  It is kept as the list of its
    items in that order. *)
Abbreviation dict := (list (string * student_data)).

Definition dict_mem (k : string) (d : dict) : bool :=
  existsb (fun kv => String.eqb kv.1 k) d.

Fixpoint dict_get (k : string) (d : dict) : option student_data :=
  match d with
  | [] => None
  | (k', v) :: rest => if String.eqb k' k then Some v else dict_get k rest
  end.

(** [d[k] = f(d[k])] for a key that is present; nothing for an absent key
    (the source only updates keys it has just made sure are present). *)
Fixpoint dict_update (k : string) (f : student_data -> student_data) (d : dict) : dict :=
  match d with
  | [] => []
  | (k', v) :: rest =>
      if String.eqb k' k then (k', f v) :: rest else (k', v) :: dict_update k f rest
  end.

(** [d[k] = v] for a key that is absent: a new item, last in the order. *)
Definition dict_add (k : string) (v : student_data) (d : dict) : dict := d ++ [(k, v)].

(** [for k in d.keys(): d[k] = f(d[k])]. *)
Definition dict_for_each (f : student_data -> student_data) (d : dict) : dict :=
  map (fun kv => (kv.1, f kv.2)) d.

Record t := {
  hand_detector : HandGestureDetector.t;
  face_movement_detector : FaceMovementDetector.t;
  session_start_time : option datetime;
  active_students : dict;
  attendance_marked : gset string
}.

(** [__init__]; the frame counter and the FPS figures, which only feed the
    overlay, are left out. *)
Definition init : t :=
  {| hand_detector := HandGestureDetector.init;
     face_movement_detector := FaceMovementDetector.init;
     session_start_time := None;
     active_students := [];
     attendance_marked := ∅ |}.

(** Everything [_process_frame] obtains from outside for one frame. *)
Record frame := {
  current_time : datetime;
  current_date : string;
  recognized_students : list Student.t;
  multi_hand_landmarks : list hand_landmarks;
  hand_clock : datetime;
  multi_face_landmarks : option (option head_pose);
  face_clock : datetime
}.

Definition set_active_students (self : t) (d : dict) : t :=
  {| hand_detector := hand_detector self;
     face_movement_detector := face_movement_detector self;
     session_start_time := session_start_time self;
     active_students := d;
     attendance_marked := attendance_marked self |}.

Definition set_hand_detector (self : t) (h : HandGestureDetector.t) : t :=
  {| hand_detector := h;
     face_movement_detector := face_movement_detector self;
     session_start_time := session_start_time self;
     active_students := active_students self;
     attendance_marked := attendance_marked self |}.

Definition set_face_movement_detector (self : t) (f : FaceMovementDetector.t) : t :=
  {| hand_detector := hand_detector self;
     face_movement_detector := f;
     session_start_time := session_start_time self;
     active_students := active_students self;
     attendance_marked := attendance_marked self |}.

Definition set_attendance_marked (self : t) (s : gset string) : t :=
  {| hand_detector := hand_detector self;
     face_movement_detector := face_movement_detector self;
     session_start_time := session_start_time self;
     active_students := active_students self;
     attendance_marked := s |}.

Definition new_student (name : string) (now : datetime) : student_data :=
  {| name := name; first_seen := now; last_seen := now; hand_raises := 0;
     looking_away_count := 0; attention_scores := []; total_frames := 0 |}.

Definition seen (now : datetime) (r : student_data) : student_data :=
  {| name := name r; first_seen := first_seen r; last_seen := now;
     hand_raises := hand_raises r; looking_away_count := looking_away_count r;
     attention_scores := attention_scores r; total_frames := total_frames r + 1 |}.

Definition add_hand_raise (r : student_data) : student_data :=
  {| name := name r; first_seen := first_seen r; last_seen := last_seen r;
     hand_raises := hand_raises r + 1; looking_away_count := looking_away_count r;
     attention_scores := attention_scores r; total_frames := total_frames r |}.

Definition add_looking_away (r : student_data) : student_data :=
  {| name := name r; first_seen := first_seen r; last_seen := last_seen r;
     hand_raises := hand_raises r; looking_away_count := looking_away_count r + 1;
     attention_scores := attention_scores r; total_frames := total_frames r |}.

Definition append_score (score : Q) (r : student_data) : student_data :=
  {| name := name r; first_seen := first_seen r; last_seen := last_seen r;
     hand_raises := hand_raises r; looking_away_count := looking_away_count r;
     attention_scores := attention_scores r ++ [score]; total_frames := total_frames r |}.

Definition clear_statistics (r : student_data) : student_data :=
  {| name := name r; first_seen := first_seen r; last_seen := last_seen r;
     hand_raises := 0; looking_away_count := 0;
     attention_scores := []; total_frames := total_frames r |}.

(** Truth value of [student['student_id']]: [None] and the empty string
    are false. *)
Definition truthy (student_id : option string) : option string :=
  match student_id with
  | Some sid => if String.eqb sid "" then None else Some sid
  | None => None
  end.

(** The body of the loop [for student in recognized_students]. *)
Definition update_student (f : frame) (acc : t * list db_call) (student : Student.t)
    : t * list db_call :=
  let '(self, calls) := acc in
  match truthy (Student.student_id student) with
  | None => (self, calls)
  | Some student_id =>
      let created :=
        if dict_mem student_id (active_students self) then active_students self
        else dict_add student_id (new_student (Student.name student) (current_time f))
               (active_students self) in
      let self1 :=
        set_active_students self (dict_update student_id (seen (current_time f)) created) in
      if decide (student_id ∈ attendance_marked self1) then (self1, calls)
      else
        (set_attendance_marked self1 (attendance_marked self1 ∪ {[student_id]}),
         calls ++ [mark_attendance student_id (current_date f)
                     (strftime_HMS (current_time f))])
  end.

(** Part 1 of [_process_frame]: face recognition and attendance. *)
Definition recognition_stage (self : t) (f : frame) : t * list db_call :=
  fold_left (update_student f) (recognized_students f) (self, []).

(** Part 2: hand gesture detection. *)
Definition hand_stage (self : t) (f : frame) : t :=
  let hand_data := HandGestureDetector.detect_hands (multi_hand_landmarks f) in
  if HandGestureDetector.hands_detected hand_data then
    if HandGestureDetector.hand_data_hand_raised hand_data then
      let '(detector, new_raise) :=
        HandGestureDetector.update_hand_raise_count (hand_detector self) (hand_clock f) true in
      let self1 := set_hand_detector self detector in
      if new_raise then
        set_active_students self1 (dict_for_each add_hand_raise (active_students self1))
      else self1
    else
      set_hand_detector self
        (HandGestureDetector.update_hand_raise_count (hand_detector self) (hand_clock f) false).1
  else self.

(** Part 3: face movement detection. *)
Definition face_stage (self : t) (f : frame) : t :=
  let face_data :=
    FaceMovementDetector.detect_face_movement (face_movement_detector self)
      (multi_face_landmarks f) in
  if FaceMovementDetector.face_detected face_data then
    let self1 :=
      set_active_students self
        (dict_for_each (append_score (FaceMovementDetector.attention_score face_data))
           (active_students self)) in
    if FaceMovementDetector.looking_away face_data then
      let '(detector, new_looking_away) :=
        FaceMovementDetector.update_looking_away_count (face_movement_detector self1)
          (face_clock f) true in
      let self2 := set_face_movement_detector self1 detector in
      if new_looking_away then
        set_active_students self2 (dict_for_each add_looking_away (active_students self2))
      else self2
    else
      set_face_movement_detector self1
        (FaceMovementDetector.update_looking_away_count (face_movement_detector self1)
           (face_clock f) false).1
  else self.

(** [_process_frame]: the new state and the calls made on the database. *)
Definition _process_frame (self : t) (f : frame) : t * list db_call :=
  let '(self1, calls) := recognition_stage self f in
  (face_stage (hand_stage self1 f) f, calls).

(** [_reset_statistics]. *)
Definition _reset_statistics (self : t) : t :=
  {| hand_detector := HandGestureDetector.reset_count (hand_detector self);
     face_movement_detector := FaceMovementDetector.reset_count (face_movement_detector self);
     session_start_time := session_start_time self;
     active_students := dict_for_each clear_statistics (active_students self);
     attendance_marked := attendance_marked self |}.

(** The [log_behavior] call [_save_session_report] makes for one item. *)
Definition report_row (session_date : string) (item : string * student_data) : db_call :=
  let '(student_id, data) := item in
  let avg_attention :=
    match attention_scores data with
    | [] => 0%Q
    | _ :: _ => mean (attention_scores data)
    end in
  let student_duration := last_seen data - first_seen data in
  log_behavior student_id session_date avg_attention (hand_raises data)
    (looking_away_count data) (whole_seconds student_duration).

(** [_save_session_report]; [session_date] is [date.today().isoformat()].
    The state is not modified. *)
Definition _save_session_report (self : t) (session_date : string) : list db_call :=
  match session_start_time self with
  | None => []
  | Some _ => map (report_row session_date) (active_students self)
  end.

(** What one turn of the loop of [start_monitoring_session] does to the
    state: a frame is processed, or a key is handled. *)
Inductive step :=
  | process (f : frame)
  | key_r
  | key_s (session_date : string).

Definition do_step (acc : t * list db_call) (s : step) : t * list db_call :=
  let '(self, calls) := acc in
  match s with
  | process f => let '(self1, new) := _process_frame self f in (self1, calls ++ new)
  | key_r => (_reset_statistics self, calls)
  | key_s session_date => (self, calls ++ _save_session_report self session_date)
  end.

Definition run (self : t) (steps : list step) : t * list db_call :=
  fold_left do_step steps (self, []).

(** [start_monitoring_session]: the start time is set, the loop runs, and
    the [finally] block saves the report. *)
Definition set_session_start_time (self : t) (start : datetime) : t :=
  {| hand_detector := hand_detector self;
     face_movement_detector := face_movement_detector self;
     session_start_time := Some start;
     active_students := active_students self;
     attendance_marked := attendance_marked self |}.

Definition start_monitoring_session (self : t) (start : datetime) (steps : list step)
    (session_date : string) : t * list db_call :=
  let '(self1, calls) := run (set_session_start_time self start) steps in
  (self1, calls ++ _save_session_report self1 session_date).

End BehaviorTrackingSystem.

(** ** The automaton the two update methods share

    [update_hand_raise_count] and [update_looking_away_count] are the same
    function up to the names of the fields.  The properties of sequences of
    calls are proved once, on this common form, and carried to the two
    methods by [of_hand] and [of_face]. *)

Module Debounce.

Record state := {
  active : bool;
  episode_start : option datetime;
  last_confirmed : option datetime;
  confirmed_count : Z;
  sustain_threshold : Z;
  cooldown : Z
}.

Definition cooled (d : state) (now : datetime) : bool :=
  match last_confirmed d with
  | None => true
  | Some last => cooldown d <=? now - last
  end.

Definition update (d : state) (now : datetime) (signal : bool) : state * bool :=
  if signal then
    if negb (active d) then
      ({| active := true; episode_start := Some now;
          last_confirmed := last_confirmed d; confirmed_count := confirmed_count d;
          sustain_threshold := sustain_threshold d; cooldown := cooldown d |}, false)
    else
      match episode_start d with
      | Some start =>
          if (sustain_threshold d <=? now - start) && cooled d now then
            ({| active := active d; episode_start := None;
                last_confirmed := Some now; confirmed_count := confirmed_count d + 1;
                sustain_threshold := sustain_threshold d; cooldown := cooldown d |}, true)
          else (d, false)
      | None => (d, false)
      end
  else
    ({| active := false; episode_start := None;
        last_confirmed := last_confirmed d; confirmed_count := confirmed_count d;
        sustain_threshold := sustain_threshold d; cooldown := cooldown d |}, false).

Fixpoint run (d : state) (calls : list call) : state * list bool :=
  match calls with
  | [] => (d, [])
  | (now, signal) :: rest =>
      let '(d1, out) := update d now signal in
      let '(d2, outs) := run d1 rest in
      (d2, out :: outs)
  end.

Definition of_hand (h : HandGestureDetector.t) : state :=
  {| active := HandGestureDetector.hand_raised h;
     episode_start := HandGestureDetector.hand_raise_start_time h;
     last_confirmed := HandGestureDetector.last_hand_raise_time h;
     confirmed_count := HandGestureDetector.hand_raise_count h;
     sustain_threshold := HandGestureDetector.hand_raise_duration_threshold h;
     cooldown := HandGestureDetector.cooldown_period h |}.

Definition of_face (f : FaceMovementDetector.t) : state :=
  {| active := FaceMovementDetector.is_looking_away f;
     episode_start := FaceMovementDetector.looking_away_start_time f;
     last_confirmed := FaceMovementDetector.last_looking_away_time f;
     confirmed_count := FaceMovementDetector.looking_away_count f;
     sustain_threshold := FaceMovementDetector.looking_away_threshold f;
     cooldown := FaceMovementDetector.cooldown_period f |}.

End Debounce.

(** ** Sequences of calls *)

(** The episode in progress after a sequence of calls, as the reading of
    the clock at its first call: the first call of the run of [true]
    signals that ends the sequence, if the sequence ends with one. *)
Definition episode_step (e : option datetime) (c : call) : option datetime :=
  if c.2 then match e with Some s => Some s | None => Some c.1 end else None.

Definition episode_begin (calls : list call) : option datetime :=
  fold_left episode_step calls None.

(** The episode the detector is timing is the episode of the sequence: the
    detector is active exactly when an episode is in progress, and a start
    time it holds while active is the start of that episode. *)
Definition tracks (d : Debounce.state) (e : option datetime) : Prop :=
  Debounce.active d = bool_decide (is_Some e) /\
  (Debounce.active d = true ->
   forall start, Debounce.episode_start d = Some start -> e = Some start).

(** The readings of the clock never go back. *)
Fixpoint nondecreasing (ts : list datetime) : bool :=
  match ts with
  | [] => true
  | t :: rest =>
      match rest with
      | [] => true
      | t' :: _ => (t <=? t') && nondecreasing rest
      end
  end.

(** How many calls of a sequence returned a confirmation. *)
Fixpoint confirmations (outs : list bool) : nat :=
  match outs with
  | [] => 0%nat
  | out :: rest => ((if out then 1 else 0) + confirmations rest)%nat
  end.

(** The values returned by the calls [from, from + len) of a sequence. *)
Definition slice {A} (from len : nat) (l : list A) : list A := take len (drop from l).

(** ** Logs and sample inputs *)

(** The student ids of the [mark_attendance] calls of a log, in order. *)
Definition marks (calls : list db_call) : list string :=
  omap (fun c => match c with
                 | mark_attendance student_id _ _ => Some student_id
                 | log_behavior _ _ _ _ _ _ => None
                 end) calls.

(** How many times attendance was marked for a student. *)
Definition attendance_calls (student_id : string) (calls : list db_call) : nat :=
  count_occ String.string_dec (marks calls) student_id.

(** The clock readings of the frames of a sequence of steps. *)
Definition frame_times (steps : list BehaviorTrackingSystem.step) : list datetime :=
  omap (fun s => match s with
                 | BehaviorTrackingSystem.process f =>
                     Some (BehaviorTrackingSystem.current_time f)
                 | BehaviorTrackingSystem.key_r | BehaviorTrackingSystem.key_s _ => None
                 end) steps.

(** Two episodes, separated by a call with a false signal; the first
    confirms at its second call and the second as soon as the cooldown has
    passed. *)
Definition two_episodes (sustain cool : Z) : list call :=
  [(0, true); (sustain, true); (sustain + 1, false); (sustain + 2, true);
   (sustain + cool - 1, true); (sustain + cool, true)].

(** A hand held up for ten seconds, sampled every second. *)
Definition ten_seconds : list call :=
  map (fun n => (seconds (Z.of_nat n), true)) (seq 1 10).

(** A frame in which one registered student is recognised, a raised hand is
    seen, and the face is turned 30 degrees away. *)
Definition one_student_frame : BehaviorTrackingSystem.frame :=
  {| BehaviorTrackingSystem.current_time := seconds 36000;
     BehaviorTrackingSystem.current_date := "2024-03-01";
     BehaviorTrackingSystem.recognized_students :=
       [{| Student.name := "Ada"; Student.student_id := Some "S001"%string |}];
     BehaviorTrackingSystem.multi_hand_landmarks :=
       [{| wrist_y := 3 # 10; middle_finger_tip_y := 2 # 10 |}];
     BehaviorTrackingSystem.hand_clock := seconds 36000 + 1;
     BehaviorTrackingSystem.multi_face_landmarks :=
       Some (Some {| pitch := 0; yaw := 30; roll := 0 |});
     BehaviorTrackingSystem.face_clock := seconds 36000 + 2 |}.

(** The log and the attendance set agree: relative to the set [marked0] the
    log started from, every id is marked at most once in the log, no id of
    [marked0] is marked in it, and the set is [marked0] plus the ids marked. *)
Definition ledger_ok (marked0 : gset string)
    (acc : BehaviorTrackingSystem.t * list db_call) : Prop :=
  NoDup (marks acc.2) /\
  (forall student_id, student_id ∈ marks acc.2 -> student_id ∉ marked0) /\
  BehaviorTrackingSystem.attendance_marked acc.1 = marked0 ∪ list_to_set (marks acc.2).

(** Every record was first seen no later than it was last seen, and last
    seen no later than [T]. *)
Definition seen_between (T : datetime) (d : BehaviorTrackingSystem.dict) : Prop :=
  Forall (fun kv : string * BehaviorTrackingSystem.student_data =>
            BehaviorTrackingSystem.first_seen kv.2 <= BehaviorTrackingSystem.last_seen kv.2 /\
            BehaviorTrackingSystem.last_seen kv.2 <= T) d.

(** The same student seen again five and a half minutes later, this time
    with no hand in view and a face whose pose could not be solved. *)
Definition later_frame : BehaviorTrackingSystem.frame :=
  {| BehaviorTrackingSystem.current_time := seconds 36330 + 999999;
     BehaviorTrackingSystem.current_date := "2024-03-01";
     BehaviorTrackingSystem.recognized_students :=
       [{| Student.name := "Ada"; Student.student_id := Some "S001"%string |}];
     BehaviorTrackingSystem.multi_hand_landmarks := [];
     BehaviorTrackingSystem.hand_clock := seconds 36331;
     BehaviorTrackingSystem.multi_face_landmarks := Some None;
     BehaviorTrackingSystem.face_clock := seconds 36331 |}.

Definition two_sightings : list BehaviorTrackingSystem.step :=
  [BehaviorTrackingSystem.process one_student_frame;
   BehaviorTrackingSystem.process later_frame].

(** A frame with a hand in view that is not raised, and nothing else. *)
Definition hand_down_frame : BehaviorTrackingSystem.frame :=
  {| BehaviorTrackingSystem.current_time := seconds 36001;
     BehaviorTrackingSystem.current_date := "2024-03-01";
     BehaviorTrackingSystem.recognized_students := [];
     BehaviorTrackingSystem.multi_hand_landmarks :=
       [{| wrist_y := 8 # 10; middle_finger_tip_y := 7 # 10 |}];
     BehaviorTrackingSystem.hand_clock := seconds 36001;
     BehaviorTrackingSystem.multi_face_landmarks := None;
     BehaviorTrackingSystem.face_clock := seconds 36001 |}.

(** A frame with a raised hand and nothing else, at 10:05:32. *)
Definition hand_back_frame : BehaviorTrackingSystem.frame :=
  {| BehaviorTrackingSystem.current_time := seconds 36332;
     BehaviorTrackingSystem.current_date := "2024-03-01";
     BehaviorTrackingSystem.recognized_students := [];
     BehaviorTrackingSystem.multi_hand_landmarks :=
       [{| wrist_y := 3 # 10; middle_finger_tip_y := 2 # 10 |}];
     BehaviorTrackingSystem.hand_clock := seconds 36332;
     BehaviorTrackingSystem.multi_face_landmarks := None;
     BehaviorTrackingSystem.face_clock := seconds 36332 |}.

(** Two seconds after [one_student_frame]: another student is recognised,
    the first one is not, and the hand is still raised. *)
Definition bob_frame : BehaviorTrackingSystem.frame :=
  {| BehaviorTrackingSystem.current_time := seconds 36002;
     BehaviorTrackingSystem.current_date := "2024-03-01";
     BehaviorTrackingSystem.recognized_students :=
       [{| Student.name := "Bob"; Student.student_id := Some "S002"%string |}];
     BehaviorTrackingSystem.multi_hand_landmarks :=
       [{| wrist_y := 3 # 10; middle_finger_tip_y := 2 # 10 |}];
     BehaviorTrackingSystem.hand_clock := seconds 36002;
     BehaviorTrackingSystem.multi_face_landmarks := None;
     BehaviorTrackingSystem.face_clock := seconds 36002 |}.

(** ** Notions used to state further properties of the aggregator *)

(** The student ids a frame identifies, one per recognised face, in the
    order of [recognized_students]; faces without a usable id are left out. *)
Definition identified (f : BehaviorTrackingSystem.frame) : list string :=
  omap (fun s => BehaviorTrackingSystem.truthy (Student.student_id s))
    (BehaviorTrackingSystem.recognized_students f).

(** In how many recognised faces of the frames of [steps] a student id
    occurs. *)
Fixpoint sightings (student_id : string) (steps : list BehaviorTrackingSystem.step) : Z :=
  match steps with
  | [] => 0
  | BehaviorTrackingSystem.process f :: rest =>
      Z.of_nat (count_occ String.string_dec (identified f) student_id)
      + sightings student_id rest
  | _ :: rest => sightings student_id rest
  end.

(** The student id and the time of day of the [mark_attendance] calls of a
    log, in order. *)
Definition attendance_rows (calls : list db_call) : list (string * string) :=
  omap (fun c => match c with
                 | mark_attendance student_id _ time_in => Some (student_id, time_in)
                 | log_behavior _ _ _ _ _ _ => None
                 end) calls.

(** The records of [d] are still in [d'], at the same positions and under
    the same ids, with the name and the first sighting they had. *)
Definition kept (d d' : BehaviorTrackingSystem.dict) : Prop :=
  forall i student_id r,
    d !! i = Some (student_id, r) ->
    exists r', d' !! i = Some (student_id, r') /\
      BehaviorTrackingSystem.name r' = BehaviorTrackingSystem.name r /\
      BehaviorTrackingSystem.first_seen r' = BehaviorTrackingSystem.first_seen r.

(** The counts of the records stay between 0 and the counts of the
    detectors. *)
Definition counts_bounded (self : BehaviorTrackingSystem.t) : Prop :=
  0 <= HandGestureDetector.hand_raise_count (BehaviorTrackingSystem.hand_detector self) /\
  0 <= FaceMovementDetector.looking_away_count
         (BehaviorTrackingSystem.face_movement_detector self) /\
  Forall (fun kv : string * BehaviorTrackingSystem.student_data =>
            0 <= BehaviorTrackingSystem.hand_raises kv.2
              <= HandGestureDetector.hand_raise_count
                   (BehaviorTrackingSystem.hand_detector self) /\
            0 <= BehaviorTrackingSystem.looking_away_count kv.2
              <= FaceMovementDetector.looking_away_count
                   (BehaviorTrackingSystem.face_movement_detector self))
    (BehaviorTrackingSystem.active_students self).

(** Every attention sample of every record is between 0 and 100. *)
Definition samples_in_range (d : BehaviorTrackingSystem.dict) : Prop :=
  Forall (fun kv : string * BehaviorTrackingSystem.student_data =>
            Forall (fun x : Q => (0 <= x <= 100)%Q)
              (BehaviorTrackingSystem.attention_scores kv.2)) d.

(** The id of every record with the time of day of its first sighting, in
    the order of the dictionary. *)
Definition first_sightings (d : BehaviorTrackingSystem.dict) : list (string * string) :=
  map (fun kv : string * BehaviorTrackingSystem.student_data =>
         (kv.1, strftime_HMS (BehaviorTrackingSystem.first_seen kv.2))) d.

(** [total_frames] agrees with a count [N] of sightings per id: a record
    holds the count of its id, which is at least 1, and an id without a
    record has count 0. *)
Definition frames_counted (N : string -> Z) (d : BehaviorTrackingSystem.dict) : Prop :=
  forall k,
    match BehaviorTrackingSystem.dict_get k d with
    | Some r => BehaviorTrackingSystem.total_frames r = N k /\ 1 <= N k
    | None => N k = 0
    end.

(** A frame in which two faces are found and neither is identified: one
    matched no registered student, the other carries an empty id. *)
Definition strangers_frame : BehaviorTrackingSystem.frame :=
  {| BehaviorTrackingSystem.current_time := seconds 36003;
     BehaviorTrackingSystem.current_date := "2024-03-01";
     BehaviorTrackingSystem.recognized_students :=
       [{| Student.name := "Unknown"; Student.student_id := None |};
        {| Student.name := "Eve"; Student.student_id := Some ""%string |}];
     BehaviorTrackingSystem.multi_hand_landmarks := [];
     BehaviorTrackingSystem.hand_clock := seconds 36003;
     BehaviorTrackingSystem.multi_face_landmarks := None;
     BehaviorTrackingSystem.face_clock := seconds 36003 |}.

(** The attendance calls of a log and the attendance set mirror the
    dictionary of records. *)
Definition attendance_mirror (acc : BehaviorTrackingSystem.t * list db_call) : Prop :=
  attendance_rows acc.2 = first_sightings (BehaviorTrackingSystem.active_students acc.1) /\
  BehaviorTrackingSystem.attendance_marked acc.1
  = list_to_set (BehaviorTrackingSystem.active_students acc.1).*1.

(** Every [log_behavior] call of a log carries an average attention between
    0 and 100. *)
Definition averages_in_range (calls : list db_call) : Prop :=
  Forall (fun c => match c with
                   | log_behavior _ _ avg _ _ _ => (0 <= avg <= 100)%Q
                   | mark_attendance _ _ _ => True
                   end) calls.

(** ** The loop of [start_monitoring_session], turn by turn

    [camera] is what the successive calls of [cap.read()] return: [Some f]
    for a frame ([f] holding what [_process_frame] obtains for it), [None]
    for [ret = False]; a camera that has nothing more to give fails to read.
    [keys] is what the successive calls of [cv2.waitKey(1) & 0xFF] return,
    each with the date [date.today()] would give at that turn.  The loop has
    no bound of its own: the result is [None] when the key readings run out
    before the loop has ended. *)
Definition ord_q : Z := 113.
Definition ord_space : Z := 32.
Definition ord_r : Z := 114.
Definition ord_s : Z := 115.

Fixpoint monitoring_loop (self : BehaviorTrackingSystem.t) (paused : bool)
    (camera : list (option BehaviorTrackingSystem.frame)) (keys : list (Z * string))
    (calls : list db_call) : option (BehaviorTrackingSystem.t * list db_call) :=
  let after_read :=
    if paused then Some (self, camera, calls)
    else
      match camera with
      | Some f :: camera' =>
          let '(self1, new) := BehaviorTrackingSystem._process_frame self f in
          Some (self1, camera', calls ++ new)
      | None :: _ | [] => None
      end in
  match after_read with
  | None => Some (self, calls)
  | Some (self1, camera1, calls1) =>
      match keys with
      | [] => None
      | (key, today) :: keys' =>
          if key =? ord_q then Some (self1, calls1)
          else if key =? ord_space then
            monitoring_loop self1 (negb paused) camera1 keys' calls1
          else if key =? ord_r then
            monitoring_loop (BehaviorTrackingSystem._reset_statistics self1) paused
              camera1 keys' calls1
          else if key =? ord_s then
            monitoring_loop self1 paused camera1 keys'
              (calls1 ++ BehaviorTrackingSystem._save_session_report self1 today)
          else monitoring_loop self1 paused camera1 keys' calls1
      end
  end.

(** The whole method: the start time, the loop, and the [finally] block. *)
Definition monitoring_session (self : BehaviorTrackingSystem.t) (start : datetime)
    (camera : list (option BehaviorTrackingSystem.frame)) (keys : list (Z * string))
    (session_date : string) : option (BehaviorTrackingSystem.t * list db_call) :=
  match monitoring_loop (BehaviorTrackingSystem.set_session_start_time self start)
          false camera keys [] with
  | Some (self1, calls) =>
      Some (self1, calls ++ BehaviorTrackingSystem._save_session_report self1 session_date)
  | None => None
  end.

(** The frames processed and the keys acted upon by the loop, in order. *)
Fixpoint loop_steps (paused : bool) (camera : list (option BehaviorTrackingSystem.frame))
    (keys : list (Z * string)) : list BehaviorTrackingSystem.step :=
  let on_keys (camera1 : list (option BehaviorTrackingSystem.frame)) :=
    match keys with
    | [] => []
    | (key, today) :: keys' =>
        if key =? ord_q then []
        else if key =? ord_space then loop_steps (negb paused) camera1 keys'
        else if key =? ord_r then
          BehaviorTrackingSystem.key_r :: loop_steps paused camera1 keys'
        else if key =? ord_s then
          BehaviorTrackingSystem.key_s today :: loop_steps paused camera1 keys'
        else loop_steps paused camera1 keys'
    end in
  if paused then on_keys camera
  else
    match camera with
    | Some f :: camera' => BehaviorTrackingSystem.process f :: on_keys camera'
    | None :: _ | [] => []
    end.


(** A camera that delivers two frames and then fails, and a keyboard on which
    ['s'] is pressed after the first frame, the space bar twice after the
    second, and ['q'] at the end. *)
Definition sample_camera : list (option BehaviorTrackingSystem.frame) :=
  [Some one_student_frame; Some later_frame; None].

Definition sample_keys : list (Z * string) :=
  [(ord_s, "2024-03-01"%string); (ord_space, "2024-03-01"%string);
   (ord_space, "2024-03-01"%string); (ord_q, "2024-03-01"%string)].

(** ** [face_recognition_module.py]: who a detected face is

    The encodings and the distances between them are computed by the
    [face_recognition] library.  A detected face enters the model as the list
    [face_distance] returns for it, one distance per registered encoding, with
    its location; [compare_faces] with [tolerance=0.6] is the test
    [distance <= 0.6] on the same list. *)

(** [np.argmin]: the index of the first occurrence of the least element. *)
Fixpoint argmin_from (best_index : nat) (best : Q) (i : nat) (l : list Q) : nat :=
  match l with
  | [] => best_index
  | x :: rest =>
      if Qlt_bool x best then argmin_from i x (S i) rest
      else argmin_from best_index best (S i) rest
  end.

Definition argmin (l : list Q) : nat :=
  match l with
  | [] => 0%nat
  | x :: rest => argmin_from 0 x 1 rest
  end.

Module FaceRecognitionSystem.

Definition encoding := list Q.
Definition location := (Z * Z * Z * Z)%type.

Record t := {
  known_face_encodings : list encoding;
  known_face_names : list string;
  known_student_ids : list string
}.

(** An entry of the list [recognize_faces] returns. *)
Record recognized := {
  name : string;
  student_id : option string;
  face_location : location;
  confidence : Q
}.

Definition tolerance : Q := 6 # 10.

(** The body of the loop of [recognize_faces] for one face.  [None] stands
    for the [IndexError] raised when the list of names or of ids is shorter
    than the list of encodings. *)
Definition recognize_face (self : t) (face_distances : list Q) (where_ : location)
    : option recognized :=
  let unknown :=
    {| name := "Unknown"; student_id := None; face_location := where_;
       confidence := 0%Q |} in
  match face_distances with
  | [] => Some unknown
  | _ :: _ =>
      let best_match_index := argmin face_distances in
      match face_distances !! best_match_index with
      | Some distance =>
          if Qle_bool distance tolerance then
            match known_face_names self !! best_match_index,
                  known_student_ids self !! best_match_index with
            | Some name, Some student_id =>
                Some {| name := name; student_id := Some student_id;
                        face_location := where_;
                        confidence := (1 - distance)%Q |}
            | _, _ => None
            end
          else Some unknown
      | None => None
      end
  end.

(** [recognize_faces], given for each detected face its distances and its
    location. *)
Fixpoint recognize_faces (self : t) (faces : list (list Q * location))
    : option (list recognized) :=
  match faces with
  | [] => Some []
  | (face_distances, where_) :: rest =>
      match recognize_face self face_distances where_ with
      | Some r =>
          match recognize_faces self rest with
          | Some rs => Some (r :: rs)
          | None => None
          end
      | None => None
      end
  end.

(** [register_student].  [loaded] is what loading the image and encoding
    its faces gave: the text of the exception raised, or the encodings of the
    faces found.  Writing the file of encodings is left out. *)
Definition register_student (self : t) (loaded : string + list encoding)
    (student_id name : string) : t * (bool * string) :=
  match loaded with
  | inl e => (self, (false, ("Error registering student: " +:+ e)%string))
  | inr [] => (self, (false, "No face detected in the image!"%string))
  | inr [face_encoding] =>
      ({| known_face_encodings := known_face_encodings self ++ [face_encoding];
          known_face_names := known_face_names self ++ [name];
          known_student_ids := known_student_ids self ++ [student_id] |},
       (true, ("Student " +:+ name +:+ " registered successfully!")%string))
  | inr (_ :: _ :: _) =>
      (self, (false,
              "Multiple faces detected! Please use an image with only one face."%string))
  end.

(** The three lists go by index. *)
Definition parallel (self : t) : Prop :=
  length (known_face_names self) = length (known_face_encodings self) /\
  length (known_student_ids self) = length (known_face_encodings self).

(** The part of an entry [_process_frame] reads. *)
Definition to_student (r : recognized) : Student.t :=
  {| Student.name := name r; Student.student_id := student_id r |}.

End FaceRecognitionSystem.

(** Two registered students, and a frame with three faces: one nearest to
    the second student, one too far from both, one nearest to the first. *)
Definition two_registered : FaceRecognitionSystem.t :=
  {| FaceRecognitionSystem.known_face_encodings := [[0%Q]; [1%Q]];
     FaceRecognitionSystem.known_face_names := ["Ada"%string; "Bob"%string];
     FaceRecognitionSystem.known_student_ids := ["S001"%string; "S002"%string] |}.

Definition three_faces : list (list Q * FaceRecognitionSystem.location) :=
  [([(55 # 100)%Q; (30 # 100)%Q], (10, 110, 110, 10));
   ([(70 # 100)%Q; (61 # 100)%Q], (10, 310, 110, 210));
   ([(40 # 100)%Q; (40 # 100)%Q], (10, 510, 110, 410))].

(** A frame whose recognised faces are the given entries, with no hand and
    no face mesh. *)
Definition recognized_frame (rs : list FaceRecognitionSystem.recognized)
    : BehaviorTrackingSystem.frame :=
  {| BehaviorTrackingSystem.current_time := seconds 36000;
     BehaviorTrackingSystem.current_date := "2024-03-01";
     BehaviorTrackingSystem.recognized_students :=
       map FaceRecognitionSystem.to_student rs;
     BehaviorTrackingSystem.multi_hand_landmarks := [];
     BehaviorTrackingSystem.hand_clock := seconds 36000;
     BehaviorTrackingSystem.multi_face_landmarks := None;
     BehaviorTrackingSystem.face_clock := seconds 36000 |}.

(** ** [web_app.py]: the same pipeline behind requests

    The dictionary [monitoring_state] and the two global detectors hold what
    the fields of [BehaviorTrackingSystem] hold; they are kept in a value of
    that type.  Requests and turns of the streaming loop are taken one at a
    time. *)

Module WebApp.

Record t := {
  is_monitoring : bool;
  (** [None] for no capture object, otherwise whether it is opened *)
  camera : option bool;
  monitoring_state : BehaviorTrackingSystem.t
}.

Definition init : t :=
  {| is_monitoring := false; camera := None;
     monitoring_state := BehaviorTrackingSystem.init |}.

(** The calls made on [db] by the routes below: the query with which
    [start_monitoring] begins, and the two calls the desktop application
    makes as well. *)
Inductive call :=
  | get_all_students
  | made (c : db_call).

Inductive request :=
  (** POST /api/start_monitoring: whether [db.get_all_students()] is not
      empty, whether the camera opens, and the reading of the clock *)
  | start_monitoring (students_registered : bool) (camera_opens : bool) (now : datetime)
  (** POST /api/stop_monitoring, with the date of the report *)
  | stop_monitoring (session_date : string)
  (** one turn of the loop of [generate_frames], with what [camera.read()]
      gives if it is called *)
  | next_frame (read : option BehaviorTrackingSystem.frame).

(** [process_frame].  Its statements are those of
    [BehaviorTrackingSystem._process_frame] on [monitoring_state] and the
    global detectors, in the same order: the recognised students, then the
    hand, then the face.  One thing differs outside the state: here
    [detect_hands] and [detect_face_movement] are given the image on which
    [draw_face_boxes] (and [draw_hand_landmarks]) have drawn, where the
    desktop application gives them the image as read.  A
    [BehaviorTrackingSystem.frame] holds what the recogniser and the two
    detectors return, whatever image they were given. *)
Definition process_frame (state : BehaviorTrackingSystem.t)
    (f : BehaviorTrackingSystem.frame) : BehaviorTrackingSystem.t * list db_call :=
  let '(state1, calls) := BehaviorTrackingSystem.recognition_stage state f in
  (BehaviorTrackingSystem.face_stage (BehaviorTrackingSystem.hand_stage state1 f) f,
   calls).

(** [save_session_report]. *)
Definition save_session_report (state : BehaviorTrackingSystem.t) (session_date : string)
    : list db_call :=
  match BehaviorTrackingSystem.session_start_time state with
  | None => []
  | Some _ =>
      map (BehaviorTrackingSystem.report_row session_date)
        (BehaviorTrackingSystem.active_students state)
  end.

(** The state, the calls made on the database, and the JSON answer of the
    two POST requests ([success], [message]).  [start_monitoring] queries
    the students before anything else, whatever it answers. *)
Definition handle (self : t) (r : request) : t * list call * option (bool * string) :=
  match r with
  | start_monitoring students_registered camera_opens now =>
      if negb students_registered then
        (self, [get_all_students], Some (false, "No students registered!"%string))
      else if negb (is_monitoring self) then
        if negb camera_opens then
          ({| is_monitoring := is_monitoring self; camera := Some false;
              monitoring_state := monitoring_state self |}, [get_all_students],
           Some (false, "Could not open camera!"%string))
        else
          ({| is_monitoring := true; camera := Some true;
              monitoring_state :=
                {| BehaviorTrackingSystem.hand_detector :=
                     HandGestureDetector.reset_count
                       (BehaviorTrackingSystem.hand_detector (monitoring_state self));
                   BehaviorTrackingSystem.face_movement_detector :=
                     FaceMovementDetector.reset_count
                       (BehaviorTrackingSystem.face_movement_detector
                          (monitoring_state self));
                   BehaviorTrackingSystem.session_start_time := Some now;
                   BehaviorTrackingSystem.active_students := [];
                   BehaviorTrackingSystem.attendance_marked := ∅ |} |},
           [get_all_students],
           Some (true, "Monitoring started!"%string))
      else (self, [get_all_students], Some (false, "Already monitoring!"%string))
  | stop_monitoring session_date =>
      if is_monitoring self then
        ({| is_monitoring := false; camera := None;
            monitoring_state := monitoring_state self |},
         map made (save_session_report (monitoring_state self) session_date),
         Some (true, "Monitoring stopped!"%string))
      else (self, [], Some (false, "Not currently monitoring!"%string))
  | next_frame read =>
      if is_monitoring self then
        match camera self, read with
        | Some true, Some f =>
            let '(state1, calls) := process_frame (monitoring_state self) f in
            ({| is_monitoring := is_monitoring self; camera := camera self;
                monitoring_state := state1 |}, map made calls, None)
        | _, _ => (self, [], None)
        end
      else (self, [], None)
  end.

(** A sequence of requests: the final state and all the calls made on the
    database. *)
Definition serve_step (acc : t * list call) (r : request) : t * list call :=
  let '(self1, calls, _) := handle acc.1 r in (self1, acc.2 ++ calls).

Definition serve (self : t) (requests : list request) : t * list call :=
  fold_left serve_step requests (self, []).

(** A request that starts a session. *)
Definition starts (r : request) : bool :=
  match r with
  | start_monitoring true true _ => true
  | _ => false
  end.

(** One query of the students for each start request of a sequence. *)
Definition start_queries (requests : list request) : list call :=
  flat_map (fun r => match r with
                     | start_monitoring _ _ _ => [get_all_students]
                     | _ => []
                     end) requests.

End WebApp.

(** Resetting the detectors gives the two freshly constructed ones. *)
Definition default_thresholds (self : BehaviorTrackingSystem.t) : Prop :=
  HandGestureDetector.reset_count (BehaviorTrackingSystem.hand_detector self)
    = HandGestureDetector.init /\
  FaceMovementDetector.reset_count (BehaviorTrackingSystem.face_movement_detector self)
    = FaceMovementDetector.init.

(** An earlier session on the web application: two frames and a stop. *)
Definition earlier_requests : list WebApp.request :=
  [WebApp.start_monitoring true true (seconds 30000);
   WebApp.next_frame (Some one_student_frame);
   WebApp.next_frame (Some bob_frame);
   WebApp.stop_monitoring "2024-03-01"].

(** The hand raises credited to a student id: those of its record, 0 for an
    id without a record. *)
Definition credited (student_id : string) (d : BehaviorTrackingSystem.dict) : Z :=
  match BehaviorTrackingSystem.dict_get student_id d with
  | Some r => BehaviorTrackingSystem.hand_raises r
  | None => 0
  end.

(** A frame with two hands, the first one down and the second one raised. *)
Definition second_hand_raised_frame : BehaviorTrackingSystem.frame :=
  {| BehaviorTrackingSystem.current_time := seconds 36002;
     BehaviorTrackingSystem.current_date := "2024-03-01";
     BehaviorTrackingSystem.recognized_students :=
       [{| Student.name := "Ada"; Student.student_id := Some "S001"%string |}];
     BehaviorTrackingSystem.multi_hand_landmarks :=
       [{| wrist_y := 8 # 10; middle_finger_tip_y := 7 # 10 |};
        {| wrist_y := 3 # 10; middle_finger_tip_y := 2 # 10 |}];
     BehaviorTrackingSystem.hand_clock := seconds 36002;
     BehaviorTrackingSystem.multi_face_landmarks := None;
     BehaviorTrackingSystem.face_clock := seconds 36002 |}.



(** * Proofs *)

Section DebounceFacts.

Import Debounce.

Lemma of_hand_update h now signal :
  update (of_hand h) now signal =
  (of_hand (HandGestureDetector.update_hand_raise_count h now signal).1,
   (HandGestureDetector.update_hand_raise_count h now signal).2).
Proof.
  destruct h as [a st th n la cd].
  unfold update, HandGestureDetector.update_hand_raise_count, cooled, of_hand; simpl.
  destruct signal, a; simpl; try reflexivity.
  destruct st as [start|]; simpl; try reflexivity.
  destruct (th <=? now - start); simpl; try reflexivity.
  destruct la as [last|]; simpl; try reflexivity.
  destruct (cd <=? now - last); reflexivity.
Qed.

Lemma of_face_update f now signal :
  update (of_face f) now signal =
  (of_face (FaceMovementDetector.update_looking_away_count f now signal).1,
   (FaceMovementDetector.update_looking_away_count f now signal).2).
Proof.
  destruct f as [n a st th la cd yt pt].
  unfold update, FaceMovementDetector.update_looking_away_count, cooled, of_face; simpl.
  destruct signal, a; simpl; try reflexivity.
  destruct st as [start|]; simpl; try reflexivity.
  destruct (th <=? now - start); simpl; try reflexivity.
  destruct la as [last|]; simpl; try reflexivity.
  destruct (cd <=? now - last); reflexivity.
Qed.

Lemma of_hand_run calls : forall h,
  run (of_hand h) calls =
  (of_hand (HandGestureDetector.run h calls).1, (HandGestureDetector.run h calls).2).
Proof.
  induction calls as [|[now signal] rest IH]; intros h; simpl; [reflexivity|].
  rewrite of_hand_update.
  destruct (HandGestureDetector.update_hand_raise_count h now signal) as [h1 out]; simpl.
  rewrite IH.
  destruct (HandGestureDetector.run h1 rest) as [h2 outs]; reflexivity.
Qed.

Lemma of_face_run calls : forall f,
  run (of_face f) calls =
  (of_face (FaceMovementDetector.run f calls).1, (FaceMovementDetector.run f calls).2).
Proof.
  induction calls as [|[now signal] rest IH]; intros f; simpl; [reflexivity|].
  rewrite of_face_update.
  destruct (FaceMovementDetector.update_looking_away_count f now signal) as [f1 out]; simpl.
  rewrite IH.
  destruct (FaceMovementDetector.run f1 rest) as [f2 outs]; reflexivity.
Qed.

(** What a confirming call found and what it left. *)
Lemma update_confirms d now signal d' :
  update d now signal = (d', true) ->
  signal = true /\ active d = true /\
  (exists start, episode_start d = Some start /\ sustain_threshold d <= now - start) /\
  (forall last, last_confirmed d = Some last -> cooldown d <= now - last) /\
  active d' = true /\ episode_start d' = None /\ last_confirmed d' = Some now /\
  cooldown d' = cooldown d.
Proof.
  unfold update, cooled. intros H.
  destruct signal; [|discriminate].
  destruct (active d) eqn:Ha; simpl in H; [|discriminate].
  destruct (episode_start d) as [start|] eqn:Hs; [|discriminate].
  destruct (sustain_threshold d <=? now - start) eqn:Hth; simpl in H; [|discriminate].
  destruct (last_confirmed d) as [last|] eqn:Hl.
  - destruct (cooldown d <=? now - last) eqn:Hcd; [|discriminate].
    injection H as <-. simpl. repeat split; try reflexivity; try assumption.
    + exists start. split; [reflexivity | lia].
    + intros l [= <-]. lia.
  - injection H as <-. simpl. repeat split; try reflexivity; try assumption.
    + exists start. split; [reflexivity | lia].
    + intros l [=].
Qed.

(** A call that does not confirm keeps the time of the last confirmation. *)
Lemma update_silent d now signal d' :
  update d now signal = (d', false) ->
  last_confirmed d' = last_confirmed d /\ cooldown d' = cooldown d.
Proof.
  unfold update. intros H.
  destruct signal; [|injection H as <-; split; reflexivity].
  destruct (active d); simpl in H; [|injection H as <-; split; reflexivity].
  destruct (episode_start d) as [start|]; [|injection H as <-; split; reflexivity].
  destruct (_ && _); [discriminate|]. injection H as <-; split; reflexivity.
Qed.

Lemma update_thresholds d now signal :
  sustain_threshold (update d now signal).1 = sustain_threshold d /\
  cooldown (update d now signal).1 = cooldown d.
Proof.
  unfold update.
  destruct signal; [|split; reflexivity].
  destruct (active d); simpl; [|split; reflexivity].
  destruct (episode_start d) as [start|]; [|split; reflexivity].
  destruct (_ && _); split; reflexivity.
Qed.

Lemma run_thresholds calls : forall d,
  sustain_threshold (run d calls).1 = sustain_threshold d /\
  cooldown (run d calls).1 = cooldown d.
Proof.
  induction calls as [|[now signal] rest IH]; intros d; simpl; [split; reflexivity|].
  destruct (update d now signal) as [d1 out] eqn:Hu.
  destruct (run d1 rest) as [d2 outs] eqn:Hr; simpl.
  specialize (IH d1). rewrite Hr in IH. simpl in IH.
  pose proof (update_thresholds d now signal) as Ht. rewrite Hu in Ht. simpl in Ht.
  destruct IH as [-> ->]. exact Ht.
Qed.

Lemma run_app calls1 calls2 : forall d,
  run d (calls1 ++ calls2) =
  ((run (run d calls1).1 calls2).1, (run d calls1).2 ++ (run (run d calls1).1 calls2).2).
Proof.
  induction calls1 as [|[now signal] rest IH]; intros d; simpl.
  - destruct (run d calls2); reflexivity.
  - destruct (update d now signal) as [d1 out].
    rewrite IH. destruct (run d1 rest) as [d2 outs]; simpl. reflexivity.
Qed.

Lemma run_cons d now signal rest :
  run d ((now, signal) :: rest) =
  ((run (update d now signal).1 rest).1,
   (update d now signal).2 :: (run (update d now signal).1 rest).2).
Proof.
  cbn [run]. destruct (update d now signal) as [d1 out]. cbn [fst snd].
  destruct (run d1 rest) as [d2 outs]. reflexivity.
Qed.

Lemma run_length calls : forall d, length (run d calls).2 = length calls.
Proof.
  induction calls as [|[now signal] rest IH]; intros d; simpl; [reflexivity|].
  destruct (update d now signal) as [d1 out].
  specialize (IH d1). destruct (run d1 rest) as [d2 outs]; simpl in *. lia.
Qed.

Lemma update_tracks d e now signal :
  tracks d e -> tracks (update d now signal).1 (episode_step e (now, signal)).
Proof.
  intros [Ha Hs]. unfold update, episode_step, tracks; simpl.
  destruct signal; simpl; [|split; [reflexivity | discriminate]].
  destruct (active d) eqn:Had; simpl.
  - destruct e as [s|]; [|discriminate].
    destruct (episode_start d) as [start|] eqn:Hst; simpl.
    + destruct (_ && _); simpl.
      * split; [reflexivity | intros _ ? [=]].
      * rewrite Had, Hst. split; [reflexivity | intros _ ? [= <-]; eauto].
    + rewrite Had, Hst. split; [reflexivity | intros _ ? [=]].
  - destruct e as [s|]; [discriminate|].
    split; [reflexivity | intros _ ? [= <-]; reflexivity].
Qed.

Lemma run_tracks calls : forall d e,
  tracks d e -> tracks (run d calls).1 (fold_left episode_step calls e).
Proof.
  induction calls as [|[now signal] rest IH]; intros d e Ht; simpl; [assumption|].
  pose proof (update_tracks d e now signal Ht) as Ht1.
  destruct (update d now signal) as [d1 out]; simpl in Ht1.
  specialize (IH d1 _ Ht1).
  destruct (run d1 rest) as [d2 outs]; exact IH.
Qed.

Lemma tracks_idle d : active d = false -> tracks d None.
Proof. intros Ha. split; [rewrite Ha; reflexivity | rewrite Ha; discriminate]. Qed.

(** Confirmation needs a timed episode that has lasted long enough. *)
Lemma run_confirm_sustained d calls now signal d' :
  active d = false ->
  update (run d calls).1 now signal = (d', true) ->
  signal = true /\
  exists start, episode_begin calls = Some start /\
    episode_start (run d calls).1 = Some start /\
    sustain_threshold d <= now - start.
Proof.
  intros Ha Hu.
  pose proof (run_tracks calls d None (tracks_idle d Ha)) as [_ Ht].
  destruct (update_confirms _ _ _ _ Hu) as (-> & Hact & (start & Hst & Hle) & _).
  split; [reflexivity|]. exists start.
  rewrite (proj1 (run_thresholds calls d)) in Hle.
  repeat split; [exact (Ht Hact _ Hst) | assumption | assumption].
Qed.

Lemma nondecreasing_cons t ts :
  nondecreasing (t :: ts) = true -> Forall (Z.le t) ts /\ nondecreasing ts = true.
Proof.
  revert t. induction ts as [|t' ts IH]; intros t H; [split; [constructor | reflexivity]|].
  change (((t <=? t') && nondecreasing (t' :: ts)) = true) in H.
  apply andb_prop in H as [Hle Hnd]. apply Z.leb_le in Hle.
  split; [|assumption].
  constructor; [assumption|].
  destruct (IH _ Hnd) as [Hall _].
  eapply Forall_impl; [exact Hall | intros x Hx; simpl in Hx; lia].
Qed.

(** From a detector that last confirmed at [last], a later confirmation is
    at least the cooldown after [last]. *)
Lemma run_confirm_after_last calls : forall d last,
  last_confirmed d = Some last ->
  Forall (fun c : call => last <= c.1) calls ->
  nondecreasing (calls.*1) = true ->
  forall j now signal,
    calls !! j = Some (now, signal) -> (run d calls).2 !! j = Some true ->
    cooldown d <= now - last.
Proof.
  induction calls as [|[t s] rest IH]; intros d last Hl Hall Hnd j now signal Hj Ho;
    [discriminate|].
  simpl in Ho. rewrite fmap_cons in Hnd.
  apply nondecreasing_cons in Hnd as [Hge Hnd]. rewrite Forall_fmap in Hge.
  destruct (update d t s) as [d1 o] eqn:Hu.
  destruct (run d1 rest) as [d2 outs] eqn:Hr.
  apply Forall_cons in Hall as [Hlt Hall]. simpl in Hlt.
  destruct j as [|j]; simpl in Hj, Ho.
  - injection Hj as -> ->. injection Ho as ->.
    destruct (update_confirms _ _ _ _ Hu) as (_ & _ & _ & Hcd & _). auto.
  - assert (Houts : (run d1 rest).2 !! j = Some true) by (rewrite Hr; exact Ho).
    destruct o.
    + destruct (update_confirms _ _ _ _ Hu) as (_ & _ & _ & _ & _ & _ & Hl1 & Hc).
      pose proof (IH d1 t Hl1 Hge Hnd j now signal Hj Houts). lia.
    + destruct (update_silent _ _ _ _ Hu) as [Hl1 Hc]. rewrite Hl in Hl1.
      pose proof (IH d1 last Hl1 Hall Hnd j now signal Hj Houts). lia.
Qed.

(** Two confirming calls of a sequence are a cooldown apart. *)
Lemma run_confirmations_spaced calls : forall d i j ti si tj sj,
  nondecreasing (calls.*1) = true ->
  (i < j)%nat ->
  calls !! i = Some (ti, si) -> calls !! j = Some (tj, sj) ->
  (run d calls).2 !! i = Some true -> (run d calls).2 !! j = Some true ->
  cooldown d <= tj - ti.
Proof.
  induction calls as [|[t s] rest IH]; intros d i j ti si tj sj Hnd Hij Hi Hj Hoi Hoj;
    [discriminate|].
  simpl in Hoi, Hoj. rewrite fmap_cons in Hnd.
  apply nondecreasing_cons in Hnd as [Hge Hnd]. rewrite Forall_fmap in Hge.
  destruct (update d t s) as [d1 o] eqn:Hu.
  destruct (run d1 rest) as [d2 outs] eqn:Hr.
  pose proof (update_thresholds d t s) as [_ Hc]. rewrite Hu in Hc. simpl in Hc.
  destruct j as [|j]; [lia|]. simpl in Hj, Hoj.
  assert (Houts : (run d1 rest).2 !! j = Some true) by (rewrite Hr; exact Hoj).
  destruct i as [|i]; simpl in Hi, Hoi.
  - injection Hi as -> ->. injection Hoi as ->.
    destruct (update_confirms _ _ _ _ Hu) as (_ & _ & _ & _ & _ & _ & Hl1 & _).
    pose proof (run_confirm_after_last rest d1 ti Hl1 Hge Hnd j tj sj Hj Houts). lia.
  - assert (Houti : (run d1 rest).2 !! i = Some true) by (rewrite Hr; exact Hoi).
    rewrite <- Hc. eapply (IH d1 i j); eauto. lia.
Qed.

(** After a confirmation, the rest of the episode is silent. *)
Lemma run_spent ep : forall d,
  active d = true -> episode_start d = None ->
  Forall (fun c : call => c.2 = true) ep ->
  confirmations (run d ep).2 = 0%nat.
Proof.
  induction ep as [|[t s] rest IH]; intros d Ha Hs Hall; [reflexivity|].
  apply Forall_cons in Hall as [Hsig Hall]. simpl in Hsig. subst s.
  simpl. unfold update. rewrite Ha, Hs. simpl.
  specialize (IH d Ha Hs Hall).
  destruct (run d rest) as [d2 outs]. simpl in *. exact IH.
Qed.

(** An uninterrupted run of [true] signals confirms at most once. *)
Lemma run_episode_once ep : forall d,
  Forall (fun c : call => c.2 = true) ep ->
  (confirmations (run d ep).2 <= 1)%nat.
Proof.
  induction ep as [|[t s] rest IH]; intros d Hall; [simpl; lia|].
  apply Forall_cons in Hall as [Hsig Hall]. simpl in Hsig. subst s.
  rewrite run_cons. destruct (update d t true) as [d1 o] eqn:Hu.
  cbn [fst snd confirmations].
  destruct o.
  - destruct (update_confirms _ _ _ _ Hu) as (_ & _ & _ & _ & Ha & Hs & _).
    rewrite (run_spent rest d1 Ha Hs Hall). lia.
  - exact (IH d1 Hall).
Qed.

Lemma confirmations_app outs1 outs2 :
  confirmations (outs1 ++ outs2) = (confirmations outs1 + confirmations outs2)%nat.
Proof. induction outs1 as [|o outs1 IH]; simpl; [reflexivity | rewrite IH; lia]. Qed.

Lemma confirmations_lookup outs i :
  outs !! i = Some true -> (1 <= confirmations outs)%nat.
Proof.
  revert i. induction outs as [|o outs IH]; intros [|i] H; try discriminate.
  - injection H as ->. simpl. lia.
  - simpl in *. specialize (IH _ H). lia.
Qed.

(** With at most one confirmation, whatever follows one is silent. *)
Lemma confirmations_once_later outs i j out :
  (confirmations outs <= 1)%nat -> (i < j)%nat ->
  outs !! i = Some true -> outs !! j = Some out -> out = false.
Proof.
  revert i j. induction outs as [|o outs IH]; intros i j Hc Hij Hi Hj; [discriminate|].
  destruct j as [|j]; [lia|]. simpl in Hj.
  destruct i as [|i]; simpl in Hi.
  - injection Hi as ->. simpl in Hc.
    destruct out; [|reflexivity].
    apply confirmations_lookup in Hj. lia.
  - simpl in Hc. apply (IH i j); [lia | lia | assumption | assumption].
Qed.

(** The values returned during a stretch of a longer sequence are those of
    the stretch run from the state the calls before it left. *)
Lemma run_slice d pre ep post :
  slice (length pre) (length ep) (run d (pre ++ ep ++ post)).2 =
  (run (run d pre).1 ep).2.
Proof.
  unfold slice. rewrite !run_app. simpl.
  rewrite drop_app_length'; [|symmetry; apply run_length].
  rewrite take_app_length'; [reflexivity | symmetry; apply run_length].
Qed.

End DebounceFacts.

(** ** Sequences of calls on the two detectors *)

Lemma hand_run_state h calls :
  Debounce.of_hand (HandGestureDetector.run h calls).1 =
  (Debounce.run (Debounce.of_hand h) calls).1.
Proof. rewrite of_hand_run. reflexivity. Qed.

Lemma hand_run_outs h calls :
  (HandGestureDetector.run h calls).2 = (Debounce.run (Debounce.of_hand h) calls).2.
Proof. rewrite of_hand_run. reflexivity. Qed.

Lemma face_run_state f calls :
  Debounce.of_face (FaceMovementDetector.run f calls).1 =
  (Debounce.run (Debounce.of_face f) calls).1.
Proof. rewrite of_face_run. reflexivity. Qed.

Lemma face_run_outs f calls :
  (FaceMovementDetector.run f calls).2 = (Debounce.run (Debounce.of_face f) calls).2.
Proof. rewrite of_face_run. reflexivity. Qed.

Lemma hand_confirm_sustained h calls now raised :
  HandGestureDetector.hand_raised h = false ->
  (HandGestureDetector.update_hand_raise_count
     (HandGestureDetector.run h calls).1 now raised).2 = true ->
  raised = true /\
  exists start, episode_begin calls = Some start /\
    HandGestureDetector.hand_raise_start_time (HandGestureDetector.run h calls).1
      = Some start /\
    HandGestureDetector.hand_raise_duration_threshold h <= now - start.
Proof.
  intros Ha Hout.
  pose proof (of_hand_update (HandGestureDetector.run h calls).1 now raised) as Hu.
  rewrite Hout, hand_run_state in Hu.
  destruct (run_confirm_sustained (Debounce.of_hand h) calls now raised _ Ha Hu)
    as (-> & start & He & Hs & Hle).
  split; [reflexivity|]. exists start.
  rewrite <- hand_run_state in Hs. auto.
Qed.

Lemma face_confirm_sustained f calls now away :
  FaceMovementDetector.is_looking_away f = false ->
  (FaceMovementDetector.update_looking_away_count
     (FaceMovementDetector.run f calls).1 now away).2 = true ->
  away = true /\
  exists start, episode_begin calls = Some start /\
    FaceMovementDetector.looking_away_start_time (FaceMovementDetector.run f calls).1
      = Some start /\
    FaceMovementDetector.looking_away_threshold f <= now - start.
Proof.
  intros Ha Hout.
  pose proof (of_face_update (FaceMovementDetector.run f calls).1 now away) as Hu.
  rewrite Hout, face_run_state in Hu.
  destruct (run_confirm_sustained (Debounce.of_face f) calls now away _ Ha Hu)
    as (-> & start & He & Hs & Hle).
  split; [reflexivity|]. exists start.
  rewrite <- face_run_state in Hs. auto.
Qed.

(** C1.  After any sequence of update calls on a detector that started
    idle, a call at time [now] returns a confirmation only if its signal is
    true, an episode is in progress (the detector holds the start time of the
    episode, which is the time of the first call of the current run of true
    signals), and [now] minus that start is at least the sustain threshold.
    Hence a call made while the episode has lasted less than the threshold
    returns no confirmation.  This holds for the hand-raise detector and for
    the looking-away detector, whatever the readings of the clock. *)
Theorem confirmation_only_after_sustain :
  (forall h calls now raised,
     HandGestureDetector.hand_raised h = false ->
     (HandGestureDetector.update_hand_raise_count
        (HandGestureDetector.run h calls).1 now raised).2 = true ->
     raised = true /\
     exists start, episode_begin calls = Some start /\
       HandGestureDetector.hand_raise_start_time (HandGestureDetector.run h calls).1
         = Some start /\
       HandGestureDetector.hand_raise_duration_threshold h <= now - start) /\
  (forall h calls now raised start,
     HandGestureDetector.hand_raised h = false ->
     episode_begin calls = Some start ->
     now - start < HandGestureDetector.hand_raise_duration_threshold h ->
     (HandGestureDetector.update_hand_raise_count
        (HandGestureDetector.run h calls).1 now raised).2 = false) /\
  (forall f calls now away,
     FaceMovementDetector.is_looking_away f = false ->
     (FaceMovementDetector.update_looking_away_count
        (FaceMovementDetector.run f calls).1 now away).2 = true ->
     away = true /\
     exists start, episode_begin calls = Some start /\
       FaceMovementDetector.looking_away_start_time (FaceMovementDetector.run f calls).1
         = Some start /\
       FaceMovementDetector.looking_away_threshold f <= now - start) /\
  (forall f calls now away start,
     FaceMovementDetector.is_looking_away f = false ->
     episode_begin calls = Some start ->
     now - start < FaceMovementDetector.looking_away_threshold f ->
     (FaceMovementDetector.update_looking_away_count
        (FaceMovementDetector.run f calls).1 now away).2 = false).
Proof.
  split; [exact hand_confirm_sustained|].
  split.
  { intros h calls now raised start Ha He Hlt.
    destruct (HandGestureDetector.update_hand_raise_count _ now raised).2 eqn:Hout;
      [|reflexivity].
    destruct (hand_confirm_sustained h calls now raised Ha Hout)
      as (_ & start' & He' & _ & Hle).
    rewrite He in He'. injection He' as <-. lia. }
  split; [exact face_confirm_sustained|].
  intros f calls now away start Ha He Hlt.
  destruct (FaceMovementDetector.update_looking_away_count _ now away).2 eqn:Hout;
    [|reflexivity].
  destruct (face_confirm_sustained f calls now away Ha Hout)
    as (_ & start' & He' & _ & Hle).
  rewrite He in He'. injection He' as <-. lia.
Qed.

Lemma confirmation_only_after_sustain_witness :
  (true = true /\
   exists start, episode_begin [(0, false); (5, true); (9, true)] = Some start /\
     HandGestureDetector.hand_raise_start_time
       (HandGestureDetector.run HandGestureDetector.init
          [(0, false); (5, true); (9, true)]).1 = Some start /\
     HandGestureDetector.hand_raise_duration_threshold HandGestureDetector.init
       <= seconds 2 - start) /\
  (HandGestureDetector.update_hand_raise_count
     (HandGestureDetector.run HandGestureDetector.init [(0, true)]).1
     (seconds 1 - 1) true).2 = false /\
  (true = true /\
   exists start, episode_begin [(0, true)] = Some start /\
     FaceMovementDetector.looking_away_start_time
       (FaceMovementDetector.run FaceMovementDetector.init [(0, true)]).1
       = Some start /\
     FaceMovementDetector.looking_away_threshold FaceMovementDetector.init
       <= seconds 2 - start) /\
  (FaceMovementDetector.update_looking_away_count
     (FaceMovementDetector.run FaceMovementDetector.init [(0, true)]).1
     (seconds 2 - 1) true).2 = false.
Proof.
  destruct confirmation_only_after_sustain as (H1 & H2 & H3 & H4).
  split.
  { apply (H1 HandGestureDetector.init [(0, false); (5, true); (9, true)] (seconds 2) true);
      reflexivity. }
  split.
  { apply (H2 HandGestureDetector.init [(0, true)] (seconds 1 - 1) true 0);
      reflexivity. }
  split.
  { apply (H3 FaceMovementDetector.init [(0, true)] (seconds 2) true); reflexivity. }
  apply (H4 FaceMovementDetector.init [(0, true)] (seconds 2 - 1) true 0); reflexivity.
Defined.

(** C2.  In a sequence of update calls whose clock readings never go back,
    any two calls on the same detector that both return a confirmation are
    at least the cooldown period apart, whether or not they belong to the
    same episode; the detector may start in any state. *)
Theorem confirmations_separated_by_cooldown :
  (forall h calls i j ti si tj sj,
     nondecreasing (calls.*1) = true ->
     (i < j)%nat ->
     calls !! i = Some (ti, si) -> calls !! j = Some (tj, sj) ->
     (HandGestureDetector.run h calls).2 !! i = Some true ->
     (HandGestureDetector.run h calls).2 !! j = Some true ->
     HandGestureDetector.cooldown_period h <= tj - ti) /\
  (forall f calls i j ti si tj sj,
     nondecreasing (calls.*1) = true ->
     (i < j)%nat ->
     calls !! i = Some (ti, si) -> calls !! j = Some (tj, sj) ->
     (FaceMovementDetector.run f calls).2 !! i = Some true ->
     (FaceMovementDetector.run f calls).2 !! j = Some true ->
     FaceMovementDetector.cooldown_period f <= tj - ti).
Proof.
  split.
  - intros h calls i j ti si tj sj Hnd Hij Hi Hj Hoi Hoj.
    rewrite hand_run_outs in Hoi, Hoj.
    exact (run_confirmations_spaced calls (Debounce.of_hand h) i j ti si tj sj
             Hnd Hij Hi Hj Hoi Hoj).
  - intros f calls i j ti si tj sj Hnd Hij Hi Hj Hoi Hoj.
    rewrite face_run_outs in Hoi, Hoj.
    exact (run_confirmations_spaced calls (Debounce.of_face f) i j ti si tj sj
             Hnd Hij Hi Hj Hoi Hoj).
Qed.

Lemma confirmations_separated_by_cooldown_witness :
  HandGestureDetector.cooldown_period HandGestureDetector.init
    <= (seconds 1 + seconds 3) - seconds 1 /\
  FaceMovementDetector.cooldown_period FaceMovementDetector.init
    <= (seconds 2 + seconds 5) - seconds 2.
Proof.
  destruct confirmations_separated_by_cooldown as [Hh Hf].
  split.
  - apply (Hh HandGestureDetector.init (two_episodes (seconds 1) (seconds 3))
             1%nat 5%nat (seconds 1) true (seconds 1 + seconds 3) true);
      solve [reflexivity | lia].
  - apply (Hf FaceMovementDetector.init (two_episodes (seconds 2) (seconds 5))
             1%nat 5%nat (seconds 2) true (seconds 2 + seconds 5) true);
      solve [reflexivity | lia].
Defined.

(** C3.  Take any uninterrupted stretch [ep] of calls with a true signal
    inside a sequence [pre ++ ep ++ post] (in particular a maximal one, an
    episode).  Among the values returned by the calls of the stretch at most
    one is a confirmation, and every call of the stretch after a confirming
    one returns no confirmation.  This holds for both detectors, from any
    initial state. *)
Theorem one_confirmation_per_episode :
  (forall h pre ep post,
     Forall (fun c : call => c.2 = true) ep ->
     (confirmations
        (slice (length pre) (length ep)
           (HandGestureDetector.run h (pre ++ ep ++ post)).2) <= 1)%nat /\
     forall i j out, (i < j)%nat ->
       slice (length pre) (length ep)
         (HandGestureDetector.run h (pre ++ ep ++ post)).2 !! i = Some true ->
       slice (length pre) (length ep)
         (HandGestureDetector.run h (pre ++ ep ++ post)).2 !! j = Some out ->
       out = false) /\
  (forall f pre ep post,
     Forall (fun c : call => c.2 = true) ep ->
     (confirmations
        (slice (length pre) (length ep)
           (FaceMovementDetector.run f (pre ++ ep ++ post)).2) <= 1)%nat /\
     forall i j out, (i < j)%nat ->
       slice (length pre) (length ep)
         (FaceMovementDetector.run f (pre ++ ep ++ post)).2 !! i = Some true ->
       slice (length pre) (length ep)
         (FaceMovementDetector.run f (pre ++ ep ++ post)).2 !! j = Some out ->
       out = false).
Proof.
  split.
  - intros h pre ep post Hall.
    rewrite hand_run_outs, run_slice.
    pose proof (run_episode_once ep (Debounce.run (Debounce.of_hand h) pre).1 Hall) as Hc.
    split; [exact Hc|].
    intros i j out. apply confirmations_once_later. exact Hc.
  - intros f pre ep post Hall.
    rewrite face_run_outs, run_slice.
    pose proof (run_episode_once ep (Debounce.run (Debounce.of_face f) pre).1 Hall) as Hc.
    split; [exact Hc|].
    intros i j out. apply confirmations_once_later. exact Hc.
Qed.

Lemma one_confirmation_per_episode_witness :
  (confirmations
     (slice 1 10
        (HandGestureDetector.run HandGestureDetector.init
           ([(0%Z, false)] ++ ten_seconds ++ [(seconds 11, false)])).2) <= 1)%nat /\
  (confirmations
     (slice 1 10
        (FaceMovementDetector.run FaceMovementDetector.init
           ([(0%Z, false)] ++ ten_seconds ++ [(seconds 11, false)])).2) <= 1)%nat.
Proof.
  destruct one_confirmation_per_episode as [Hh Hf].
  split.
  - apply (Hh HandGestureDetector.init [(0%Z, false)] ten_seconds [(seconds 11, false)]).
    repeat constructor.
  - apply (Hf FaceMovementDetector.init [(0%Z, false)] ten_seconds [(seconds 11, false)]).
    repeat constructor.
Defined.

(** The scenarios of the specification for the hand-raise detector. *)
Example held_ten_seconds :
  (HandGestureDetector.run HandGestureDetector.init ten_seconds).2
  = [false; true; false; false; false; false; false; false; false; false].
Proof. reflexivity. Qed.

Example two_short_episodes :
  (HandGestureDetector.run HandGestureDetector.init
     [(0, true); (500000, true); (500001, false); (600000, true); (1100000, true)]).2
  = [false; false; false; false; false].
Proof. reflexivity. Qed.

(** ** The attention score *)

Section Scoring.

Local Open Scope Q_scope.

Lemma Qlt_bool_iff a b : Qlt_bool a b = true <-> a < b.
Proof.
  unfold Qlt_bool. rewrite negb_true_iff. split.
  - intros H. apply Qnot_le_lt. intros Hle.
    apply Qle_bool_iff in Hle. congruence.
  - intros H. destruct (Qle_bool b a) eqn:E; [|reflexivity].
    apply Qle_bool_iff in E. exfalso. exact (Qlt_not_le _ _ H E).
Qed.

Lemma max0_Qmax x : max0 x == Qmax 0 x.
Proof.
  unfold max0. destruct (Qlt_bool 0 x) eqn:E.
  - apply Qlt_bool_iff in E. symmetry. apply Q.max_r. apply Qlt_le_weak. exact E.
  - symmetry. apply Q.max_l.
    apply Qnot_lt_le. intros H. apply Qlt_bool_iff in H. congruence.
Qed.

Lemma max0_nonneg x : 0 <= max0 x.
Proof.
  unfold max0. destruct (Qlt_bool 0 x) eqn:E.
  - apply Qlt_bool_iff in E. apply Qlt_le_weak. exact E.
  - apply Qle_refl.
Qed.

Lemma max0_le x bound : 0 <= bound -> x <= bound -> max0 x <= bound.
Proof. intros H0 Hx. unfold max0. destruct (Qlt_bool 0 x); assumption. Qed.

(** A score of one angle: between 0 and 100. *)
Lemma angle_score_range angle k : 0 <= k -> 0 <= max0 (100 - Qabs angle * k) <= 100.
Proof.
  intros Hk. split; [apply max0_nonneg|].
  apply max0_le; [discriminate|].
  pose proof (Qabs_nonneg angle) as Ha.
  pose proof (Qmult_le_0_compat _ _ Ha Hk) as Hm.
  apply Qle_minus_iff.
  assert (E : 100 + - (100 - Qabs angle * k) == Qabs angle * k) by ring.
  rewrite E. exact Hm.
Qed.

End Scoring.

(** C7.  For every head pose, [detect_face_movement] reports looking away
    exactly when [|yaw|] exceeds the yaw threshold or [|pitch|] exceeds the
    pitch threshold (20 and 15 degrees in a fresh detector), and the
    attention score equals
    [(max(0, 100 - |yaw| * 2) + max(0, 100 - |pitch| * 3)) / 2], a value
    between 0 and 100. *)
Theorem attention_scorer_formula :
  (FaceMovementDetector.yaw_threshold FaceMovementDetector.init = 20%Q /\
   FaceMovementDetector.pitch_threshold FaceMovementDetector.init = 15%Q) /\
  forall f pose,
    (FaceMovementDetector.looking_away
       (FaceMovementDetector.detect_face_movement f (Some (Some pose))) = true <->
     (FaceMovementDetector.yaw_threshold f < Qabs (yaw pose) \/
      FaceMovementDetector.pitch_threshold f < Qabs (pitch pose))%Q) /\
    (FaceMovementDetector.attention_score
       (FaceMovementDetector.detect_face_movement f (Some (Some pose))) ==
     (Qmax 0 (100 - Qabs (yaw pose) * 2) + Qmax 0 (100 - Qabs (pitch pose) * 3)) / 2)%Q /\
    (0 <= FaceMovementDetector.attention_score
            (FaceMovementDetector.detect_face_movement f (Some (Some pose))) <= 100)%Q.
Proof.
  split; [split; reflexivity|].
  intros f pose. cbn [FaceMovementDetector.detect_face_movement
    FaceMovementDetector.looking_away FaceMovementDetector.attention_score].
  split; [|split].
  - rewrite orb_true_iff, !Qlt_bool_iff. reflexivity.
  - rewrite !max0_Qmax. reflexivity.
  - pose proof (angle_score_range (yaw pose) 2 ltac:(discriminate)) as [Hy0 Hy1].
    pose proof (angle_score_range (pitch pose) 3 ltac:(discriminate)) as [Hp0 Hp1].
    set (ys := max0 (100 - Qabs (yaw pose) * 2)) in *.
    set (ps := max0 (100 - Qabs (pitch pose) * 3)) in *.
    split.
    + apply Qle_shift_div_l; [reflexivity|].
      assert (E : (0 * 2 == 0 + 0)%Q) by ring.
      rewrite E. apply Qplus_le_compat; assumption.
    + apply Qle_shift_div_r; [reflexivity|].
      assert (E : (100 * 2 == 100 + 100)%Q) by ring.
      rewrite E. apply Qplus_le_compat; assumption.
Qed.

(** The pose of scenario 4: yaw 30, pitch 0.  The yaw score is 40, the pitch
    score 100, and the attention score their mean. *)
Example pose_yaw_30 :
  let face_data :=
    FaceMovementDetector.detect_face_movement FaceMovementDetector.init
      (Some (Some {| pitch := 0; yaw := 30; roll := 0 |})) in
  FaceMovementDetector.looking_away face_data = true /\
  (FaceMovementDetector.attention_score face_data == 70)%Q.
Proof. split; reflexivity. Qed.

(** ** The aggregator *)

Section Aggregator.

Import BehaviorTrackingSystem.

(** *** What each stage leaves alone *)

Lemma update_student_detectors f acc student :
  hand_detector (update_student f acc student).1 = hand_detector acc.1 /\
  face_movement_detector (update_student f acc student).1 = face_movement_detector acc.1 /\
  session_start_time (update_student f acc student).1 = session_start_time acc.1.
Proof.
  destruct acc as [self calls]. unfold update_student.
  destruct (truthy _) as [sid|]; [|repeat split].
  destruct (decide _); repeat split.
Qed.

Lemma recognition_keeps f students : forall acc,
  hand_detector (fold_left (update_student f) students acc).1 = hand_detector acc.1 /\
  face_movement_detector (fold_left (update_student f) students acc).1
    = face_movement_detector acc.1 /\
  session_start_time (fold_left (update_student f) students acc).1
    = session_start_time acc.1.
Proof.
  induction students as [|student rest IH]; intros acc; [repeat split|].
  cbn [fold_left].
  destruct (IH (update_student f acc student)) as (-> & -> & ->).
  apply update_student_detectors.
Qed.

Lemma hand_stage_keeps self f :
  face_movement_detector (hand_stage self f) = face_movement_detector self /\
  session_start_time (hand_stage self f) = session_start_time self /\
  attendance_marked (hand_stage self f) = attendance_marked self.
Proof.
  unfold hand_stage.
  destruct (HandGestureDetector.hands_detected _); [|repeat split].
  destruct (HandGestureDetector.hand_data_hand_raised _); [|repeat split].
  destruct (HandGestureDetector.update_hand_raise_count _ _ _) as [d [|]]; repeat split.
Qed.

Lemma face_stage_keeps self f :
  hand_detector (face_stage self f) = hand_detector self /\
  session_start_time (face_stage self f) = session_start_time self /\
  attendance_marked (face_stage self f) = attendance_marked self.
Proof.
  unfold face_stage.
  destruct (FaceMovementDetector.face_detected _); [|repeat split].
  destruct (FaceMovementDetector.looking_away _); [|repeat split].
  destruct (FaceMovementDetector.update_looking_away_count _ _ _) as [d [|]]; repeat split.
Qed.

Lemma process_frame_unfold self f :
  _process_frame self f =
  (face_stage (hand_stage (recognition_stage self f).1 f) f, (recognition_stage self f).2).
Proof. unfold _process_frame. destruct (recognition_stage self f); reflexivity. Qed.

(** *** Resetting the statistics *)

Lemma dict_for_each_keys f (d : dict) : (dict_for_each f d).*1 = d.*1.
Proof.
  unfold dict_for_each. induction d as [|[k v] d IH]; [reflexivity|].
  cbn. f_equal. exact IH.
Qed.

Lemma dict_for_each_lookup f (d : dict) i :
  dict_for_each f d !! i = (fun kv => (kv.1, f kv.2)) <$> d !! i.
Proof. unfold dict_for_each. apply list_lookup_fmap. Qed.

(** C10.  [_reset_statistics] keeps the same records under the same ids in
    the same order; in each of them [hand_raises] and [looking_away_count]
    become 0 and [attention_scores] becomes empty, while [name],
    [first_seen], [last_seen] and [total_frames] are unchanged.  Both
    detectors have their count set to 0 and their debounce state cleared
    (flag false, start time and last confirmation time unset), with their
    thresholds unchanged.  The attendance set and the session start time are
    unchanged. *)
Theorem reset_statistics_effect : forall self,
  (active_students (_reset_statistics self)).*1 = (active_students self).*1 /\
  (forall i student_id r,
     active_students self !! i = Some (student_id, r) ->
     exists r',
       active_students (_reset_statistics self) !! i = Some (student_id, r') /\
       hand_raises r' = 0 /\ looking_away_count r' = 0 /\ attention_scores r' = [] /\
       name r' = name r /\ first_seen r' = first_seen r /\
       last_seen r' = last_seen r /\ total_frames r' = total_frames r) /\
  (HandGestureDetector.hand_raise_count (hand_detector (_reset_statistics self)) = 0 /\
   HandGestureDetector.hand_raised (hand_detector (_reset_statistics self)) = false /\
   HandGestureDetector.hand_raise_start_time (hand_detector (_reset_statistics self)) = None /\
   HandGestureDetector.last_hand_raise_time (hand_detector (_reset_statistics self)) = None /\
   HandGestureDetector.hand_raise_duration_threshold (hand_detector (_reset_statistics self))
     = HandGestureDetector.hand_raise_duration_threshold (hand_detector self) /\
   HandGestureDetector.cooldown_period (hand_detector (_reset_statistics self))
     = HandGestureDetector.cooldown_period (hand_detector self)) /\
  (FaceMovementDetector.looking_away_count
     (face_movement_detector (_reset_statistics self)) = 0 /\
   FaceMovementDetector.is_looking_away
     (face_movement_detector (_reset_statistics self)) = false /\
   FaceMovementDetector.looking_away_start_time
     (face_movement_detector (_reset_statistics self)) = None /\
   FaceMovementDetector.last_looking_away_time
     (face_movement_detector (_reset_statistics self)) = None /\
   FaceMovementDetector.looking_away_threshold
     (face_movement_detector (_reset_statistics self))
     = FaceMovementDetector.looking_away_threshold (face_movement_detector self) /\
   FaceMovementDetector.cooldown_period (face_movement_detector (_reset_statistics self))
     = FaceMovementDetector.cooldown_period (face_movement_detector self) /\
   FaceMovementDetector.yaw_threshold (face_movement_detector (_reset_statistics self))
     = FaceMovementDetector.yaw_threshold (face_movement_detector self) /\
   FaceMovementDetector.pitch_threshold (face_movement_detector (_reset_statistics self))
     = FaceMovementDetector.pitch_threshold (face_movement_detector self)) /\
  attendance_marked (_reset_statistics self) = attendance_marked self /\
  session_start_time (_reset_statistics self) = session_start_time self.
Proof.
  intros self. split; [apply dict_for_each_keys|].
  split; [|repeat split].
  intros i student_id r Hi. cbn [_reset_statistics active_students].
  exists (clear_statistics r). rewrite dict_for_each_lookup, Hi.
  repeat split.
Qed.

Lemma reset_statistics_effect_witness :
  exists r',
    active_students
      (_reset_statistics (_process_frame init one_student_frame).1) !! 0%nat
      = Some ("S001"%string, r') /\
    hand_raises r' = 0 /\ looking_away_count r' = 0 /\ attention_scores r' = [] /\
    name r' = "Ada"%string /\ first_seen r' = seconds 36000 /\
    last_seen r' = seconds 36000 /\ total_frames r' = 1.
Proof.
  destruct (reset_statistics_effect (_process_frame init one_student_frame).1)
    as (_ & H & _).
  destruct (H 0%nat "S001"%string
              {| name := "Ada"; first_seen := seconds 36000; last_seen := seconds 36000;
                 hand_raises := 0; looking_away_count := 0;
                 attention_scores := [(140 # 2)%Q]; total_frames := 1 |} eq_refl)
    as (r' & H0 & H1 & H2 & H3 & H4 & H5 & H6 & H7).
  exists r'. repeat split; assumption.
Defined.

(** *** Attendance *)

Lemma marks_app calls1 calls2 : marks (calls1 ++ calls2) = marks calls1 ++ marks calls2.
Proof. apply omap_app. Qed.

Lemma marks_report self session_date : marks (_save_session_report self session_date) = [].
Proof.
  unfold _save_session_report. destruct (session_start_time self); [|reflexivity].
  induction (active_students self) as [|[k v] items IH]; [reflexivity | exact IH].
Qed.

(** One student of the list either leaves the log and the set alone or is
    new to the set and gets one call. *)
Lemma update_student_marks f self calls student :
  ((update_student f (self, calls) student).2 = calls /\
   attendance_marked (update_student f (self, calls) student).1 = attendance_marked self) \/
  (exists student_id date time_in,
     (student_id ∉ attendance_marked self) /\
     (update_student f (self, calls) student).2
       = calls ++ [mark_attendance student_id date time_in] /\
     attendance_marked (update_student f (self, calls) student).1
       = attendance_marked self ∪ {[student_id]}).
Proof.
  unfold update_student.
  destruct (truthy _) as [sid|]; [|left; split; reflexivity].
  cbn [set_active_students attendance_marked].
  destruct (decide _) as [Hin|Hnin]; [left; split; reflexivity|].
  right. eexists sid, _, _. repeat split. exact Hnin.
Qed.

Lemma update_student_ledger marked0 f acc student :
  ledger_ok marked0 acc -> ledger_ok marked0 (update_student f acc student).
Proof.
  destruct acc as [self calls]. intros (Hnd & Hfresh & Hset). cbn [fst snd] in *.
  unfold ledger_ok.
  destruct (update_student_marks f self calls student)
    as [[-> ->] | (sid & date & time_in & Hnin & -> & ->)].
  - repeat split; assumption.
  - rewrite marks_app. change (marks [mark_attendance sid date time_in]) with [sid].
    rewrite Hset in Hnin.
    assert (Hnew : sid ∉ marks calls).
    { intros Hin. apply Hnin, elem_of_union_r, elem_of_list_to_set, Hin. }
    repeat split.
    + apply NoDup_app. repeat split; [assumption | | apply NoDup_singleton].
      intros x Hx Hx'. apply list_elem_of_singleton in Hx'. subst x. contradiction.
    + intros x Hx. apply elem_of_app in Hx as [Hx|Hx]; [auto|].
      apply list_elem_of_singleton in Hx. subst x.
      intros Hin. apply Hnin, elem_of_union_l, Hin.
    + rewrite Hset, list_to_set_app_L.
      change (list_to_set [sid] : gset string) with ({[sid]} ∪ (∅ : gset string)).
      rewrite (right_id_L ∅ (∪)), (assoc_L (∪)). reflexivity.
Qed.

Lemma recognition_ledger marked0 f students : forall acc,
  ledger_ok marked0 acc -> ledger_ok marked0 (fold_left (update_student f) students acc).
Proof.
  induction students as [|student rest IH]; intros acc H; [exact H|].
  cbn [fold_left]. apply IH, update_student_ledger, H.
Qed.

(** The calls already in the log do not influence the loop. *)
Lemma update_student_calls f self calls student :
  update_student f (self, calls) student =
  ((update_student f (self, []) student).1,
   calls ++ (update_student f (self, []) student).2).
Proof.
  unfold update_student.
  destruct (truthy _) as [sid|]; [|rewrite app_nil_r; reflexivity].
  destruct (decide _); [rewrite app_nil_r; reflexivity | reflexivity].
Qed.

Lemma recognition_calls f students : forall self calls,
  fold_left (update_student f) students (self, calls) =
  ((fold_left (update_student f) students (self, [])).1,
   calls ++ (fold_left (update_student f) students (self, [])).2).
Proof.
  induction students as [|student rest IH]; intros self calls.
  - cbn. rewrite app_nil_r. reflexivity.
  - cbn [fold_left]. rewrite update_student_calls.
    destruct (update_student f (self, []) student) as [self1 new] eqn:E.
    cbn [fst snd]. rewrite (IH self1 (calls ++ new)), (IH self1 new).
    cbn [fst snd]. rewrite app_assoc. reflexivity.
Qed.

Lemma do_step_ledger marked0 acc s :
  ledger_ok marked0 acc -> ledger_ok marked0 (do_step acc s).
Proof.
  destruct acc as [self calls]. intros H. destruct s as [f| |session_date]; cbn [do_step].
  - rewrite process_frame_unfold.
    pose proof (recognition_ledger marked0 f (recognized_students f) (self, calls) H) as Hr.
    rewrite recognition_calls in Hr. fold (recognition_stage self f) in Hr.
    destruct Hr as (Hnd & Hfresh & Hset). cbn [fst snd] in *.
    repeat split; cbn [fst snd]; try assumption.
    rewrite (proj2 (proj2 (face_stage_keeps _ f))), (proj2 (proj2 (hand_stage_keeps _ f))).
    exact Hset.
  - exact H.
  - destruct H as (Hnd & Hfresh & Hset). cbn [fst snd] in *.
    unfold ledger_ok. cbn [fst snd]. rewrite marks_app, marks_report, app_nil_r.
    repeat split; assumption.
Qed.

Lemma steps_ledger marked0 steps : forall acc,
  ledger_ok marked0 acc -> ledger_ok marked0 (fold_left do_step steps acc).
Proof.
  induction steps as [|s rest IH]; intros acc H; [exact H|].
  cbn [fold_left]. apply IH, do_step_ledger, H.
Qed.

Lemma run_ledger self steps : ledger_ok (attendance_marked self) (run self steps).
Proof.
  apply steps_ledger. repeat split; cbn.
  - constructor.
  - intros student_id Hin. apply not_elem_of_nil in Hin. contradiction.
  - rewrite (right_id_L ∅ (∪)). reflexivity.
Qed.

Lemma run_marked_once self steps student_id :
  (attendance_calls student_id (run self steps).2 <= 1)%nat.
Proof.
  destruct (run_ledger self steps) as (Hnd & _).
  unfold attendance_calls. revert student_id. apply NoDup_count_occ.
  apply NoDup_ListNoDup. exact Hnd.
Qed.

Lemma run_marked_in_set self steps student_id :
  (1 <= attendance_calls student_id (run self steps).2)%nat ->
  student_id ∈ attendance_marked (run self steps).1.
Proof.
  destruct (run_ledger self steps) as (_ & _ & ->). intros H.
  apply (count_occ_In String.string_dec) in H. apply list_elem_of_In in H.
  apply elem_of_union_r, elem_of_list_to_set, H.
Qed.

Lemma run_marked_before self steps student_id :
  student_id ∈ attendance_marked self ->
  attendance_calls student_id (run self steps).2 = 0%nat.
Proof.
  destruct (run_ledger self steps) as (_ & Hfresh & _). intros H.
  apply count_occ_not_In. intros Hin. apply list_elem_of_In in Hin.
  exact (Hfresh _ Hin H).
Qed.

(** C8.  Whatever the state a session starts from and whatever frames, resets
    and report requests follow, [mark_attendance] is called at most once for
    a given student id; once it has been called the id is in
    [attendance_marked], and for an id in [attendance_marked] no later frame
    calls it again.  The log of a whole session, final report included, also
    holds at most one such call per id. *)
Theorem attendance_marked_at_most_once : forall self steps student_id,
  (attendance_calls student_id (run self steps).2 <= 1)%nat /\
  ((1 <= attendance_calls student_id (run self steps).2)%nat ->
   student_id ∈ attendance_marked (run self steps).1 /\
   forall later,
     attendance_calls student_id (run (run self steps).1 later).2 = 0%nat) /\
  (student_id ∈ attendance_marked self ->
   attendance_calls student_id (run self steps).2 = 0%nat) /\
  (forall start session_date,
     (attendance_calls student_id
        (start_monitoring_session self start steps session_date).2 <= 1)%nat).
Proof.
  intros self steps student_id.
  split; [apply run_marked_once|].
  split.
  { intros H. pose proof (run_marked_in_set _ _ _ H) as Hin.
    split; [exact Hin|]. intros later. apply run_marked_before. exact Hin. }
  split; [apply run_marked_before|].
  intros start session_date. unfold start_monitoring_session.
  pose proof (run_marked_once (set_session_start_time self start) steps student_id) as H.
  destruct (run (set_session_start_time self start) steps) as [self1 calls].
  cbn [snd] in *.
  unfold attendance_calls in *. rewrite marks_app, marks_report, app_nil_r. exact H.
Qed.

Lemma attendance_marked_at_most_once_witness :
  "S001"%string ∈
    attendance_marked (run init [process one_student_frame; process one_student_frame]).1 /\
  (forall later,
     attendance_calls "S001"
       (run (run init [process one_student_frame; process one_student_frame]).1 later).2
     = 0%nat).
Proof.
  destruct (attendance_marked_at_most_once init
              [process one_student_frame; process one_student_frame] "S001"%string)
    as (_ & H & _).
  apply H. vm_compute. lia.
Defined.

(** *** First and last sighting *)

Lemma seen_between_mono T T' (d : dict) :
  T <= T' -> seen_between T d -> seen_between T' d.
Proof.
  intros Hle H. eapply Forall_impl; [exact H|].
  intros [k r] [H1 H2]. cbn in *. split; lia.
Qed.

Lemma seen_between_for_each T f (d : dict) :
  (forall r, first_seen (f r) = first_seen r /\ last_seen (f r) = last_seen r) ->
  seen_between T d -> seen_between T (dict_for_each f d).
Proof.
  intros Hf H. unfold dict_for_each, seen_between. apply Forall_fmap.
  eapply Forall_impl; [exact H|].
  intros [k r] [H1 H2]. cbn in *. destruct (Hf r) as [-> ->]. split; assumption.
Qed.

Lemma seen_between_update now k (d : dict) :
  seen_between now d -> seen_between now (dict_update k (seen now) d).
Proof.
  induction d as [|[k' r] d IH]; intros H; [constructor|].
  apply Forall_cons in H as [[H1 H2] H]. cbn in H1, H2. cbn [dict_update].
  destruct (String.eqb k' k).
  - constructor; [cbn; split; lia | exact H].
  - constructor; [cbn; split; assumption | exact (IH H)].
Qed.

Lemma seen_between_add now k name (d : dict) :
  seen_between now d -> seen_between now (dict_add k (new_student name now) d).
Proof.
  intros H. unfold dict_add. apply Forall_app. split; [exact H|].
  constructor; [cbn; split; lia | constructor].
Qed.

Lemma update_student_seen f acc student :
  seen_between (current_time f) (active_students acc.1) ->
  seen_between (current_time f) (active_students (update_student f acc student).1).
Proof.
  destruct acc as [self calls]. cbn [fst]. intros H. unfold update_student.
  destruct (truthy _) as [sid|]; [|exact H].
  assert (Hu : seen_between (current_time f)
    (dict_update sid (seen (current_time f))
       (if dict_mem sid (active_students self) then active_students self
        else dict_add sid (new_student (Student.name student) (current_time f))
               (active_students self)))).
  { apply seen_between_update. destruct (dict_mem _ _); [exact H|].
    apply seen_between_add. exact H. }
  destruct (decide _); exact Hu.
Qed.

Lemma recognition_seen f students : forall acc,
  seen_between (current_time f) (active_students acc.1) ->
  seen_between (current_time f)
    (active_students (fold_left (update_student f) students acc).1).
Proof.
  induction students as [|student rest IH]; intros acc H; [exact H|].
  cbn [fold_left]. apply IH, update_student_seen, H.
Qed.

Lemma hand_stage_seen T self f :
  seen_between T (active_students self) ->
  seen_between T (active_students (hand_stage self f)).
Proof.
  intros H. unfold hand_stage.
  destruct (HandGestureDetector.hands_detected _); [|exact H].
  destruct (HandGestureDetector.hand_data_hand_raised _); [|exact H].
  destruct (HandGestureDetector.update_hand_raise_count _ _ _) as [d [|]]; [|exact H].
  apply seen_between_for_each; [split; reflexivity | exact H].
Qed.

Lemma face_stage_seen T self f :
  seen_between T (active_students self) ->
  seen_between T (active_students (face_stage self f)).
Proof.
  intros H. unfold face_stage.
  destruct (FaceMovementDetector.face_detected _); [|exact H].
  assert (H1 : seen_between T
    (dict_for_each
       (append_score (FaceMovementDetector.attention_score
          (FaceMovementDetector.detect_face_movement (face_movement_detector self)
             (multi_face_landmarks f))))
       (active_students self))).
  { apply seen_between_for_each; [split; reflexivity | exact H]. }
  destruct (FaceMovementDetector.looking_away _); [|exact H1].
  destruct (FaceMovementDetector.update_looking_away_count _ _ _) as [d [|]]; [|exact H1].
  apply seen_between_for_each; [split; reflexivity | exact H1].
Qed.

Lemma process_frame_seen T self f :
  T <= current_time f ->
  seen_between T (active_students self) ->
  seen_between (current_time f) (active_students (_process_frame self f).1).
Proof.
  intros Hle H. rewrite process_frame_unfold. cbn [fst].
  apply face_stage_seen, hand_stage_seen. unfold recognition_stage.
  apply recognition_seen. cbn [fst]. exact (seen_between_mono _ _ _ Hle H).
Qed.

Lemma steps_seen steps : forall T acc,
  seen_between T (active_students acc.1) ->
  Forall (Z.le T) (frame_times steps) ->
  nondecreasing (frame_times steps) = true ->
  exists T', seen_between T' (active_students (fold_left do_step steps acc).1).
Proof.
  induction steps as [|s rest IH]; intros T [self calls] H Hge Hnd; [exists T; exact H|].
  cbn [fold_left]. destruct s as [f| |session_date].
  - cbn [frame_times omap] in Hge, Hnd. fold (frame_times rest) in Hge, Hnd.
    apply Forall_cons in Hge as [Hle Hge].
    apply nondecreasing_cons in Hnd as [Hge' Hnd].
    apply (IH (current_time f)); [|exact Hge' | exact Hnd].
    cbn [do_step]. pose proof (process_frame_seen T self f Hle H) as Hp.
    destruct (_process_frame self f) as [self1 new]. exact Hp.
  - apply (IH T); [|exact Hge | exact Hnd].
    cbn [do_step fst _reset_statistics active_students].
    apply seen_between_for_each; [split; reflexivity | exact H].
  - apply (IH T); [exact H | exact Hge | exact Hnd].
Qed.

Lemma run_first_before_last self steps :
  active_students self = [] ->
  nondecreasing (frame_times steps) = true ->
  Forall (fun kv : string * student_data => first_seen kv.2 <= last_seen kv.2)
    (active_students (run self steps).1).
Proof.
  intros Hempty Hnd.
  assert (exists T, Forall (Z.le T) (frame_times steps)) as [T HT].
  { destruct (frame_times steps) as [|t ts] eqn:E; [exists 0; constructor|].
    exists t. apply nondecreasing_cons in Hnd as [Hge _].
    constructor; [lia | exact Hge]. }
  destruct (steps_seen steps T (self, []) ) as [T' H]; [| exact HT | exact Hnd |].
  - cbn [fst]. rewrite Hempty. constructor.
  - eapply Forall_impl; [exact H|]. intros kv [H1 _]. exact H1.
Qed.

(** *** The session report *)









(** Scenario 6: first seen at 10:00:00, last seen at 10:05:30, samples 80,
    60 and 70. *)
Example report_row_scenario :
  exists avg,
    report_row "2024-03-01"
      ("S001"%string,
       {| name := "Ada"; first_seen := seconds 36000; last_seen := seconds 36330;
          hand_raises := 2; looking_away_count := 1;
          attention_scores := [80%Q; 60%Q; 70%Q]; total_frames := 9 |})
    = log_behavior "S001" "2024-03-01" avg 2 1 330 /\ (avg == 70)%Q.
Proof. eexists. split; reflexivity. Qed.

(** *** The hand-raise signal and the detector *)

Lemma recognition_stage_keeps self f :
  hand_detector (recognition_stage self f).1 = hand_detector self /\
  face_movement_detector (recognition_stage self f).1 = face_movement_detector self.
Proof.
  unfold recognition_stage.
  destruct (recognition_keeps f (recognized_students f) (self, [])) as (H1 & H2 & _).
  split; assumption.
Qed.

Lemma hand_stage_detector self f :
  hand_detector (hand_stage self f) =
  match multi_hand_landmarks f with
  | [] => hand_detector self
  | first :: _ =>
      (HandGestureDetector.update_hand_raise_count (hand_detector self) (hand_clock f)
         (HandGestureDetector._is_hand_raised first)).1
  end.
Proof.
  unfold hand_stage. destruct (multi_hand_landmarks f) as [|first rest]; [reflexivity|].
  cbn [HandGestureDetector.detect_hands HandGestureDetector.hands_detected
       HandGestureDetector.hand_data_hand_raised].
  destruct (HandGestureDetector._is_hand_raised first); [|reflexivity].
  destruct (HandGestureDetector.update_hand_raise_count _ _ _) as [d [|]]; reflexivity.
Qed.

Lemma process_frame_hand_detector self f :
  hand_detector (_process_frame self f).1 =
  match multi_hand_landmarks f with
  | [] => hand_detector self
  | first :: _ =>
      (HandGestureDetector.update_hand_raise_count (hand_detector self) (hand_clock f)
         (HandGestureDetector._is_hand_raised first)).1
  end.
Proof.
  rewrite process_frame_unfold. cbn [fst].
  rewrite (proj1 (face_stage_keeps _ f)), hand_stage_detector.
  rewrite (proj1 (recognition_stage_keeps self f)). reflexivity.
Qed.

(** The claim C6 fails on a frame in which no hand is detected: the raw
    signal of the frame is false, yet the detector still holds the episode
    the previous frame started. *)
Lemma frame_without_hand_keeps_episode :
  HandGestureDetector.hand_data_hand_raised
    (HandGestureDetector.detect_hands (multi_hand_landmarks later_frame)) = false /\
  ~ (HandGestureDetector.hand_raised
       (hand_detector
          (_process_frame (_process_frame init one_student_frame).1 later_frame).1)
     = false /\
     HandGestureDetector.hand_raise_start_time
       (hand_detector
          (_process_frame (_process_frame init one_student_frame).1 later_frame).1)
     = None).
Proof. split; [reflexivity|]. intros [H _]. vm_compute in H. discriminate. Qed.

(** C6, amended.  On a frame in which at least one hand is detected, the raw
    hand-raised signal of the first hand is passed to
    [update_hand_raise_count], and the hand detector after the frame is the
    one that call leaves; if that signal is false the detector is idle and
    its start time is cleared.  On a frame in which no hand is detected the
    hand detector is left exactly as it was. *)
Theorem hand_signal_fed_when_hand_detected : forall self f,
  (multi_hand_landmarks f <> [] ->
   hand_detector (_process_frame self f).1 =
   (HandGestureDetector.update_hand_raise_count (hand_detector self) (hand_clock f)
      (HandGestureDetector.hand_data_hand_raised
         (HandGestureDetector.detect_hands (multi_hand_landmarks f)))).1) /\
  (multi_hand_landmarks f <> [] ->
   HandGestureDetector.hand_data_hand_raised
     (HandGestureDetector.detect_hands (multi_hand_landmarks f)) = false ->
   HandGestureDetector.hand_raised (hand_detector (_process_frame self f).1) = false /\
   HandGestureDetector.hand_raise_start_time (hand_detector (_process_frame self f).1)
     = None) /\
  (multi_hand_landmarks f = [] ->
   hand_detector (_process_frame self f).1 = hand_detector self).
Proof.
  intros self f. rewrite process_frame_hand_detector.
  destruct (multi_hand_landmarks f) as [|first rest].
  - split; [intros H; contradiction|]. split; [intros H; contradiction | reflexivity].
  - cbn [HandGestureDetector.detect_hands HandGestureDetector.hand_data_hand_raised].
    split; [reflexivity|]. split; [|discriminate].
    intros _ ->. split; reflexivity.
Qed.

Lemma hand_signal_fed_when_hand_detected_witness :
  hand_detector (_process_frame init one_student_frame).1 =
  (HandGestureDetector.update_hand_raise_count (hand_detector init)
     (hand_clock one_student_frame)
     (HandGestureDetector.hand_data_hand_raised
        (HandGestureDetector.detect_hands (multi_hand_landmarks one_student_frame)))).1 /\
  (HandGestureDetector.hand_raised
     (hand_detector (_process_frame (_process_frame init one_student_frame).1
                       hand_down_frame).1) = false /\
   HandGestureDetector.hand_raise_start_time
     (hand_detector (_process_frame (_process_frame init one_student_frame).1
                       hand_down_frame).1) = None) /\
  hand_detector (_process_frame (_process_frame init one_student_frame).1 later_frame).1
  = hand_detector (_process_frame init one_student_frame).1.
Proof.
  split; [|split].
  - apply (proj1 (hand_signal_fed_when_hand_detected init one_student_frame)).
    discriminate.
  - apply (proj1 (proj2 (hand_signal_fed_when_hand_detected
                           (_process_frame init one_student_frame).1 hand_down_frame)));
      [discriminate | reflexivity].
  - apply (proj2 (proj2 (hand_signal_fed_when_hand_detected
                           (_process_frame init one_student_frame).1 later_frame))).
    reflexivity.
Defined.

(** What the gate means for the timing: the hand is seen raised at
    10:00:00, is out of view at 10:05:30, and is seen raised again one second
    later.  The second sighting confirms at once, the episode of the first
    one never having been closed. *)
Example hand_out_of_view_keeps_timing :
  HandGestureDetector.hand_raise_count
    (hand_detector (run init (two_sightings ++ [process hand_back_frame])).1) = 1.
Proof. reflexivity. Qed.

(** *** Who is credited with a confirmed hand raise *)

(** When the call confirms, the loop over [active_students.keys()] adds one
    to [hand_raises] in every record of the dictionary; otherwise the
    records are left alone. *)
Lemma hand_stage_records self f :
  active_students (hand_stage self f) =
  match multi_hand_landmarks f with
  | [] => active_students self
  | first :: _ =>
      if HandGestureDetector._is_hand_raised first
         && (HandGestureDetector.update_hand_raise_count (hand_detector self)
               (hand_clock f) true).2
      then dict_for_each add_hand_raise (active_students self)
      else active_students self
  end.
Proof.
  unfold hand_stage. destruct (multi_hand_landmarks f) as [|first rest]; [reflexivity|].
  cbn [HandGestureDetector.detect_hands HandGestureDetector.hands_detected
       HandGestureDetector.hand_data_hand_raised].
  destruct (HandGestureDetector._is_hand_raised first); [|reflexivity].
  destruct (HandGestureDetector.update_hand_raise_count _ _ _) as [d [|]]; reflexivity.
Qed.

(** C4 at a failing input.  Ada is recognised in a first frame, in which a
    hand starts being raised.  Two seconds later only Bob is recognised and
    the hand raise is confirmed.  Ada's record, which this frame did not
    touch otherwise (her [last_seen] and [total_frames] are those of the
    first frame), has its [hand_raises] incremented along with Bob's. *)
Theorem hand_raise_credited_to_absent_student :
  map Student.student_id (recognized_students bob_frame) = [Some "S002"%string] /\
  (HandGestureDetector.update_hand_raise_count
     (hand_detector (_process_frame init one_student_frame).1)
     (hand_clock bob_frame) true).2 = true /\
  dict_get "S001" (active_students (_process_frame init one_student_frame).1)
  = Some {| name := "Ada"; first_seen := seconds 36000; last_seen := seconds 36000;
            hand_raises := 0; looking_away_count := 0;
            attention_scores := [(140 # 2)%Q]; total_frames := 1 |} /\
  dict_get "S001"
    (active_students (_process_frame (_process_frame init one_student_frame).1 bob_frame).1)
  = Some {| name := "Ada"; first_seen := seconds 36000; last_seen := seconds 36000;
            hand_raises := 1; looking_away_count := 0;
            attention_scores := [(140 # 2)%Q]; total_frames := 1 |} /\
  dict_get "S002"
    (active_students (_process_frame (_process_frame init one_student_frame).1 bob_frame).1)
  = Some {| name := "Bob"; first_seen := seconds 36002; last_seen := seconds 36002;
            hand_raises := 1; looking_away_count := 0;
            attention_scores := []; total_frames := 1 |}.
Proof. repeat split; reflexivity. Qed.

(** *** Frames without a face, frames without a pose *)

(** With no face in the frame, part 3 of [_process_frame] does nothing. *)
Lemma face_stage_no_face self f :
  multi_face_landmarks f = None -> face_stage self f = self.
Proof. intros H. unfold face_stage. rewrite H. reflexivity. Qed.

(** With a face whose pose could not be solved, the score appended to every
    record is the 0 the dictionary [face_data] was initialised with. *)
Lemma face_stage_no_pose self f :
  multi_face_landmarks f = Some None ->
  active_students (face_stage self f) =
  dict_for_each (append_score 0%Q) (active_students self).
Proof. intros H. unfold face_stage. rewrite H. reflexivity. Qed.

(** C5 at a failing input.  Ada has one sample, 70.  In the next frame her
    face is found but [solvePnP] does not succeed, so that there is no head
    pose: a sample 0 is appended to her record, and the average the report
    would give drops from 70 to 35. *)
Theorem unsolved_pose_recorded_as_zero :
  multi_face_landmarks later_frame = Some None /\
  FaceMovementDetector.face_data_head_pose
    (FaceMovementDetector.detect_face_movement FaceMovementDetector.init
       (multi_face_landmarks later_frame)) = None /\
  attention_scores <$>
    dict_get "S001" (active_students (_process_frame init one_student_frame).1)
  = Some [(140 # 2)%Q] /\
  attention_scores <$>
    dict_get "S001"
      (active_students (_process_frame (_process_frame init one_student_frame).1
                          later_frame).1)
  = Some [(140 # 2)%Q; 0%Q] /\
  (mean [(140 # 2)%Q; 0%Q] == 35)%Q.
Proof. repeat split; reflexivity. Qed.

End Aggregator.

(** * Further properties of the detectors *)

Section DebounceMore.

Import Debounce.

Lemma run_count calls : forall d,
  confirmed_count (run d calls).1 =
  confirmed_count d + Z.of_nat (confirmations (run d calls).2).
Proof.
  induction calls as [|[now signal] rest IH]; intros d.
  - cbn. lia.
  - rewrite run_cons. cbn [fst snd confirmations]. rewrite IH.
    assert (Hstep : confirmed_count (update d now signal).1 =
                    confirmed_count d + (if (update d now signal).2 then 1 else 0)).
    { unfold update. destruct signal; [|cbn; lia].
      destruct (active d); cbn; [|lia].
      destruct (episode_start d) as [start|]; [|cbn; lia].
      destruct (_ && _); cbn; lia. }
    rewrite Hstep. destruct (update d now signal).2; lia.
Qed.

Lemma update_start_active d now signal :
  is_Some (episode_start (update d now signal).1) -> active (update d now signal).1 = true.
Proof.
  unfold update. destruct signal; [|cbn; intros [? [=]]].
  destruct (active d) eqn:Ha; cbn; [|reflexivity].
  destruct (episode_start d) as [start|] eqn:Hs; [|cbn; rewrite Hs; intros [? [=]]].
  destruct (_ && _); cbn; [intros [? [=]] | intros _; exact Ha].
Qed.

(** A timed episode confirms at its first call that is late enough and out
    of the cooldown, and only there. *)
Lemma run_timed_confirms rest : forall d t0 t,
  active d = true -> episode_start d = Some t0 ->
  Forall (fun c : call => c.2 = true) rest ->
  (t, true) ∈ rest ->
  sustain_threshold d <= t - t0 ->
  (forall last, last_confirmed d = Some last -> cooldown d <= t - last) ->
  confirmations (run d rest).2 = 1%nat.
Proof.
  induction rest as [|[t1 s1] rest IH]; intros d t0 t Ha Hs Hall Hin Hth Hcd.
  - apply elem_of_nil in Hin. contradiction.
  - apply Forall_cons in Hall as [Hs1 Hall]. cbn in Hs1. subst s1.
    rewrite run_cons. cbn [fst snd confirmations].
    destruct (update d t1 true) as [d1 o] eqn:Hu. cbn [fst snd].
    destruct o.
    + destruct (update_confirms _ _ _ _ Hu) as (_ & _ & _ & _ & Ha1 & Hs1 & _).
      rewrite (run_spent rest d1 Ha1 Hs1 Hall). reflexivity.
    + assert (Hd : d1 = d /\ ((sustain_threshold d <=? t1 - t0) && cooled d t1 = false)).
      { unfold update in Hu. rewrite Ha, Hs in Hu. cbn in Hu.
        destruct (_ && _); [discriminate|]. injection Hu as <-. split; reflexivity. }
      destruct Hd as [-> Hno].
      apply elem_of_cons in Hin as [Heq|Hin].
      * injection Heq as <-. exfalso.
        apply andb_false_iff in Hno as [Hno|Hno].
        -- apply Z.leb_gt in Hno. lia.
        -- unfold cooled in Hno. destruct (last_confirmed d) as [last|] eqn:Hl;
             [|discriminate].
           apply Z.leb_gt in Hno. specialize (Hcd last eq_refl). lia.
      * exact (IH d t0 t Ha Hs Hall Hin Hth Hcd).
Qed.

Lemma run_held_confirms d t0 rest t :
  active d = false ->
  Forall (fun c : call => c.2 = true) rest ->
  (t, true) ∈ rest ->
  sustain_threshold d <= t - t0 ->
  (forall last, last_confirmed d = Some last -> cooldown d <= t - last) ->
  confirmations (run d ((t0, true) :: rest)).2 = 1%nat.
Proof.
  intros Ha Hall Hin Hth Hcd. rewrite run_cons.
  assert (Hu : update d t0 true =
    ({| active := true; episode_start := Some t0;
        last_confirmed := last_confirmed d; confirmed_count := confirmed_count d;
        sustain_threshold := sustain_threshold d; cooldown := cooldown d |}, false)).
  { unfold update. rewrite Ha. reflexivity. }
  rewrite Hu. cbn [fst snd confirmations].
  apply (run_timed_confirms rest _ t0 t); auto.
Qed.

End DebounceMore.

(** X1.  After any sequence of update calls the count kept by a detector is
    the count it started with plus the number of calls that returned a
    confirmation. *)
Theorem count_is_number_of_confirmations :
  (forall h calls,
     HandGestureDetector.get_hand_raise_count (HandGestureDetector.run h calls).1 =
     HandGestureDetector.get_hand_raise_count h
     + Z.of_nat (confirmations (HandGestureDetector.run h calls).2)) /\
  (forall f calls,
     FaceMovementDetector.get_looking_away_count (FaceMovementDetector.run f calls).1 =
     FaceMovementDetector.get_looking_away_count f
     + Z.of_nat (confirmations (FaceMovementDetector.run f calls).2)).
Proof.
  split.
  - intros h calls. rewrite hand_run_outs.
    change (Debounce.confirmed_count (Debounce.of_hand (HandGestureDetector.run h calls).1)
            = Debounce.confirmed_count (Debounce.of_hand h)
              + Z.of_nat (confirmations (Debounce.run (Debounce.of_hand h) calls).2)).
    rewrite hand_run_state. apply run_count.
  - intros f calls. rewrite face_run_outs.
    change (Debounce.confirmed_count (Debounce.of_face (FaceMovementDetector.run f calls).1)
            = Debounce.confirmed_count (Debounce.of_face f)
              + Z.of_nat (confirmations (Debounce.run (Debounce.of_face f) calls).2)).
    rewrite face_run_state. apply run_count.
Qed.

(** X2.  Whatever the state before, after an update call a detector holds a
    start time only while its raised (looking-away) flag is set. *)
Theorem start_time_only_while_active :
  (forall h now raised,
     is_Some (HandGestureDetector.hand_raise_start_time
                (HandGestureDetector.update_hand_raise_count h now raised).1) ->
     HandGestureDetector.hand_raised
       (HandGestureDetector.update_hand_raise_count h now raised).1 = true) /\
  (forall f now away,
     is_Some (FaceMovementDetector.looking_away_start_time
                (FaceMovementDetector.update_looking_away_count f now away).1) ->
     FaceMovementDetector.is_looking_away
       (FaceMovementDetector.update_looking_away_count f now away).1 = true).
Proof.
  split.
  - intros h now raised H.
    pose proof (update_start_active (Debounce.of_hand h) now raised) as Hg.
    rewrite of_hand_update in Hg. exact (Hg H).
  - intros f now away H.
    pose proof (update_start_active (Debounce.of_face f) now away) as Hg.
    rewrite of_face_update in Hg. exact (Hg H).
Qed.

Lemma start_time_only_while_active_witness :
  HandGestureDetector.hand_raised
    (HandGestureDetector.update_hand_raise_count HandGestureDetector.init 7 true).1 = true /\
  FaceMovementDetector.is_looking_away
    (FaceMovementDetector.update_looking_away_count FaceMovementDetector.init 7 true).1
  = true.
Proof.
  destruct start_time_only_while_active as [Hh Hf].
  split.
  - apply (Hh HandGestureDetector.init 7 true). exists 7. reflexivity.
  - apply (Hf FaceMovementDetector.init 7 true). exists 7. reflexivity.
Defined.

(** X3.  An episode that is held long enough is confirmed, exactly once.
    Take a detector whose flag is down and a run of calls with a true
    signal that starts at [t0].  If some later call of the run comes at least
    the duration threshold after [t0] and, when the detector has confirmed
    before, at least the cooldown after that confirmation, then exactly one
    call of the run returns a confirmation. *)
Theorem held_episode_confirms_once :
  (forall h t0 rest t,
     HandGestureDetector.hand_raised h = false ->
     Forall (fun c : call => c.2 = true) rest ->
     (t, true) ∈ rest ->
     HandGestureDetector.hand_raise_duration_threshold h <= t - t0 ->
     (forall last, HandGestureDetector.last_hand_raise_time h = Some last ->
                   HandGestureDetector.cooldown_period h <= t - last) ->
     confirmations (HandGestureDetector.run h ((t0, true) :: rest)).2 = 1%nat) /\
  (forall f t0 rest t,
     FaceMovementDetector.is_looking_away f = false ->
     Forall (fun c : call => c.2 = true) rest ->
     (t, true) ∈ rest ->
     FaceMovementDetector.looking_away_threshold f <= t - t0 ->
     (forall last, FaceMovementDetector.last_looking_away_time f = Some last ->
                   FaceMovementDetector.cooldown_period f <= t - last) ->
     confirmations (FaceMovementDetector.run f ((t0, true) :: rest)).2 = 1%nat).
Proof.
  split.
  - intros h t0 rest t Ha Hall Hin Hth Hcd. rewrite hand_run_outs.
    exact (run_held_confirms (Debounce.of_hand h) t0 rest t Ha Hall Hin Hth Hcd).
  - intros f t0 rest t Ha Hall Hin Hth Hcd. rewrite face_run_outs.
    exact (run_held_confirms (Debounce.of_face f) t0 rest t Ha Hall Hin Hth Hcd).
Qed.

Lemma held_episode_confirms_once_witness :
  confirmations
    (HandGestureDetector.run HandGestureDetector.init
       ((0, true) :: [(400000, true); (1200000, true); (1500000, true)])).2 = 1%nat /\
  confirmations
    (FaceMovementDetector.run FaceMovementDetector.init
       ((0, true) :: [(400000, true); (2200000, true); (2500000, true)])).2 = 1%nat.
Proof.
  destruct held_episode_confirms_once as [Hh Hf].
  split.
  - apply (Hh HandGestureDetector.init 0
             [(400000, true); (1200000, true); (1500000, true)] 1200000).
    + reflexivity.
    + repeat constructor.
    + apply list_elem_of_In. cbn. auto.
    + cbn. unfold seconds. lia.
    + intros last [=].
  - apply (Hf FaceMovementDetector.init 0
             [(400000, true); (2200000, true); (2500000, true)] 2200000).
    + reflexivity.
    + repeat constructor.
    + apply list_elem_of_In. cbn. auto.
    + cbn. unfold seconds. lia.
    + intros last [=].
Defined.

Lemma hand_run_thresholds h calls :
  HandGestureDetector.hand_raise_duration_threshold (HandGestureDetector.run h calls).1
    = HandGestureDetector.hand_raise_duration_threshold h /\
  HandGestureDetector.cooldown_period (HandGestureDetector.run h calls).1
    = HandGestureDetector.cooldown_period h.
Proof.
  pose proof (run_thresholds calls (Debounce.of_hand h)) as H.
  rewrite <- hand_run_state in H. exact H.
Qed.

Lemma face_update_angles f now away :
  FaceMovementDetector.yaw_threshold
    (FaceMovementDetector.update_looking_away_count f now away).1
    = FaceMovementDetector.yaw_threshold f /\
  FaceMovementDetector.pitch_threshold
    (FaceMovementDetector.update_looking_away_count f now away).1
    = FaceMovementDetector.pitch_threshold f.
Proof.
  unfold FaceMovementDetector.update_looking_away_count.
  destruct away; [|split; reflexivity].
  destruct (FaceMovementDetector.is_looking_away f); cbn; [|split; reflexivity].
  destruct (FaceMovementDetector.looking_away_start_time f); [|split; reflexivity].
  destruct (_ <=? _); [|split; reflexivity].
  destruct (FaceMovementDetector.last_looking_away_time f) as [last|];
    [destruct (_ <=? _)|]; split; reflexivity.
Qed.

Lemma face_run_thresholds calls : forall f,
  FaceMovementDetector.looking_away_threshold (FaceMovementDetector.run f calls).1
    = FaceMovementDetector.looking_away_threshold f /\
  FaceMovementDetector.cooldown_period (FaceMovementDetector.run f calls).1
    = FaceMovementDetector.cooldown_period f /\
  FaceMovementDetector.yaw_threshold (FaceMovementDetector.run f calls).1
    = FaceMovementDetector.yaw_threshold f /\
  FaceMovementDetector.pitch_threshold (FaceMovementDetector.run f calls).1
    = FaceMovementDetector.pitch_threshold f.
Proof.
  intros f.
  pose proof (run_thresholds calls (Debounce.of_face f)) as [H1 H2].
  rewrite <- face_run_state in H1, H2.
  split; [exact H1|]. split; [exact H2|].
  revert f H1 H2. induction calls as [|[now away] rest IH]; intros f _ _;
    [split; reflexivity|].
  cbn [FaceMovementDetector.run].
  pose proof (face_update_angles f now away) as [Hy Hp].
  destruct (FaceMovementDetector.update_looking_away_count f now away) as [f1 out].
  cbn [fst] in Hy, Hp.
  pose proof (run_thresholds rest (Debounce.of_face f1)) as [H1 H2].
  rewrite <- face_run_state in H1, H2.
  destruct (IH f1 H1 H2) as [IHy IHp].
  destruct (FaceMovementDetector.run f1 rest) as [f2 outs]. cbn [fst] in *.
  split; congruence.
Qed.

(** X4.  [reset_count] forgets the calls made before it: applied after any
    sequence of update calls it gives the detector it gives when applied at
    once, and for a freshly constructed detector that is the detector
    itself.  Only the thresholds survive a reset. *)
Theorem reset_count_forgets_history :
  (forall h calls,
     HandGestureDetector.reset_count (HandGestureDetector.run h calls).1
     = HandGestureDetector.reset_count h) /\
  HandGestureDetector.reset_count HandGestureDetector.init = HandGestureDetector.init /\
  (forall f calls,
     FaceMovementDetector.reset_count (FaceMovementDetector.run f calls).1
     = FaceMovementDetector.reset_count f) /\
  FaceMovementDetector.reset_count FaceMovementDetector.init = FaceMovementDetector.init.
Proof.
  split; [|split; [reflexivity|split; [|reflexivity]]].
  - intros h calls. unfold HandGestureDetector.reset_count.
    destruct (hand_run_thresholds h calls) as [-> ->]. reflexivity.
  - intros f calls. unfold FaceMovementDetector.reset_count.
    destruct (face_run_thresholds calls f) as (-> & -> & -> & ->). reflexivity.
Qed.

(** * Further properties of the attention score *)

Section ScoringMore.

Local Open Scope Q_scope.

Lemma max0_ge x : x <= max0 x.
Proof.
  unfold max0. destruct (Qlt_bool 0 x) eqn:E; [apply Qle_refl|].
  apply Qnot_lt_le. intros H. apply Qlt_bool_iff in H. congruence.
Qed.

Lemma max0_mono x y : x <= y -> max0 x <= max0 y.
Proof.
  intros H. unfold max0 at 1. destruct (Qlt_bool 0 x) eqn:E.
  - eapply Qle_trans; [exact H | apply max0_ge].
  - apply max0_nonneg.
Qed.

Lemma max0_pos x : 0 < x -> max0 x = x.
Proof. intros H. unfold max0. apply Qlt_bool_iff in H. rewrite H. reflexivity. Qed.

Lemma max0_nonpos x : x <= 0 -> max0 x = 0.
Proof.
  intros H. unfold max0. destruct (Qlt_bool 0 x) eqn:E; [|reflexivity].
  apply Qlt_bool_iff in E. exfalso. exact (Qlt_not_le _ _ E H).
Qed.

Lemma angle_score_mono a b k : 0 <= k -> a <= b -> max0 (100 - b * k) <= max0 (100 - a * k).
Proof.
  intros Hk Hab. apply max0_mono.
  pose proof (Qmult_le_compat_r _ _ _ Hab Hk). lra.
Qed.

Lemma score_of_pose f pose :
  FaceMovementDetector.attention_score
    (FaceMovementDetector.detect_face_movement f (Some (Some pose)))
  = (max0 (100 - Qabs (yaw pose) * 2) + max0 (100 - Qabs (pitch pose) * 3)) / 2.
Proof. reflexivity. Qed.

Lemma score_of_pose_half f pose :
  FaceMovementDetector.attention_score
    (FaceMovementDetector.detect_face_movement f (Some (Some pose)))
  == (max0 (100 - Qabs (yaw pose) * 2) + max0 (100 - Qabs (pitch pose) * 3)) * (1 # 2).
Proof. rewrite score_of_pose. unfold Qdiv. reflexivity. Qed.

Lemma Qabs_zero_iff x : Qabs x == 0 <-> x == 0.
Proof.
  split.
  - apply Qabs_case; intros H1 H2; lra.
  - intros H. rewrite H. reflexivity.
Qed.

(** The two one-angle scores, by cases on whether they are cut at 0. *)
Lemma angle_score_cases a k :
  (0 < 100 - a * k /\ max0 (100 - a * k) = 100 - a * k) \/
  (100 - a * k <= 0 /\ max0 (100 - a * k) = 0).
Proof.
  destruct (Qlt_le_dec 0 (100 - a * k)) as [H|H].
  - left. split; [exact H | apply max0_pos, H].
  - right. split; [exact H | apply max0_nonpos, H].
Qed.

End ScoringMore.

(** X5.  The attention score does not increase when the head turns further
    away: if one pose has [|yaw|] and [|pitch|] at least those of another,
    its score is at most the score of the other.  In particular the score is
    non-increasing in [|yaw|] alone and in [|pitch|] alone. *)
Theorem attention_score_monotone : forall f pose1 pose2,
  (Qabs (yaw pose1) <= Qabs (yaw pose2))%Q ->
  (Qabs (pitch pose1) <= Qabs (pitch pose2))%Q ->
  (FaceMovementDetector.attention_score
     (FaceMovementDetector.detect_face_movement f (Some (Some pose2)))
   <= FaceMovementDetector.attention_score
        (FaceMovementDetector.detect_face_movement f (Some (Some pose1))))%Q.
Proof.
  intros f pose1 pose2 Hy Hp. rewrite !score_of_pose.
  pose proof (angle_score_mono _ _ 2%Q ltac:(discriminate) Hy) as H1.
  pose proof (angle_score_mono _ _ 3%Q ltac:(discriminate) Hp) as H2.
  apply Qmult_le_compat_r; [|discriminate].
  apply Qplus_le_compat; assumption.
Qed.

Lemma attention_score_monotone_witness :
  (FaceMovementDetector.attention_score
     (FaceMovementDetector.detect_face_movement FaceMovementDetector.init
        (Some (Some {| pitch := -10; yaw := 30; roll := 0 |})))
   <= FaceMovementDetector.attention_score
        (FaceMovementDetector.detect_face_movement FaceMovementDetector.init
           (Some (Some {| pitch := 5; yaw := -12; roll := 0 |}))))%Q.
Proof.
  apply (attention_score_monotone FaceMovementDetector.init
           {| pitch := 5; yaw := -12; roll := 0 |}
           {| pitch := -10; yaw := 30; roll := 0 |}); cbn; discriminate.
Defined.



(** X7.  Where the scale saturates.  The pose that faces the camera (yaw 0
    and pitch 0) scores 100.  A yaw of 50 degrees or more, to either side,
    cuts the yaw half of the score off, so the score is at most 50 whatever
    the pitch; a pitch of 100/3 degrees or more does the same for the pitch
    half; and with both, the score is 0. *)
Theorem attention_score_extremes : forall f pose,
  ((yaw pose == 0 /\ pitch pose == 0)%Q ->
   (FaceMovementDetector.attention_score
      (FaceMovementDetector.detect_face_movement f (Some (Some pose))) == 100)%Q) /\
  ((50 <= Qabs (yaw pose))%Q ->
   (FaceMovementDetector.attention_score
      (FaceMovementDetector.detect_face_movement f (Some (Some pose))) <= 50)%Q) /\
  ((100 # 3 <= Qabs (pitch pose))%Q ->
   (FaceMovementDetector.attention_score
      (FaceMovementDetector.detect_face_movement f (Some (Some pose))) <= 50)%Q) /\
  ((50 <= Qabs (yaw pose) /\ 100 # 3 <= Qabs (pitch pose))%Q ->
   (FaceMovementDetector.attention_score
      (FaceMovementDetector.detect_face_movement f (Some (Some pose))) == 0)%Q).
Proof.
  intros f pose. rewrite score_of_pose_half.
  rewrite <- (Qabs_zero_iff (yaw pose)), <- (Qabs_zero_iff (pitch pose)).
  pose proof (Qabs_nonneg (yaw pose)) as Ha. pose proof (Qabs_nonneg (pitch pose)) as Hb.
  set (a := Qabs (yaw pose)) in *. set (b := Qabs (pitch pose)) in *.
  destruct (angle_score_cases a 2) as [[Hy1 ->]|[Hy1 ->]];
    destruct (angle_score_cases b 3) as [[Hp1 ->]|[Hp1 ->]];
    (split; [intros [H1 H2]; lra|];
     split; [intros H; lra|];
     split; [intros H; lra|];
     intros [H1 H2]; lra).
Qed.

Lemma attention_score_extremes_witness :
  (FaceMovementDetector.attention_score
     (FaceMovementDetector.detect_face_movement FaceMovementDetector.init
        (Some (Some {| pitch := 0; yaw := 0; roll := 45 |}))) == 100)%Q /\
  (FaceMovementDetector.attention_score
     (FaceMovementDetector.detect_face_movement FaceMovementDetector.init
        (Some (Some {| pitch := 3; yaw := -60; roll := 0 |}))) <= 50)%Q /\
  (FaceMovementDetector.attention_score
     (FaceMovementDetector.detect_face_movement FaceMovementDetector.init
        (Some (Some {| pitch := 40; yaw := 10; roll := 0 |}))) <= 50)%Q /\
  (FaceMovementDetector.attention_score
     (FaceMovementDetector.detect_face_movement FaceMovementDetector.init
        (Some (Some {| pitch := -34; yaw := 50; roll := 0 |}))) == 0)%Q.
Proof.
  split; [|split; [|split]].
  - apply (proj1 (attention_score_extremes FaceMovementDetector.init
                    {| pitch := 0; yaw := 0; roll := 45 |})).
    split; reflexivity.
  - apply (proj1 (proj2 (attention_score_extremes FaceMovementDetector.init
                           {| pitch := 3; yaw := -60; roll := 0 |}))).
    cbn; discriminate.
  - apply (proj1 (proj2 (proj2 (attention_score_extremes FaceMovementDetector.init
                                  {| pitch := 40; yaw := 10; roll := 0 |})))).
    cbn; discriminate.
  - apply (proj2 (proj2 (proj2 (attention_score_extremes FaceMovementDetector.init
                                  {| pitch := -34; yaw := 50; roll := 0 |})))).
    split; cbn; discriminate.
Defined.

(** * Further properties of the aggregator *)

Section AggregatorMore.

Import BehaviorTrackingSystem.

(** ** The dictionary *)

Lemma dict_get_update_eq k f (d : dict) :
  dict_get k (dict_update k f d) = f <$> dict_get k d.
Proof.
  induction d as [|[k' v] d IH]; [reflexivity|]. cbn [dict_update dict_get].
  destruct (String.eqb k' k) eqn:E; cbn [dict_get]; rewrite E; [reflexivity | exact IH].
Qed.

Lemma dict_get_update_ne k k' f (d : dict) :
  k <> k' -> dict_get k' (dict_update k f d) = dict_get k' d.
Proof.
  intros Hne. induction d as [|[k0 v] d IH]; [reflexivity|]. cbn [dict_update dict_get].
  destruct (String.eqb k0 k) eqn:E; cbn [dict_get].
  - apply String.eqb_eq in E. subst k0.
    destruct (String.eqb k k') eqn:E'; [|reflexivity].
    apply String.eqb_eq in E'. contradiction.
  - destruct (String.eqb k0 k'); [reflexivity | exact IH].
Qed.

Lemma dict_get_add k k' v (d : dict) :
  dict_get k' (dict_add k v d) =
  match dict_get k' d with
  | Some r => Some r
  | None => if String.eqb k k' then Some v else None
  end.
Proof.
  unfold dict_add. induction d as [|[k0 v0] d IH]; [reflexivity|].
  cbn [app dict_get]. destruct (String.eqb k0 k'); [reflexivity | exact IH].
Qed.

Lemma dict_get_for_each k f (d : dict) :
  dict_get k (dict_for_each f d) = f <$> dict_get k d.
Proof.
  unfold dict_for_each. induction d as [|[k0 v0] d IH]; [reflexivity|].
  cbn [map dict_get fst snd]. destruct (String.eqb k0 k); [reflexivity | exact IH].
Qed.

Lemma dict_mem_get k (d : dict) :
  dict_mem k d = match dict_get k d with Some _ => true | None => false end.
Proof.
  unfold dict_mem. induction d as [|[k0 v0] d IH]; [reflexivity|].
  cbn [existsb dict_get fst]. destruct (String.eqb k0 k); [reflexivity | exact IH].
Qed.

Lemma dict_get_keys k (d : dict) : k ∈ d.*1 <-> is_Some (dict_get k d).
Proof.
  induction d as [|[k0 v0] d IH].
  - split; [intros H; apply elem_of_nil in H; contradiction | intros [? [=]]].
  - rewrite fmap_cons, elem_of_cons. cbn [dict_get fst].
    destruct (String.eqb k0 k) eqn:E.
    + apply String.eqb_eq in E. split; [eauto | intros _; left; congruence].
    + apply String.eqb_neq in E. rewrite <- IH.
      split; [intros [H|H]; [congruence | exact H] | auto].
Qed.

Lemma dict_update_keys k f (d : dict) : (dict_update k f d).*1 = d.*1.
Proof.
  induction d as [|[k0 v0] d IH]; [reflexivity|]. cbn [dict_update].
  destruct (String.eqb k0 k); [reflexivity|]. rewrite !fmap_cons, IH. reflexivity.
Qed.

(** ** Records are kept, under distinct ids *)

Lemma kept_refl (d : dict) : kept d d.
Proof. intros i sid r H. exists r. auto. Qed.

Lemma kept_trans (d1 d2 d3 : dict) : kept d1 d2 -> kept d2 d3 -> kept d1 d3.
Proof.
  intros H12 H23 i sid r H. destruct (H12 i sid r H) as (r2 & H2 & Hn & Hf).
  destruct (H23 i sid r2 H2) as (r3 & H3 & Hn3 & Hf3).
  exists r3. repeat split; congruence.
Qed.

Lemma kept_for_each f (d : dict) :
  (forall r, name (f r) = name r /\ first_seen (f r) = first_seen r) ->
  kept d (dict_for_each f d).
Proof.
  intros Hf i sid r H. exists (f r). rewrite dict_for_each_lookup, H.
  destruct (Hf r). auto.
Qed.

Lemma kept_update k f (d : dict) :
  (forall r, name (f r) = name r /\ first_seen (f r) = first_seen r) ->
  kept d (dict_update k f d).
Proof.
  intros Hf. induction d as [|[k0 v0] d IH]; intros i sid r H; [discriminate|].
  cbn [dict_update]. destruct (String.eqb k0 k).
  - destruct i as [|i]; cbn in *.
    + injection H as <- <-. exists (f v0). destruct (Hf v0). auto.
    + exists r. auto.
  - destruct i as [|i]; cbn in *.
    + injection H as <- <-. exists v0. auto.
    + exact (IH i sid r H).
Qed.

Lemma kept_add k v (d : dict) : kept d (dict_add k v d).
Proof.
  intros i sid r H. exists r. unfold dict_add.
  rewrite lookup_app_l; [auto | eapply lookup_lt_Some, H].
Qed.

Lemma update_student_kept f acc student :
  kept (active_students acc.1) (active_students (update_student f acc student).1).
Proof.
  destruct acc as [self calls]. cbn [fst]. unfold update_student.
  destruct (truthy _) as [sid|]; [|apply kept_refl].
  assert (Hk : kept (active_students self)
    (dict_update sid (seen (current_time f))
       (if dict_mem sid (active_students self) then active_students self
        else dict_add sid (new_student (Student.name student) (current_time f))
               (active_students self)))).
  { eapply kept_trans; [|apply kept_update; intros r; split; reflexivity].
    destruct (dict_mem _ _); [apply kept_refl | apply kept_add]. }
  destruct (decide _); exact Hk.
Qed.

Lemma update_student_nodup f acc student :
  NoDup (active_students acc.1).*1 ->
  NoDup (active_students (update_student f acc student).1).*1.
Proof.
  destruct acc as [self calls]. cbn [fst]. intros Hnd. unfold update_student.
  destruct (truthy _) as [sid|]; [|exact Hnd].
  assert (Hk : NoDup
    (dict_update sid (seen (current_time f))
       (if dict_mem sid (active_students self) then active_students self
        else dict_add sid (new_student (Student.name student) (current_time f))
               (active_students self))).*1).
  { rewrite dict_update_keys. destruct (dict_mem _ _) eqn:E; [exact Hnd|].
    unfold dict_add. rewrite fmap_app. apply NoDup_app.
    split; [exact Hnd|]. split; [|apply NoDup_singleton].
    intros x Hx Hx'. apply list_elem_of_singleton in Hx'. cbn in Hx'. subst x.
    apply dict_get_keys in Hx as [r Hr]. rewrite dict_mem_get, Hr in E. discriminate. }
  destruct (decide _); exact Hk.
Qed.

Lemma recognition_kept f students : forall acc,
  kept (active_students acc.1)
    (active_students (fold_left (update_student f) students acc).1) /\
  (NoDup (active_students acc.1).*1 ->
   NoDup (active_students (fold_left (update_student f) students acc).1).*1).
Proof.
  induction students as [|student rest IH]; intros acc.
  - split; [apply kept_refl | auto].
  - cbn [fold_left]. destruct (IH (update_student f acc student)) as [Hk Hn]. split.
    + eapply kept_trans; [apply update_student_kept | exact Hk].
    + intros H. apply Hn, update_student_nodup, H.
Qed.

Lemma hand_stage_kept self f :
  kept (active_students self) (active_students (hand_stage self f)) /\
  (active_students (hand_stage self f)).*1 = (active_students self).*1.
Proof.
  rewrite hand_stage_records.
  destruct (multi_hand_landmarks f) as [|first rest]; [split; [apply kept_refl | reflexivity]|].
  destruct (_ && _); [|split; [apply kept_refl | reflexivity]].
  split; [apply kept_for_each; intros r; split; reflexivity | apply dict_for_each_keys].
Qed.

Lemma face_stage_kept self f :
  kept (active_students self) (active_students (face_stage self f)) /\
  (active_students (face_stage self f)).*1 = (active_students self).*1.
Proof.
  unfold face_stage.
  destruct (FaceMovementDetector.face_detected _); [|split; [apply kept_refl | reflexivity]].
  assert (H1 : forall score,
    kept (active_students self) (dict_for_each (append_score score) (active_students self)) /\
    (dict_for_each (append_score score) (active_students self)).*1 = (active_students self).*1).
  { intros score. split; [apply kept_for_each; intros r; split; reflexivity
                         | apply dict_for_each_keys]. }
  destruct (FaceMovementDetector.looking_away _); [|apply H1].
  destruct (FaceMovementDetector.update_looking_away_count _ _ _) as [d [|]]; [|apply H1].
  cbn [set_active_students set_face_movement_detector active_students].
  destruct (H1 (FaceMovementDetector.attention_score
                  (FaceMovementDetector.detect_face_movement (face_movement_detector self)
                     (multi_face_landmarks f)))) as [Hk Hkeys].
  split.
  - eapply kept_trans; [exact Hk|]. apply kept_for_each; intros r; split; reflexivity.
  - rewrite dict_for_each_keys. exact Hkeys.
Qed.

Lemma do_step_kept acc s :
  kept (active_students acc.1) (active_students (do_step acc s).1) /\
  (NoDup (active_students acc.1).*1 -> NoDup (active_students (do_step acc s).1).*1).
Proof.
  destruct acc as [self calls]. destruct s as [f| |session_date]; cbn [do_step fst].
  - rewrite process_frame_unfold. cbn [fst].
    destruct (recognition_kept f (recognized_students f) (self, [])) as [Hk Hn].
    fold (recognition_stage self f) in Hk, Hn. cbn [fst] in Hk, Hn.
    destruct (hand_stage_kept (recognition_stage self f).1 f) as [Hk2 Hkeys2].
    destruct (face_stage_kept (hand_stage (recognition_stage self f).1 f) f)
      as [Hk3 Hkeys3].
    split.
    + eapply kept_trans; [exact Hk|]. eapply kept_trans; [exact Hk2 | exact Hk3].
    + intros H. rewrite Hkeys3, Hkeys2. exact (Hn H).
  - cbn [_reset_statistics active_students]. split.
    + apply kept_for_each; intros r; split; reflexivity.
    + rewrite dict_for_each_keys. auto.
  - split; [apply kept_refl | auto].
Qed.

Lemma steps_kept steps : forall acc,
  kept (active_students acc.1) (active_students (fold_left do_step steps acc).1) /\
  (NoDup (active_students acc.1).*1 ->
   NoDup (active_students (fold_left do_step steps acc).1).*1).
Proof.
  induction steps as [|s rest IH]; intros acc; [split; [apply kept_refl | auto]|].
  cbn [fold_left]. destruct (IH (do_step acc s)) as [Hk Hn].
  destruct (do_step_kept acc s) as [Hk1 Hn1]. split.
  - eapply kept_trans; [exact Hk1 | exact Hk].
  - auto.
Qed.

(** X8.  No record is ever removed or moved, and no id gets two records.
    Whatever frames, resets and report requests are processed, every record
    present before is still present afterwards at the same position of the
    dictionary, under the same id, with the same name and the same
    [first_seen]; and if the ids were distinct before they are distinct
    afterwards. *)
Theorem records_kept_and_distinct : forall self steps,
  kept (active_students self) (active_students (run self steps).1) /\
  (NoDup (active_students self).*1 -> NoDup (active_students (run self steps).1).*1).
Proof. intros self steps. exact (steps_kept steps (self, [])). Qed.

Lemma records_kept_and_distinct_witness :
  NoDup (active_students
           (run init [process one_student_frame; process bob_frame; key_r;
                      process later_frame]).1).*1.
Proof.
  apply (proj2 (records_kept_and_distinct init
                  [process one_student_frame; process bob_frame; key_r;
                   process later_frame])).
  constructor.
Defined.

(** ** What one recognised face does to the dictionary *)

Lemma update_student_get f self calls student k :
  dict_get k (active_students (update_student f (self, calls) student).1) =
  match truthy (Student.student_id student) with
  | Some student_id =>
      if String.eqb student_id k then
        Some (seen (current_time f)
                (match dict_get student_id (active_students self) with
                 | Some r => r
                 | None => new_student (Student.name student) (current_time f)
                 end))
      else dict_get k (active_students self)
  | None => dict_get k (active_students self)
  end.
Proof.
  unfold update_student. destruct (truthy _) as [sid|]; [|reflexivity].
  assert (Hk : dict_get k
    (dict_update sid (seen (current_time f))
       (if dict_mem sid (active_students self) then active_students self
        else dict_add sid (new_student (Student.name student) (current_time f))
               (active_students self))) =
    if String.eqb sid k then
      Some (seen (current_time f)
              (match dict_get sid (active_students self) with
               | Some r => r
               | None => new_student (Student.name student) (current_time f)
               end))
    else dict_get k (active_students self)).
  { rewrite dict_mem_get. destruct (String.eqb sid k) eqn:E.
    - apply String.eqb_eq in E. subst k. rewrite dict_get_update_eq.
      destruct (dict_get sid (active_students self)) as [r|] eqn:Hr.
      + rewrite Hr. reflexivity.
      + rewrite dict_get_add, Hr, String.eqb_refl. reflexivity.
    - apply String.eqb_neq in E. rewrite dict_get_update_ne by exact E.
      destruct (dict_get sid (active_students self)) as [r|] eqn:Hr; [reflexivity|].
      rewrite dict_get_add. destruct (dict_get k (active_students self)); [reflexivity|].
      apply String.eqb_neq in E. rewrite E. reflexivity. }
  destruct (decide _); exact Hk.
Qed.

(** ** Faces that are not identified *)

Lemma recognition_unidentified f students : forall acc,
  omap (fun s => truthy (Student.student_id s)) students = [] ->
  fold_left (update_student f) students acc = acc.
Proof.
  induction students as [|student rest IH]; intros acc H; [reflexivity|].
  cbn in H. cbn [fold_left]. fold (@omap list _ Student.t string) in H.
  destruct (truthy (Student.student_id student)) as [sid|] eqn:E; [discriminate|].
  assert (Hu : update_student f acc student = acc).
  { destruct acc as [self calls]. unfold update_student. rewrite E. reflexivity. }
  rewrite Hu. apply IH, H.
Qed.

(** X9.  Faces that carry no usable student id ([None], or the empty string)
    are ignored: a frame all of whose recognised faces are of that kind is
    processed exactly like a frame without faces.  It calls the database for
    nothing, creates and updates no record, and only the hand and the
    face-movement parts act on the state. *)
Theorem unidentified_faces_ignored : forall self f,
  identified f = [] ->
  _process_frame self f = (face_stage (hand_stage self f) f, []).
Proof.
  intros self f H. rewrite process_frame_unfold. unfold recognition_stage.
  rewrite (recognition_unidentified f (recognized_students f) (self, []) H). reflexivity.
Qed.

Lemma unidentified_faces_ignored_witness :
  _process_frame (_process_frame init one_student_frame).1 strangers_frame =
  (face_stage (hand_stage (_process_frame init one_student_frame).1 strangers_frame)
     strangers_frame, []).
Proof.
  apply (unidentified_faces_ignored (_process_frame init one_student_frame).1
           strangers_frame).
  reflexivity.
Defined.

(** ** Attendance and records go together *)

Lemma attendance_rows_app calls1 calls2 :
  attendance_rows (calls1 ++ calls2) = attendance_rows calls1 ++ attendance_rows calls2.
Proof. apply omap_app. Qed.

Lemma attendance_rows_report self session_date :
  attendance_rows (_save_session_report self session_date) = [].
Proof.
  unfold _save_session_report. destruct (session_start_time self); [|reflexivity].
  induction (active_students self) as [|[k v] items IH]; [reflexivity | exact IH].
Qed.

Lemma first_sightings_update k f (d : dict) :
  (forall r, first_seen (f r) = first_seen r) ->
  first_sightings (dict_update k f d) = first_sightings d.
Proof.
  intros Hf. unfold first_sightings.
  induction d as [|[k0 v0] d IH]; [reflexivity|]. cbn [dict_update].
  destruct (String.eqb k0 k); cbn [map fst snd]; [rewrite Hf; reflexivity|].
  rewrite IH. reflexivity.
Qed.

Lemma first_sightings_for_each f (d : dict) :
  (forall r, first_seen (f r) = first_seen r) ->
  first_sightings (dict_for_each f d) = first_sightings d.
Proof.
  intros Hf. unfold first_sightings, dict_for_each.
  induction d as [|[k0 v0] d IH]; [reflexivity|].
  cbn [map fst snd]. rewrite Hf, IH. reflexivity.
Qed.

Lemma update_student_mirror f acc student :
  attendance_mirror acc -> attendance_mirror (update_student f acc student).
Proof.
  destruct acc as [self calls]. unfold attendance_mirror. cbn [fst snd].
  intros [Hrows Hset]. unfold update_student.
  destruct (truthy _) as [sid|]; [|split; assumption].
  cbn [set_active_students attendance_marked active_students].
  rewrite dict_mem_get.
  destruct (dict_get sid (active_students self)) as [r|] eqn:Hr.
  - assert (Hin : sid ∈ attendance_marked self).
    { rewrite Hset. apply elem_of_list_to_set, dict_get_keys. rewrite Hr. eauto. }
    destruct (decide _) as [_|Hn]; [|contradiction].
    cbn [fst snd active_students attendance_marked set_active_students
         set_attendance_marked].
    rewrite first_sightings_update by reflexivity. rewrite dict_update_keys.
    split; assumption.
  - assert (Hnin : sid ∉ attendance_marked self).
    { rewrite Hset. intros Hin. apply elem_of_list_to_set, dict_get_keys in Hin.
      rewrite Hr in Hin. destruct Hin as [? [=]]. }
    destruct (decide _) as [Hin|_]; [contradiction|].
    cbn [fst snd active_students attendance_marked set_active_students
         set_attendance_marked].
    rewrite first_sightings_update by reflexivity. rewrite dict_update_keys.
    rewrite attendance_rows_app. unfold dict_add, first_sightings.
    rewrite map_app, fmap_app, list_to_set_app_L, Hset.
    split; [f_equal; exact Hrows|].
    cbn. rewrite (right_id_L ∅ (∪)). reflexivity.
Qed.

Lemma recognition_mirror f students : forall acc,
  attendance_mirror acc -> attendance_mirror (fold_left (update_student f) students acc).
Proof.
  induction students as [|student rest IH]; intros acc H; [exact H|].
  cbn [fold_left]. apply IH, update_student_mirror, H.
Qed.

Lemma do_step_mirror acc s : attendance_mirror acc -> attendance_mirror (do_step acc s).
Proof.
  destruct acc as [self calls]. intros H. destruct s as [f| |session_date]; cbn [do_step].
  - rewrite process_frame_unfold.
    pose proof (recognition_mirror f (recognized_students f) (self, calls) H) as Hr.
    rewrite recognition_calls in Hr. fold (recognition_stage self f) in Hr.
    destruct Hr as [Hrows Hset]. cbn [fst snd] in *.
    set (self1 := (recognition_stage self f).1) in *.
    unfold attendance_mirror. cbn [fst snd].
    rewrite (proj2 (proj2 (face_stage_keeps _ f))), (proj2 (proj2 (hand_stage_keeps _ f))).
    rewrite (proj2 (face_stage_kept _ f)), (proj2 (hand_stage_kept _ f)).
    split; [|exact Hset]. rewrite Hrows.
    symmetry. clear. unfold face_stage.
    destruct (FaceMovementDetector.face_detected _).
    + assert (H1 : forall score,
        first_sightings (dict_for_each (append_score score)
                           (active_students (hand_stage self1 f)))
        = first_sightings (active_students self1)).
      { intros score. rewrite first_sightings_for_each by reflexivity.
        rewrite hand_stage_records.
        destruct (multi_hand_landmarks f); [reflexivity|].
        destruct (_ && _); [|reflexivity].
        apply first_sightings_for_each. reflexivity. }
      destruct (FaceMovementDetector.looking_away _); [|apply H1].
      destruct (FaceMovementDetector.update_looking_away_count _ _ _) as [d [|]];
        [|apply H1].
      cbn [set_active_students set_face_movement_detector active_students].
      rewrite first_sightings_for_each by reflexivity. apply H1.
    + rewrite hand_stage_records.
      destruct (multi_hand_landmarks f); [reflexivity|].
      destruct (_ && _); [|reflexivity].
      apply first_sightings_for_each. reflexivity.
  - destruct H as [Hrows Hset]. unfold attendance_mirror. cbn [fst snd] in *.
    cbn [_reset_statistics active_students attendance_marked].
    rewrite first_sightings_for_each by reflexivity. rewrite dict_for_each_keys.
    split; assumption.
  - destruct H as [Hrows Hset]. unfold attendance_mirror. cbn [fst snd] in *.
    rewrite attendance_rows_app, attendance_rows_report, app_nil_r. split; assumption.
Qed.

Lemma steps_mirror steps : forall acc,
  attendance_mirror acc -> attendance_mirror (fold_left do_step steps acc).
Proof.
  induction steps as [|s rest IH]; intros acc H; [exact H|].
  cbn [fold_left]. apply IH, do_step_mirror, H.
Qed.

(** X10.  In a system that starts with no record and an empty attendance
    set, attendance and records go together whatever is processed: the
    [mark_attendance] calls made so far are, in order, one per record of the
    dictionary, each with the id of the record and the time of day of its
    [first_seen]; and [attendance_marked] is exactly the set of ids that have
    a record. *)
Theorem attendance_follows_records : forall self steps,
  active_students self = [] ->
  attendance_marked self = ∅ ->
  attendance_rows (run self steps).2 = first_sightings (active_students (run self steps).1) /\
  attendance_marked (run self steps).1
  = list_to_set (active_students (run self steps).1).*1.
Proof.
  intros self steps Hd Hm. apply (steps_mirror steps (self, [])).
  unfold attendance_mirror. cbn [fst snd]. rewrite Hd, Hm. split; reflexivity.
Qed.

Lemma attendance_follows_records_witness :
  attendance_rows (run init [process one_student_frame; process bob_frame; key_r;
                             process later_frame]).2
  = first_sightings
      (active_students (run init [process one_student_frame; process bob_frame; key_r;
                                  process later_frame]).1) /\
  attendance_marked (run init [process one_student_frame; process bob_frame; key_r;
                               process later_frame]).1
  = list_to_set
      (active_students (run init [process one_student_frame; process bob_frame; key_r;
                                  process later_frame]).1).*1.
Proof.
  apply (attendance_follows_records init
           [process one_student_frame; process bob_frame; key_r; process later_frame]);
    reflexivity.
Defined.

(** ** Counting the frames of a student *)

Lemma frames_counted_ext N N' (d : dict) :
  (forall k, N k = N' k) -> frames_counted N d -> frames_counted N' d.
Proof.
  intros He H k. specialize (H k). rewrite <- He.
  destruct (dict_get k d); exact H.
Qed.

Lemma frames_counted_for_each N f (d : dict) :
  (forall r, total_frames (f r) = total_frames r) ->
  frames_counted N d -> frames_counted N (dict_for_each f d).
Proof.
  intros Hf H k. specialize (H k). rewrite dict_get_for_each.
  destruct (dict_get k d) as [r|]; cbn; [rewrite Hf|]; exact H.
Qed.

Lemma update_student_counted N f acc student :
  frames_counted N (active_students acc.1) ->
  frames_counted
    (fun k => N k + Z.of_nat (count_occ String.string_dec
                               (omap (fun s => truthy (Student.student_id s)) [student]) k))
    (active_students (update_student f acc student).1).
Proof.
  destruct acc as [self calls]. cbn [fst]. intros H k.
  rewrite update_student_get. cbn.
  destruct (truthy (Student.student_id student)) as [sid|]; cbn.
  - destruct (String.string_dec sid k) as [->|Hne].
    + rewrite String.eqb_refl. specialize (H k).
      destruct (dict_get k (active_students self)) as [r|]; cbn; lia.
    + apply String.eqb_neq in Hne. rewrite Hne. specialize (H k).
      destruct (dict_get k (active_students self)); lia.
  - specialize (H k). destruct (dict_get k (active_students self)); lia.
Qed.

Lemma count_occ_omap_cons (g : Student.t -> option string) student rest k :
  Z.of_nat (count_occ String.string_dec (omap g (student :: rest)) k) =
  Z.of_nat (count_occ String.string_dec (omap g [student]) k)
  + Z.of_nat (count_occ String.string_dec (omap g rest) k).
Proof.
  change (student :: rest) with ([student] ++ rest).
  rewrite omap_app, count_occ_app. lia.
Qed.

Lemma recognition_counted f students : forall N acc,
  frames_counted N (active_students acc.1) ->
  frames_counted
    (fun k => N k + Z.of_nat (count_occ String.string_dec
                               (omap (fun s => truthy (Student.student_id s)) students) k))
    (active_students (fold_left (update_student f) students acc).1).
Proof.
  induction students as [|student rest IH]; intros N acc H.
  - eapply frames_counted_ext; [|exact H]. intros k. cbn. lia.
  - cbn [fold_left].
    eapply frames_counted_ext;
      [|exact (IH _ _ (update_student_counted N f acc student H))].
    intros k. cbn beta. rewrite (count_occ_omap_cons _ student rest k). lia.
Qed.

Lemma hand_stage_counted N self f :
  frames_counted N (active_students self) ->
  frames_counted N (active_students (hand_stage self f)).
Proof.
  intros H. rewrite hand_stage_records.
  destruct (multi_hand_landmarks f); [exact H|].
  destruct (_ && _); [|exact H].
  apply frames_counted_for_each; [reflexivity | exact H].
Qed.

Lemma face_stage_counted N self f :
  frames_counted N (active_students self) ->
  frames_counted N (active_students (face_stage self f)).
Proof.
  intros H. unfold face_stage.
  destruct (FaceMovementDetector.face_detected _); [|exact H].
  assert (H1 : forall score,
    frames_counted N (dict_for_each (append_score score) (active_students self))).
  { intros score. apply frames_counted_for_each; [reflexivity | exact H]. }
  destruct (FaceMovementDetector.looking_away _); [|apply H1].
  destruct (FaceMovementDetector.update_looking_away_count _ _ _) as [d [|]]; [|apply H1].
  apply frames_counted_for_each; [reflexivity | apply H1].
Qed.

Lemma steps_counted steps : forall N acc,
  frames_counted N (active_students acc.1) ->
  frames_counted (fun k => N k + sightings k steps)
    (active_students (fold_left do_step steps acc).1).
Proof.
  induction steps as [|s rest IH]; intros N [self calls] H.
  - eapply frames_counted_ext; [|exact H]. intros k. cbn. lia.
  - cbn [fold_left]. destruct s as [f| |session_date].
    + apply (frames_counted_ext
               (fun k => (N k + Z.of_nat (count_occ String.string_dec (identified f) k))
                         + sightings k rest)).
      * intros k. cbn [sightings]. lia.
      * apply (IH (fun k => N k + Z.of_nat (count_occ String.string_dec (identified f) k))).
        cbn [do_step]. rewrite (surjective_pairing (_process_frame self f)). cbn [fst].
        rewrite process_frame_unfold. cbn [fst].
        apply face_stage_counted, hand_stage_counted.
        exact (recognition_counted f (recognized_students f) N (self, []) H).
    + apply IH. cbn [do_step fst _reset_statistics active_students].
      apply frames_counted_for_each; [reflexivity | exact H].
    + apply IH. exact H.
Qed.

(** X11.  In a system that starts with no record, the [total_frames] of a
    record is the number of recognised faces that carried its id in the
    frames processed so far (a student recognised twice in one frame counts
    twice, and a reset does not clear the count); it is at least 1, and an
    id that was never recognised has no record. *)
Theorem total_frames_counts_sightings : forall self steps student_id,
  active_students self = [] ->
  match dict_get student_id (active_students (run self steps).1) with
  | Some r => total_frames r = sightings student_id steps /\ 1 <= total_frames r
  | None => sightings student_id steps = 0
  end.
Proof.
  intros self steps sid Hd.
  pose proof (steps_counted steps (fun _ => 0) (self, [])) as H.
  cbn [fst] in H. rewrite Hd in H.
  specialize (H (fun k => eq_refl) sid). fold (run self steps) in H.
  destruct (dict_get sid (active_students (run self steps).1)); cbn in H; lia.
Qed.

Lemma total_frames_counts_sightings_witness :
  match dict_get "S001" (active_students (run init two_sightings).1) with
  | Some r => total_frames r = sightings "S001" two_sightings /\ 1 <= total_frames r
  | None => sightings "S001" two_sightings = 0
  end.
Proof. apply (total_frames_counts_sightings init two_sightings "S001"). reflexivity. Defined.

(** ** What a frame does to the record of a student *)

Lemma identified_cons_some student rest student_id k :
  truthy (Student.student_id student) = Some student_id ->
  k ∈ omap (fun s => truthy (Student.student_id s)) (student :: rest) <->
  k = student_id \/ k ∈ omap (fun s => truthy (Student.student_id s)) rest.
Proof.
  intros E. change (student :: rest) with ([student] ++ rest).
  rewrite omap_app, elem_of_app. cbn. rewrite E. rewrite list_elem_of_singleton.
  reflexivity.
Qed.

Lemma identified_cons_none student rest k :
  truthy (Student.student_id student) = None ->
  k ∈ omap (fun s => truthy (Student.student_id s)) (student :: rest) <->
  k ∈ omap (fun s => truthy (Student.student_id s)) rest.
Proof.
  intros E. change (student :: rest) with ([student] ++ rest).
  rewrite omap_app, elem_of_app. cbn. rewrite E.
  split; [intros [H|H]; [apply elem_of_nil in H; contradiction | exact H] | auto].
Qed.

Lemma recognition_get_some f students : forall acc k r0,
  dict_get k (active_students acc.1) = Some r0 ->
  exists r,
    dict_get k (active_students (fold_left (update_student f) students acc).1) = Some r /\
    name r = name r0 /\ first_seen r = first_seen r0 /\
    (k ∈ omap (fun s => truthy (Student.student_id s)) students \/
     last_seen r0 = current_time f -> last_seen r = current_time f) /\
    (k ∉ omap (fun s => truthy (Student.student_id s)) students -> r = r0).
Proof.
  induction students as [|student rest IH]; intros [self calls] k r0 H0.
  - exists r0. cbn. repeat split; auto.
    intros [Hin|Hl]; [apply elem_of_nil in Hin; contradiction | exact Hl].
  - cbn [fold_left].
    pose proof (update_student_get f self calls student k) as Hg.
    destruct (truthy (Student.student_id student)) as [sid|] eqn:E.
    + destruct (String.eqb sid k) eqn:Ek.
      * apply String.eqb_eq in Ek. subst sid. cbn [fst] in H0. rewrite H0 in Hg.
        destruct (IH _ k _ Hg) as (r & Hr & Hn & Hf & Hl & _).
        exists r. split; [exact Hr|]. split; [exact Hn|]. split; [exact Hf|].
        split; [intros _; apply Hl; right; reflexivity|].
        intros Hnin. exfalso. apply Hnin.
        apply (identified_cons_some student rest k k E). left. reflexivity.
      * cbn [fst] in H0. rewrite H0 in Hg.
        destruct (IH _ k _ Hg) as (r & Hr & Hn & Hf & Hl & Hsame).
        apply String.eqb_neq in Ek.
        exists r. split; [exact Hr|]. split; [exact Hn|]. split; [exact Hf|]. split.
        -- intros [Hin|Hlast]; apply Hl; [left | right; exact Hlast].
           apply (identified_cons_some student rest sid k E) in Hin as [->|Hin];
             [contradiction | exact Hin].
        -- intros Hnin. apply Hsame. intros Hin. apply Hnin.
           apply (identified_cons_some student rest sid k E). right. exact Hin.
    + cbn [fst] in H0. rewrite H0 in Hg.
      destruct (IH _ k _ Hg) as (r & Hr & Hn & Hf & Hl & Hsame).
      exists r. split; [exact Hr|]. split; [exact Hn|]. split; [exact Hf|]. split.
      * intros [Hin|Hlast]; apply Hl; [left | right; exact Hlast].
        apply (identified_cons_none student rest k E). exact Hin.
      * intros Hnin. apply Hsame. intros Hin. apply Hnin.
        apply (identified_cons_none student rest k E). exact Hin.
Qed.

Lemma recognition_get_none f students : forall acc k,
  dict_get k (active_students acc.1) = None ->
  (k ∉ omap (fun s => truthy (Student.student_id s)) students ->
   dict_get k (active_students (fold_left (update_student f) students acc).1) = None) /\
  (k ∈ omap (fun s => truthy (Student.student_id s)) students ->
   exists r,
     dict_get k (active_students (fold_left (update_student f) students acc).1) = Some r /\
     first_seen r = current_time f /\ last_seen r = current_time f).
Proof.
  induction students as [|student rest IH]; intros [self calls] k H0.
  - split; [intros _; exact H0 | intros Hin; apply elem_of_nil in Hin; contradiction].
  - cbn [fold_left].
    pose proof (update_student_get f self calls student k) as Hg.
    destruct (truthy (Student.student_id student)) as [sid|] eqn:E.
    + destruct (String.eqb sid k) eqn:Ek.
      * apply String.eqb_eq in Ek. subst sid. cbn [fst] in H0. rewrite H0 in Hg.
        split.
        -- intros Hnin. exfalso. apply Hnin.
           apply (identified_cons_some student rest k k E). left. reflexivity.
        -- intros _.
           destruct (recognition_get_some f rest _ k _ Hg) as (r & Hr & _ & Hf & Hl & _).
           exists r. split; [exact Hr|]. split; [exact Hf | apply Hl; right; reflexivity].
      * cbn [fst] in H0. rewrite H0 in Hg. apply String.eqb_neq in Ek.
        destruct (IH _ k Hg) as [Hno Hyes]. split.
        -- intros Hnin. apply Hno. intros Hin. apply Hnin.
           apply (identified_cons_some student rest sid k E). right. exact Hin.
        -- intros Hin. apply Hyes.
           apply (identified_cons_some student rest sid k E) in Hin as [->|Hin];
             [contradiction | exact Hin].
    + cbn [fst] in H0. rewrite H0 in Hg.
      destruct (IH _ k Hg) as [Hno Hyes]. split.
      * intros Hnin. apply Hno. intros Hin. apply Hnin.
        apply (identified_cons_none student rest k E). exact Hin.
      * intros Hin. apply Hyes. apply (identified_cons_none student rest k E). exact Hin.
Qed.

(** The hand and face parts change a record only in its counts and its
    samples. *)
Lemma stages_get self f k :
  match dict_get k (active_students self) with
  | Some r0 =>
      exists r, dict_get k (active_students (face_stage (hand_stage self f) f)) = Some r /\
        name r = name r0 /\ first_seen r = first_seen r0 /\
        last_seen r = last_seen r0 /\ total_frames r = total_frames r0
  | None => dict_get k (active_students (face_stage (hand_stage self f) f)) = None
  end.
Proof.
  assert (Hh : exists g,
    (forall r, name (g r) = name r /\ first_seen (g r) = first_seen r /\
               last_seen (g r) = last_seen r /\ total_frames (g r) = total_frames r) /\
    dict_get k (active_students (hand_stage self f))
    = g <$> dict_get k (active_students self)).
  { rewrite hand_stage_records. destruct (multi_hand_landmarks f).
    - exists (fun r => r). split; [auto | destruct (dict_get k _); reflexivity].
    - destruct (_ && _).
      + exists add_hand_raise. split; [intros r; repeat split | apply dict_get_for_each].
      + exists (fun r => r). split; [auto | destruct (dict_get k _); reflexivity]. }
  destruct Hh as (g & Hg & Hhand).
  assert (Hf : exists g',
    (forall r, name (g' r) = name r /\ first_seen (g' r) = first_seen r /\
               last_seen (g' r) = last_seen r /\ total_frames (g' r) = total_frames r) /\
    dict_get k (active_students (face_stage (hand_stage self f) f))
    = g' <$> dict_get k (active_students (hand_stage self f))).
  { unfold face_stage. destruct (FaceMovementDetector.face_detected _).
    - destruct (FaceMovementDetector.looking_away _).
      + destruct (FaceMovementDetector.update_looking_away_count _ _ _) as [d [|]].
        * eexists (fun r => add_looking_away (append_score _ r)).
          split; [intros r; repeat split|].
          cbn [set_active_students set_face_movement_detector active_students].
          rewrite !dict_get_for_each. destruct (dict_get k _); reflexivity.
        * eexists (append_score _). split; [intros r; repeat split|].
          apply dict_get_for_each.
      + eexists (append_score _). split; [intros r; repeat split|].
        apply dict_get_for_each.
    - exists (fun r => r). split; [auto | destruct (dict_get k _); reflexivity]. }
  destruct Hf as (g' & Hg' & Hface).
  rewrite Hface, Hhand. destruct (dict_get k (active_students self)) as [r0|]; cbn.
  - exists (g' (g r0)). destruct (Hg r0) as (? & ? & ? & ?).
    destruct (Hg' (g r0)) as (? & ? & ? & ?). repeat split; congruence.
  - reflexivity.
Qed.

(** X12.  A frame touches the sighting data of the students it identifies
    and of no one else.  A student identified in the frame has a record
    afterwards whose [last_seen] is the time of the frame; the record is new,
    with [first_seen] that time too, if there was none, and otherwise keeps
    its name and [first_seen].  A student not identified in the frame gets no
    record, and a record it already has keeps its name, [first_seen],
    [last_seen] and [total_frames]. *)
Theorem frame_updates_identified_students : forall self f student_id,
  (student_id ∈ identified f ->
   exists r,
     dict_get student_id (active_students (_process_frame self f).1) = Some r /\
     last_seen r = current_time f /\
     match dict_get student_id (active_students self) with
     | Some r0 => name r = name r0 /\ first_seen r = first_seen r0
     | None => first_seen r = current_time f
     end) /\
  (student_id ∉ identified f ->
   match dict_get student_id (active_students self) with
   | Some r0 =>
       exists r,
         dict_get student_id (active_students (_process_frame self f).1) = Some r /\
         name r = name r0 /\ first_seen r = first_seen r0 /\
         last_seen r = last_seen r0 /\ total_frames r = total_frames r0
   | None => dict_get student_id (active_students (_process_frame self f).1) = None
   end).
Proof.
  intros self f k. rewrite process_frame_unfold. cbn [fst].
  pose proof (stages_get (recognition_stage self f).1 f k) as Hst.
  unfold recognition_stage in *. unfold identified.
  destruct (dict_get k (active_students self)) as [r0|] eqn:H0.
  - destruct (recognition_get_some f (recognized_students f) (self, []) k r0 H0)
      as (r1 & Hr1 & Hn & Hf & Hl & Hsame).
    rewrite Hr1 in Hst. destruct Hst as (r & Hr & Hn' & Hf' & Hl' & Ht').
    split.
    + intros Hin. exists r. split; [exact Hr|].
      split; [rewrite Hl'; apply Hl; left; exact Hin | split; congruence].
    + intros Hnin. exists r. rewrite (Hsame Hnin) in *. auto.
  - destruct (recognition_get_none f (recognized_students f) (self, []) k H0)
      as [Hno Hyes].
    split.
    + intros Hin. destruct (Hyes Hin) as (r1 & Hr1 & Hf & Hl).
      rewrite Hr1 in Hst. destruct Hst as (r & Hr & Hn' & Hf' & Hl' & Ht').
      exists r. split; [exact Hr|]. split; congruence.
    + intros Hnin. rewrite (Hno Hnin) in Hst. exact Hst.
Qed.

Lemma frame_updates_identified_students_witness :
  (exists r,
     dict_get "S002"
       (active_students (_process_frame (_process_frame init one_student_frame).1
                           bob_frame).1) = Some r /\
     last_seen r = current_time bob_frame /\
     match dict_get "S002" (active_students (_process_frame init one_student_frame).1) with
     | Some r0 => name r = name r0 /\ first_seen r = first_seen r0
     | None => first_seen r = current_time bob_frame
     end) /\
  match dict_get "S001" (active_students (_process_frame init one_student_frame).1) with
  | Some r0 =>
      exists r,
        dict_get "S001"
          (active_students (_process_frame (_process_frame init one_student_frame).1
                              bob_frame).1) = Some r /\
        name r = name r0 /\ first_seen r = first_seen r0 /\
        last_seen r = last_seen r0 /\ total_frames r = total_frames r0
  | None =>
      dict_get "S001"
        (active_students (_process_frame (_process_frame init one_student_frame).1
                            bob_frame).1) = None
  end.
Proof.
  split.
  - apply (proj1 (frame_updates_identified_students
                    (_process_frame init one_student_frame).1 bob_frame "S002")).
    apply list_elem_of_In. cbn. auto.
  - apply (proj2 (frame_updates_identified_students
                    (_process_frame init one_student_frame).1 bob_frame "S001")).
    intros H. apply list_elem_of_In in H. cbn in H. destruct H as [H|[]]. discriminate.
Defined.

(** ** Counts and samples stay within bounds *)

Lemma Forall_dict_update (P : string * student_data -> Prop) k f (d : dict) :
  (forall k0 r, P (k0, r) -> P (k0, f r)) ->
  Forall P d -> Forall P (dict_update k f d).
Proof.
  intros Hf. induction d as [|[k0 v0] d IH]; intros H; [constructor|].
  apply Forall_cons in H as [H0 H]. cbn [dict_update].
  destruct (String.eqb k0 k); constructor; auto.
Qed.

Lemma Forall_dict_for_each (P Q : string * student_data -> Prop) f (d : dict) :
  (forall k0 r, P (k0, r) -> Q (k0, f r)) ->
  Forall P d -> Forall Q (dict_for_each f d).
Proof.
  intros Hf H. unfold dict_for_each. apply Forall_fmap.
  eapply Forall_impl; [exact H|]. intros [k0 r] Hp. cbn. auto.
Qed.

Lemma update_student_active_forall (P : string * student_data -> Prop) f acc student :
  (forall k0 r, P (k0, r) -> P (k0, seen (current_time f) r)) ->
  (forall k0, P (k0, new_student (Student.name student) (current_time f))) ->
  Forall P (active_students acc.1) ->
  Forall P (active_students (update_student f acc student).1).
Proof.
  intros Hseen Hnew. destruct acc as [self calls]. cbn [fst]. intros H.
  unfold update_student. destruct (truthy _) as [sid|]; [|exact H].
  assert (Hk : Forall P
    (dict_update sid (seen (current_time f))
       (if dict_mem sid (active_students self) then active_students self
        else dict_add sid (new_student (Student.name student) (current_time f))
               (active_students self)))).
  { apply Forall_dict_update; [exact Hseen|].
    destruct (dict_mem _ _); [exact H|].
    unfold dict_add. apply Forall_app. split; [exact H|]. constructor; [apply Hnew|constructor]. }
  destruct (decide _); exact Hk.
Qed.

Lemma recognition_active_forall (P : string * student_data -> Prop) f students :
  (forall k0 r, P (k0, r) -> P (k0, seen (current_time f) r)) ->
  (forall k0 name, P (k0, new_student name (current_time f))) ->
  forall acc,
    Forall P (active_students acc.1) ->
    Forall P (active_students (fold_left (update_student f) students acc).1).
Proof.
  intros Hseen Hnew. induction students as [|student rest IH]; intros acc H; [exact H|].
  cbn [fold_left]. apply IH, update_student_active_forall; auto.
Qed.

Lemma hand_update_count h now raised :
  HandGestureDetector.hand_raise_count
    (HandGestureDetector.update_hand_raise_count h now raised).1
  = HandGestureDetector.hand_raise_count h
    + (if (HandGestureDetector.update_hand_raise_count h now raised).2 then 1 else 0).
Proof.
  unfold HandGestureDetector.update_hand_raise_count.
  destruct raised; [|cbn; lia].
  destruct (HandGestureDetector.hand_raised h); cbn; [|lia].
  destruct (HandGestureDetector.hand_raise_start_time h); [|cbn; lia].
  destruct (_ <=? _); [|cbn; lia].
  destruct (HandGestureDetector.last_hand_raise_time h) as [last|];
    [destruct (_ <=? _)|]; cbn; lia.
Qed.

Lemma face_update_count f now away :
  FaceMovementDetector.looking_away_count
    (FaceMovementDetector.update_looking_away_count f now away).1
  = FaceMovementDetector.looking_away_count f
    + (if (FaceMovementDetector.update_looking_away_count f now away).2 then 1 else 0).
Proof.
  unfold FaceMovementDetector.update_looking_away_count.
  destruct away; [|cbn; lia].
  destruct (FaceMovementDetector.is_looking_away f); cbn; [|lia].
  destruct (FaceMovementDetector.looking_away_start_time f); [|cbn; lia].
  destruct (_ <=? _); [|cbn; lia].
  destruct (FaceMovementDetector.last_looking_away_time f) as [last|];
    [destruct (_ <=? _)|]; cbn; lia.
Qed.

Lemma recognition_counts_bounded self f :
  counts_bounded self -> counts_bounded (recognition_stage self f).1.
Proof.
  intros (Hh & Hf & Hall). unfold counts_bounded, recognition_stage.
  destruct (recognition_keeps f (recognized_students f) (self, [])) as (-> & -> & _).
  cbn [fst]. split; [exact Hh|]. split; [exact Hf|].
  apply (recognition_active_forall _ f (recognized_students f)); [| |exact Hall].
  - intros k0 r H. exact H.
  - intros k0 name. cbn. lia.
Qed.

Lemma hand_stage_counts_bounded self f :
  counts_bounded self -> counts_bounded (hand_stage self f).
Proof.
  intros (Hh & Hf & Hall). unfold hand_stage.
  destruct (HandGestureDetector.hands_detected _); [|repeat split; assumption].
  destruct (HandGestureDetector.hand_data_hand_raised _).
  - pose proof (hand_update_count (hand_detector self) (hand_clock f) true) as Hc.
    destruct (HandGestureDetector.update_hand_raise_count _ _ _) as [d [|]];
      cbn [fst snd] in Hc; unfold counts_bounded;
      cbn [set_active_students set_hand_detector hand_detector face_movement_detector
           active_students].
    + split; [lia|]. split; [exact Hf|].
      eapply Forall_dict_for_each; [|exact Hall]. intros k0 r. cbn. lia.
    + split; [lia|]. split; [exact Hf|].
      eapply Forall_impl; [exact Hall|]. intros [k0 r]. cbn. lia.
  - pose proof (hand_update_count (hand_detector self) (hand_clock f) false) as Hc.
    assert (Ho : (HandGestureDetector.update_hand_raise_count (hand_detector self)
                    (hand_clock f) false).2 = false) by reflexivity.
    rewrite Ho in Hc. unfold counts_bounded.
    cbn [set_hand_detector hand_detector face_movement_detector active_students].
    split; [lia|]. split; [exact Hf|].
    eapply Forall_impl; [exact Hall|]. intros [k0 r]. cbn. lia.
Qed.

Lemma face_stage_counts_bounded self f :
  counts_bounded self -> counts_bounded (face_stage self f).
Proof.
  intros (Hh & Hf & Hall). unfold face_stage.
  destruct (FaceMovementDetector.face_detected _); [|repeat split; assumption].
  set (score := FaceMovementDetector.attention_score _).
  assert (Hall1 : Forall (fun kv : string * student_data =>
      0 <= hand_raises kv.2 <= HandGestureDetector.hand_raise_count (hand_detector self) /\
      0 <= looking_away_count kv.2
        <= FaceMovementDetector.looking_away_count (face_movement_detector self))
    (dict_for_each (append_score score) (active_students self))).
  { eapply Forall_dict_for_each; [|exact Hall]. intros k0 r H. exact H. }
  destruct (FaceMovementDetector.looking_away _).
  - cbn [set_active_students face_movement_detector].
    pose proof (face_update_count (face_movement_detector self) (face_clock f) true) as Hc.
    destruct (FaceMovementDetector.update_looking_away_count _ _ _) as [d [|]];
      cbn [fst snd] in Hc; unfold counts_bounded;
      cbn [set_active_students set_face_movement_detector hand_detector
           face_movement_detector active_students].
    + split; [exact Hh|]. split; [lia|].
      eapply Forall_dict_for_each; [|exact Hall1]. intros k0 r. cbn. lia.
    + split; [exact Hh|]. split; [lia|].
      eapply Forall_impl; [exact Hall1|]. intros [k0 r]. cbn. lia.
  - cbn [set_active_students face_movement_detector].
    pose proof (face_update_count (face_movement_detector self) (face_clock f) false) as Hc.
    assert (Ho : (FaceMovementDetector.update_looking_away_count
                    (face_movement_detector self) (face_clock f) false).2 = false)
      by reflexivity.
    rewrite Ho in Hc. unfold counts_bounded.
    cbn [set_active_students set_face_movement_detector hand_detector
         face_movement_detector active_students].
    split; [exact Hh|]. split; [lia|].
    eapply Forall_impl; [exact Hall1|]. intros [k0 r]. cbn. lia.
Qed.

Lemma do_step_counts_bounded acc s :
  counts_bounded acc.1 -> counts_bounded (do_step acc s).1.
Proof.
  destruct acc as [self calls]. cbn [fst]. intros H.
  destruct s as [f| |session_date]; cbn [do_step].
  - rewrite (surjective_pairing (_process_frame self f)). cbn [fst].
    rewrite process_frame_unfold. cbn [fst].
    apply face_stage_counts_bounded, hand_stage_counts_bounded,
      recognition_counts_bounded, H.
  - cbn [fst]. unfold counts_bounded. cbn. split; [lia|]. split; [lia|].
    destruct H as (_ & _ & Hall).
    eapply Forall_dict_for_each; [|exact Hall]. intros k0 r _. cbn. lia.
  - exact H.
Qed.

Lemma steps_counts_bounded steps : forall acc,
  counts_bounded acc.1 -> counts_bounded (fold_left do_step steps acc).1.
Proof.
  induction steps as [|s rest IH]; intros acc H; [exact H|].
  cbn [fold_left]. apply IH, do_step_counts_bounded, H.
Qed.

(** X13.  No student is credited with more than the detectors confirmed.
    In a freshly constructed system, and then after any frames, resets and
    report requests, the two counts of the detectors are not negative and in
    every record [hand_raises] lies between 0 and the hand detector's count
    and [looking_away_count] between 0 and the face detector's count. *)
Theorem record_counts_bounded_by_detectors :
  counts_bounded init /\
  forall self steps, counts_bounded self -> counts_bounded (run self steps).1.
Proof.
  split.
  - unfold counts_bounded. cbn. repeat split; try lia. constructor.
  - intros self steps H. exact (steps_counts_bounded steps (self, []) H).
Qed.

Lemma record_counts_bounded_by_detectors_witness :
  counts_bounded
    (run init [process one_student_frame; process bob_frame; key_r;
               process later_frame]).1.
Proof.
  destruct record_counts_bounded_by_detectors as [Hinit Hrun].
  apply (Hrun init). exact Hinit.
Defined.

Lemma detect_score_range f m :
  (0 <= FaceMovementDetector.attention_score
          (FaceMovementDetector.detect_face_movement f m) <= 100)%Q.
Proof.
  destruct m as [[pose|]|]; cbn [FaceMovementDetector.detect_face_movement
    FaceMovementDetector.attention_score]; [|split; discriminate|split; discriminate].
  pose proof (angle_score_range (yaw pose) 2 ltac:(discriminate)) as [Hy0 Hy1].
  pose proof (angle_score_range (pitch pose) 3 ltac:(discriminate)) as [Hp0 Hp1].
  unfold Qdiv.
  change (/ 2)%Q with (1 # 2)%Q. split; lra.
Qed.

Lemma sum_range (l : list Q) :
  Forall (fun x : Q => (0 <= x <= 100)%Q) l ->
  (0 <= foldr Qplus 0 l <= 100 * inject_Z (Z.of_nat (length l)))%Q.
Proof.
  induction l as [|x l IH]; intros H.
  - cbn. split; discriminate.
  - apply Forall_cons in H as [[Hx0 Hx1] H]. destruct (IH H) as [IH0 IH1].
    cbn [foldr length]. rewrite Nat2Z.inj_succ, <- Z.add_1_r, inject_Z_plus.
    change (inject_Z 1) with 1%Q. split; lra.
Qed.

Lemma mean_range (l : list Q) :
  l <> [] ->
  Forall (fun x : Q => (0 <= x <= 100)%Q) l ->
  (0 <= mean l <= 100)%Q.
Proof.
  intros Hne H. destruct (sum_range l H) as [H0 H1]. unfold mean.
  assert (Hn : (0 < inject_Z (Z.of_nat (length l)))%Q).
  { change 0%Q with (inject_Z 0). rewrite <- Zlt_Qlt.
    destruct l; [contradiction | cbn [length]; lia]. }
  split.
  - apply Qle_shift_div_l; [exact Hn|]. lra.
  - apply Qle_shift_div_r; [exact Hn | exact H1].
Qed.

Lemma report_averages_in_range self session_date :
  samples_in_range (active_students self) ->
  averages_in_range (_save_session_report self session_date).
Proof.
  intros H. unfold _save_session_report, averages_in_range.
  destruct (session_start_time self); [|constructor].
  induction H as [|[k r] items Hr H IH]; [constructor|].
  cbn [map]. constructor; [|exact IH].
  unfold report_row. cbn [snd] in Hr.
  destruct (attention_scores r) as [|x xs] eqn:E; [split; discriminate|].
  apply mean_range; [discriminate | exact Hr].
Qed.

Lemma recognition_samples self f :
  samples_in_range (active_students self) ->
  samples_in_range (active_students (recognition_stage self f).1).
Proof.
  intros H. unfold recognition_stage, samples_in_range.
  apply (recognition_active_forall _ f (recognized_students f)); [| |exact H].
  - intros k0 r Hr. exact Hr.
  - intros k0 name. constructor.
Qed.

Lemma hand_stage_samples self f :
  samples_in_range (active_students self) ->
  samples_in_range (active_students (hand_stage self f)).
Proof.
  intros H. rewrite hand_stage_records.
  destruct (multi_hand_landmarks f); [exact H|].
  destruct (_ && _); [|exact H].
  eapply Forall_dict_for_each; [|exact H]. intros k0 r Hr. exact Hr.
Qed.

Lemma face_stage_samples self f :
  samples_in_range (active_students self) ->
  samples_in_range (active_students (face_stage self f)).
Proof.
  intros H. unfold face_stage.
  destruct (FaceMovementDetector.face_detected _); [|exact H].
  assert (H1 : samples_in_range
    (dict_for_each
       (append_score (FaceMovementDetector.attention_score
          (FaceMovementDetector.detect_face_movement (face_movement_detector self)
             (multi_face_landmarks f))))
       (active_students self))).
  { eapply Forall_dict_for_each; [|exact H]. intros k0 r Hr. cbn in *.
    apply Forall_app. split; [exact Hr|].
    constructor; [apply detect_score_range | constructor]. }
  destruct (FaceMovementDetector.looking_away _); [|exact H1].
  destruct (FaceMovementDetector.update_looking_away_count _ _ _) as [d [|]]; [|exact H1].
  eapply Forall_dict_for_each; [|exact H1]. intros k0 r Hr. exact Hr.
Qed.

Lemma do_step_in_range acc s :
  samples_in_range (active_students acc.1) /\ averages_in_range acc.2 ->
  samples_in_range (active_students (do_step acc s).1) /\
  averages_in_range (do_step acc s).2.
Proof.
  destruct acc as [self calls]. cbn [fst snd]. intros [Hs Ha].
  destruct s as [f| |session_date]; cbn [do_step].
  - rewrite (surjective_pairing (_process_frame self f)). cbn [fst snd].
    rewrite process_frame_unfold. cbn [fst snd]. split.
    + apply face_stage_samples, hand_stage_samples, recognition_samples, Hs.
    + apply Forall_app. split; [exact Ha|].
      unfold recognition_stage.
      assert (Hm : forall students acc,
        averages_in_range acc.2 ->
        averages_in_range (fold_left (update_student f) students acc).2).
      { clear. induction students as [|student rest IH]; intros acc H; [exact H|].
        cbn [fold_left]. apply IH. destruct acc as [self calls]. cbn [snd] in H.
        destruct (update_student_marks f self calls student)
          as [[-> _] | (sid & date & time_in & _ & -> & _)]; [exact H|].
        apply Forall_app. split; [exact H | constructor; [exact I | constructor]]. }
      apply (Hm (recognized_students f) (self, [])). constructor.
  - cbn [fst snd]. split; [|exact Ha].
    cbn [_reset_statistics active_students].
    eapply Forall_dict_for_each; [|exact Hs]. intros k0 r _. constructor.
  - cbn [fst snd]. split; [exact Hs|].
    apply Forall_app. split; [exact Ha | apply report_averages_in_range, Hs].
Qed.

Lemma steps_in_range steps : forall acc,
  samples_in_range (active_students acc.1) /\ averages_in_range acc.2 ->
  samples_in_range (active_students (fold_left do_step steps acc).1) /\
  averages_in_range (fold_left do_step steps acc).2.
Proof.
  induction steps as [|s rest IH]; intros acc H; [exact H|].
  cbn [fold_left]. apply IH, do_step_in_range, H.
Qed.

(** X14.  Samples and reported averages stay on the scale.  If every
    attention sample held at the start of a session is between 0 and 100 (in
    particular if there is none), then so is every sample held at its end,
    and every [log_behavior] call of the session, from an ['s'] key or from
    the final report, carries an average attention between 0 and 100. *)
Theorem samples_and_averages_in_range : forall self start steps session_date,
  samples_in_range (active_students self) ->
  samples_in_range
    (active_students (start_monitoring_session self start steps session_date).1) /\
  averages_in_range (start_monitoring_session self start steps session_date).2.
Proof.
  intros self start steps session_date H.
  destruct (steps_in_range steps (set_session_start_time self start, []))
    as [Hs Ha]; [split; [exact H | constructor]|].
  fold (run (set_session_start_time self start) steps) in Hs, Ha.
  unfold start_monitoring_session.
  destruct (run (set_session_start_time self start) steps) as [self1 calls].
  cbn [fst snd] in *. split; [exact Hs|].
  apply Forall_app. split; [exact Ha | apply report_averages_in_range, Hs].
Qed.

Lemma samples_and_averages_in_range_witness :
  samples_in_range
    (active_students
       (start_monitoring_session init (seconds 35990) two_sightings "2024-03-01").1) /\
  averages_in_range
    (start_monitoring_session init (seconds 35990) two_sightings "2024-03-01").2.
Proof.
  apply (samples_and_averages_in_range init (seconds 35990) two_sightings "2024-03-01").
  constructor.
Defined.

(** ** Report requests *)






(** ** The loop *)

Lemma monitoring_loop_steps keys : forall self paused camera calls r,
  monitoring_loop self paused camera keys calls = Some r ->
  r = fold_left do_step (loop_steps paused camera keys) (self, calls).
Proof.
  induction keys as [|[key today] keys IH]; intros self paused camera calls r H.
  - cbn in H. destruct paused; [discriminate|].
    destruct camera as [|[f|] camera]; cbn.
    + injection H as <-. reflexivity.
    + destruct (_process_frame self f); discriminate.
    + injection H as <-. reflexivity.
  - cbn [monitoring_loop loop_steps] in *. destruct paused.
    + destruct (key =? ord_q); [injection H as <-; reflexivity|].
      destruct (key =? ord_space); [exact (IH _ _ _ _ _ H)|].
      destruct (key =? ord_r); [exact (IH _ _ _ _ _ H)|].
      destruct (key =? ord_s); [exact (IH _ _ _ _ _ H) | exact (IH _ _ _ _ _ H)].
    + destruct camera as [|[f|] camera].
      * injection H as <-. reflexivity.
      * cbn [fold_left do_step]. destruct (_process_frame self f) as [self1 new].
        destruct (key =? ord_q); [injection H as <-; reflexivity|].
        destruct (key =? ord_space); [exact (IH _ _ _ _ _ H)|].
        destruct (key =? ord_r); [exact (IH _ _ _ _ _ H)|].
        destruct (key =? ord_s); [exact (IH _ _ _ _ _ H) | exact (IH _ _ _ _ _ H)].
      * injection H as <-. reflexivity.
Qed.

(** X16.  The loop is a run.  When [start_monitoring_session] returns, its
    effect is that of processing, in order, the frames read while not paused
    and the ['r'] and ['s'] keys pressed, up to the first ['q'] or the first
    failed read, and then saving the report once: every property of such
    sequences of steps holds of the method itself. *)
Theorem monitoring_session_is_a_run : forall self start camera keys session_date r,
  monitoring_session self start camera keys session_date = Some r ->
  r = start_monitoring_session self start (loop_steps false camera keys) session_date.
Proof.
  intros self start camera keys session_date r H. unfold monitoring_session in H.
  destruct (monitoring_loop _ _ _ _ _) as [[self1 calls]|] eqn:E; [|discriminate].
  injection H as <-. apply monitoring_loop_steps in E.
  unfold start_monitoring_session, run. rewrite <- E. reflexivity.
Qed.

Lemma monitoring_session_is_a_run_witness :
  exists r,
    monitoring_session init (seconds 35990) sample_camera sample_keys "2024-03-01" = Some r /\
    r = start_monitoring_session init (seconds 35990)
          (loop_steps false sample_camera sample_keys) "2024-03-01".
Proof.
  destruct (monitoring_session init (seconds 35990) sample_camera sample_keys "2024-03-01")
    as [r|] eqn:E; [|discriminate].
  exists r. split; [reflexivity|].
  exact (monitoring_session_is_a_run init (seconds 35990) sample_camera sample_keys
           "2024-03-01" r E).
Defined.

Lemma monitoring_loop_quits pre : forall today post self paused camera calls,
  is_Some (monitoring_loop self paused camera (pre ++ (ord_q, today) :: post) calls) /\
  monitoring_loop self paused camera (pre ++ (ord_q, today) :: post) calls
  = monitoring_loop self paused camera (pre ++ [(ord_q, today)]) calls.
Proof.
  induction pre as [|[key day] pre IH]; intros today post self paused camera calls.
  - cbn [app monitoring_loop]. destruct paused.
    + cbn. split; [eauto | reflexivity].
    + destruct camera as [|[f|] camera]; [split; [eauto | reflexivity]| |
                                          split; [eauto | reflexivity]].
      destruct (_process_frame self f) as [self1 new]. cbn.
      split; [eauto | reflexivity].
  - cbn [app monitoring_loop]. destruct paused.
    + destruct (key =? ord_q); [split; [eauto | reflexivity]|].
      destruct (key =? ord_space); [apply IH|].
      destruct (key =? ord_r); [apply IH|].
      destruct (key =? ord_s); apply IH.
    + destruct camera as [|[f|] camera]; [split; [eauto | reflexivity]| |
                                          split; [eauto | reflexivity]].
      destruct (_process_frame self f) as [self1 new].
      destruct (key =? ord_q); [split; [eauto | reflexivity]|].
      destruct (key =? ord_space); [apply IH|].
      destruct (key =? ord_r); [apply IH|].
      destruct (key =? ord_s); apply IH.
Qed.

(** X17.  ['q'] ends the session.  If a ['q'] is among the key readings the
    method returns, with the report saved, and what the camera and the
    keyboard deliver after the first ['q'] that is read has no effect on the
    state or on the log. *)
Theorem quit_key_ends_session : forall self start camera pre today post session_date,
  is_Some (monitoring_session self start camera (pre ++ (ord_q, today) :: post)
             session_date) /\
  monitoring_session self start camera (pre ++ (ord_q, today) :: post) session_date
  = monitoring_session self start camera (pre ++ [(ord_q, today)]) session_date.
Proof.
  intros self start camera pre today post session_date. unfold monitoring_session.
  destruct (monitoring_loop_quits pre today post (set_session_start_time self start)
              false camera []) as [[[self1 calls] Hs] He].
  rewrite <- He, Hs. split; [eauto | reflexivity].
Qed.




End AggregatorMore.

(** * Face recognition: the choice of the nearest registered face *)

Section Recognition.

Import FaceRecognitionSystem.

Local Open Scope Q_scope.

Lemma argmin_from_spec l : forall pre best_index best,
  pre !! best_index = Some best ->
  (forall j d, pre !! j = Some d -> best <= d) ->
  (forall j d, (j < best_index)%nat -> pre !! j = Some d -> best < d) ->
  exists d,
    (pre ++ l) !! argmin_from best_index best (length pre) l = Some d /\
    (forall j d', (pre ++ l) !! j = Some d' -> d <= d') /\
    (forall j d', (j < argmin_from best_index best (length pre) l)%nat ->
                  (pre ++ l) !! j = Some d' -> d < d').
Proof.
  induction l as [|x rest IH]; intros pre best_index best Hb Hmin Hfirst.
  - cbn [argmin_from]. rewrite app_nil_r. exists best. auto.
  - cbn [argmin_from].
    assert (Hlen : length (pre ++ [x]) = S (length pre)).
    { rewrite length_app. cbn. lia. }
    assert (Hx : (pre ++ [x]) !! length pre = Some x).
    { rewrite lookup_app_r by lia. rewrite Nat.sub_diag. reflexivity. }
    assert (Hcases : forall j d, (pre ++ [x]) !! j = Some d ->
              pre !! j = Some d \/ (j = length pre /\ d = x)).
    { intros j d Hj. destruct (decide (j < length pre)%nat) as [Hlt|Hge].
      - left. rewrite lookup_app_l in Hj by exact Hlt. exact Hj.
      - right. rewrite lookup_app_r in Hj by lia.
        destruct (j - length pre)%nat as [|n] eqn:En; [|destruct n; discriminate].
        cbn in Hj. injection Hj as <-. split; [lia | reflexivity]. }
    rewrite (cons_middle x pre rest), app_assoc, <- Hlen.
    destruct (Qlt_bool x best) eqn:E.
    + apply Qlt_bool_iff in E. apply IH.
      * exact Hx.
      * intros j d Hj. destruct (Hcases j d Hj) as [Hp|[_ ->]]; [|apply Qle_refl].
        apply Qlt_le_weak. eapply Qlt_le_trans; [exact E | exact (Hmin j d Hp)].
      * intros j d Hlt Hj.
        destruct (Hcases j d Hj) as [Hp|[-> _]]; [|lia].
        eapply Qlt_le_trans; [exact E | exact (Hmin j d Hp)].
    + assert (Hle : best <= x).
      { apply Qnot_lt_le. intros C. apply Qlt_bool_iff in C. congruence. }
      apply IH.
      * rewrite lookup_app_l; [exact Hb | eapply lookup_lt_Some, Hb].
      * intros j d Hj. destruct (Hcases j d Hj) as [Hp|[_ ->]]; [exact (Hmin j d Hp)|].
        exact Hle.
      * intros j d Hlt Hj. destruct (Hcases j d Hj) as [Hp|[-> _]].
        -- exact (Hfirst j d Hlt Hp).
        -- apply lookup_lt_Some in Hb. lia.
Qed.

Lemma argmin_spec x rest :
  exists d,
    (x :: rest) !! argmin (x :: rest) = Some d /\
    (forall j d', (x :: rest) !! j = Some d' -> d <= d') /\
    (forall j d', (j < argmin (x :: rest))%nat -> (x :: rest) !! j = Some d' -> d < d').
Proof.
  apply (argmin_from_spec rest [x] 0%nat x).
  - reflexivity.
  - intros [|j] d Hj; [injection Hj as <-; apply Qle_refl | discriminate].
  - intros j d Hlt. lia.
Qed.

(** X19.  A detected face is given the identity of the registered face
    nearest to it, if that one is within the tolerance, and no identity
    otherwise.  When [recognize_faces] gives a face a student id, that id and
    the name are those registered at one index [i], the distance [d] to the
    encoding at [i] is at most 0.6, is the least of all the distances and is
    strictly less than those at lower indexes, and the confidence is
    [1 - d].  When it gives none, the name is "Unknown", the confidence is 0
    and every registered encoding is further than 0.6. *)
Theorem identity_is_nearest_within_tolerance : forall self face_distances where_ r,
  recognize_face self face_distances where_ = Some r ->
  match student_id r with
  | Some id =>
      exists i d,
        face_distances !! i = Some d /\ d <= 6 # 10 /\
        (forall j d', face_distances !! j = Some d' -> d <= d') /\
        (forall j d', (j < i)%nat -> face_distances !! j = Some d' -> d < d') /\
        known_student_ids self !! i = Some id /\
        known_face_names self !! i = Some (name r) /\
        confidence r = 1 - d
  | None =>
      name r = "Unknown"%string /\ confidence r = 0 /\
      forall j d', face_distances !! j = Some d' -> 6 # 10 < d'
  end.
Proof.
  intros self face_distances where_ r H. unfold recognize_face in H.
  destruct face_distances as [|x rest].
  - injection H as <-. cbn. repeat split. intros j d' Hj. discriminate.
  - destruct (argmin_spec x rest) as (d & Hd & Hmin & Hfirst).
    rewrite Hd in H. destruct (Qle_bool d tolerance) eqn:E.
    + apply Qle_bool_iff in E.
      destruct (known_face_names self !! argmin (x :: rest)) as [n|] eqn:Hn;
        [|discriminate].
      destruct (known_student_ids self !! argmin (x :: rest)) as [id|] eqn:Hi;
        [|discriminate].
      injection H as <-. cbn. exists (argmin (x :: rest)), d. auto 10.
    + injection H as <-. cbn. repeat split. intros j d' Hj.
      eapply Qlt_le_trans; [|exact (Hmin j d' Hj)].
      apply Qnot_le_lt. intros C. apply Qle_bool_iff in C.
      unfold tolerance in E. congruence.
Qed.

Lemma identity_is_nearest_within_tolerance_witness :
  exists i d,
    [55 # 100; 30 # 100] !! i = Some d /\ d <= 6 # 10 /\
    (forall j d', [55 # 100; 30 # 100] !! j = Some d' -> d <= d') /\
    (forall j d', (j < i)%nat -> [55 # 100; 30 # 100] !! j = Some d' -> d < d') /\
    known_student_ids two_registered !! i = Some "S002"%string /\
    known_face_names two_registered !! i = Some "Bob"%string /\
    (70 # 100 : Q) = 1 - d.
Proof.
  exact (identity_is_nearest_within_tolerance two_registered [55 # 100; 30 # 100]
           (10, 110, 110, 10)%Z
           {| name := "Bob"; student_id := Some "S002"%string;
              face_location := (10, 110, 110, 10)%Z; confidence := 70 # 100 |}
           eq_refl).
Defined.

Lemma argmin_lt x rest : (argmin (x :: rest) < length (x :: rest))%nat.
Proof.
  destruct (argmin_spec x rest) as (d & Hd & _). eapply lookup_lt_Some, Hd.
Qed.

Lemma recognize_face_parallel self face_distances where_ :
  parallel self ->
  length face_distances = length (known_face_encodings self) ->
  exists r, recognize_face self face_distances where_ = Some r /\
            face_location r = where_.
Proof.
  intros [Hn Hi] Hlen. unfold recognize_face.
  destruct face_distances as [|x rest]; [eexists; split; reflexivity|].
  pose proof (argmin_lt x rest) as Hlt.
  destruct (argmin_spec x rest) as (d & Hd & _). rewrite Hd.
  destruct (Qle_bool d tolerance); [|eexists; split; reflexivity].
  destruct (lookup_lt_is_Some_2 (known_face_names self) (argmin (x :: rest)))
    as [n ->]; [lia|].
  destruct (lookup_lt_is_Some_2 (known_student_ids self) (argmin (x :: rest)))
    as [id ->]; [lia|].
  eexists; split; reflexivity.
Qed.

(** X20.  Registration keeps the lists of encodings, names and ids of the
    same length, changes nothing when it fails (an error while loading, no
    face, or several faces in the image), and adds exactly the given name and
    id at the end when it succeeds.  With lists of the same length
    recognition raises no [IndexError]: it returns one entry per detected
    face, in order, each at the location of its face. *)
Theorem registration_keeps_lists_parallel :
  (forall self loaded student_id name,
     parallel self -> parallel (register_student self loaded student_id name).1) /\
  (forall self loaded student_id name,
     (register_student self loaded student_id name).2.1 = false ->
     (register_student self loaded student_id name).1 = self) /\
  (forall self loaded student_id name,
     (register_student self loaded student_id name).2.1 = true ->
     known_student_ids (register_student self loaded student_id name).1
       = known_student_ids self ++ [student_id] /\
     known_face_names (register_student self loaded student_id name).1
       = known_face_names self ++ [name]) /\
  (forall self faces,
     parallel self ->
     Forall (fun face : list Q * location =>
               length face.1 = length (known_face_encodings self)) faces ->
     exists rs, recognize_faces self faces = Some rs /\
                map face_location rs = map snd faces).
Proof.
  split; [|split; [|split]].
  - intros self loaded student_id name [Hn Hi]. unfold register_student.
    destruct loaded as [e|[|enc [|enc2 more]]]; try (split; assumption).
    unfold parallel. cbn. rewrite !length_app. cbn. lia.
  - intros self loaded student_id name. unfold register_student.
    destruct loaded as [e|[|enc [|enc2 more]]]; cbn; try reflexivity. discriminate.
  - intros self loaded student_id name. unfold register_student.
    destruct loaded as [e|[|enc [|enc2 more]]]; cbn; try discriminate.
    intros _. split; reflexivity.
  - intros self faces Hp Hall. induction Hall as [|[dist loc] faces Hd Hall IH].
    + exists []. split; reflexivity.
    + cbn [fst] in Hd. destruct IH as (rs & Hrs & Hlocs).
      destruct (recognize_face_parallel self dist loc Hp Hd) as (r & Hr & Hloc).
      exists (r :: rs). cbn [recognize_faces]. rewrite Hr, Hrs.
      split; [reflexivity|]. cbn. rewrite Hloc, Hlocs. reflexivity.
Qed.

Lemma registration_keeps_lists_parallel_witness :
  parallel
    (register_student two_registered (inr [[2%Q]]) "S003" "Cy").1 /\
  (register_student two_registered (inr []) "S003" "Cy").1 = two_registered /\
  exists rs, recognize_faces two_registered three_faces = Some rs /\
             map face_location rs = map snd three_faces.
Proof.
  destruct registration_keeps_lists_parallel as (H1 & H2 & _ & H4).
  split; [|split].
  - apply H1. split; reflexivity.
  - apply H2. reflexivity.
  - apply H4; [split; reflexivity | repeat constructor].
Defined.

Lemma recognize_faces_registered self faces : forall rs,
  recognize_faces self faces = Some rs ->
  Forall (fun r => forall id, student_id r = Some id -> id ∈ known_student_ids self) rs.
Proof.
  induction faces as [|[dist loc] faces IH]; intros rs H.
  - injection H as <-. constructor.
  - cbn [recognize_faces] in H.
    destruct (recognize_face self dist loc) as [r|] eqn:Hr; [|discriminate].
    destruct (recognize_faces self faces) as [rs'|]; [|discriminate].
    injection H as <-. constructor; [|apply IH; reflexivity].
    intros id Hid. unfold recognize_face in Hr.
    destruct dist as [|x rest]; [injection Hr as <-; discriminate|].
    destruct ((x :: rest) !! argmin (x :: rest)) as [d|]; [|discriminate].
    destruct (Qle_bool d tolerance); [|injection Hr as <-; discriminate].
    destruct (known_face_names self !! argmin (x :: rest)); [|discriminate].
    destruct (known_student_ids self !! argmin (x :: rest)) as [id'|] eqn:Hi;
      [|discriminate].
    injection Hr as <-. cbn in Hid. injection Hid as <-.
    eapply list_elem_of_lookup_2, Hi.
Qed.

End Recognition.

Section RecognitionAndRecords.

Import BehaviorTrackingSystem.

(** X21.  Records are opened for registered students only.  When the
    recognised faces of a frame are those [recognize_faces] returned, a
    student id that has a record after the frame either had one before or is
    one of the registered ids; an unidentified face opens none. *)
Theorem records_only_for_registered : forall faces_system faces rs self f student_id,
  FaceRecognitionSystem.recognize_faces faces_system faces = Some rs ->
  recognized_students f = map FaceRecognitionSystem.to_student rs ->
  is_Some (dict_get student_id (active_students (_process_frame self f).1)) ->
  is_Some (dict_get student_id (active_students self)) \/
  student_id ∈ FaceRecognitionSystem.known_student_ids faces_system.
Proof.
  intros sys faces rs self f k Hrs Hf Hafter.
  destruct (dict_get k (active_students self)) as [r0|] eqn:H0; [left; eauto|].
  right. rewrite process_frame_unfold in Hafter. cbn [fst] in Hafter.
  pose proof (stages_get (recognition_stage self f).1 f k) as Hst.
  unfold recognition_stage in *.
  destruct (recognition_get_none f (recognized_students f) (self, []) k H0) as [Hno _].
  destruct (decide (k ∈ omap (fun s => truthy (Student.student_id s))
                         (recognized_students f))) as [Hin|Hnin].
  - rewrite Hf in Hin. apply list_elem_of_omap in Hin as (st & Hst_in & Htr).
    apply list_elem_of_In, in_map_iff in Hst_in as (r & <- & Hr_in).
    apply list_elem_of_In in Hr_in.
    pose proof (recognize_faces_registered sys faces rs Hrs) as Hall.
    rewrite Forall_forall in Hall. apply (Hall r Hr_in).
    cbn [FaceRecognitionSystem.to_student Student.student_id] in Htr.
    unfold truthy in Htr.
    destruct (FaceRecognitionSystem.student_id r) as [id|]; [|discriminate].
    destruct (String.eqb id ""); [discriminate|]. congruence.
  - rewrite (Hno Hnin) in Hst. rewrite Hst in Hafter. destruct Hafter as [? [=]].
Qed.

Lemma records_only_for_registered_witness :
  is_Some (dict_get "S002" (active_students init)) \/
  "S002"%string ∈ FaceRecognitionSystem.known_student_ids two_registered.
Proof.
  destruct (FaceRecognitionSystem.recognize_faces two_registered three_faces)
    as [rs|] eqn:E; [|discriminate].
  apply (records_only_for_registered two_registered three_faces rs init
           (recognized_frame rs) "S002" E eq_refl).
  vm_compute in E. injection E as <-. vm_compute. eauto.
Defined.

End RecognitionAndRecords.

(** * The web application *)

Section Web.

Import BehaviorTrackingSystem.

Lemma hand_update_reset h now raised :
  HandGestureDetector.reset_count
    (HandGestureDetector.update_hand_raise_count h now raised).1
  = HandGestureDetector.reset_count h.
Proof.
  pose proof (hand_run_thresholds h [(now, raised)]) as [H1 H2].
  cbn [HandGestureDetector.run] in H1, H2.
  destruct (HandGestureDetector.update_hand_raise_count h now raised) as [h1 out].
  cbn [fst] in *. unfold HandGestureDetector.reset_count. rewrite H1, H2. reflexivity.
Qed.

Lemma face_update_reset f now away :
  FaceMovementDetector.reset_count
    (FaceMovementDetector.update_looking_away_count f now away).1
  = FaceMovementDetector.reset_count f.
Proof.
  pose proof (face_run_thresholds [(now, away)] f) as (H1 & H2 & H3 & H4).
  cbn [FaceMovementDetector.run] in H1, H2, H3, H4.
  destruct (FaceMovementDetector.update_looking_away_count f now away) as [f1 out].
  cbn [fst] in *. unfold FaceMovementDetector.reset_count.
  rewrite H1, H2, H3, H4. reflexivity.
Qed.

Lemma face_stage_detector_reset self f :
  FaceMovementDetector.reset_count (face_movement_detector (face_stage self f))
  = FaceMovementDetector.reset_count (face_movement_detector self).
Proof.
  unfold face_stage. destruct (FaceMovementDetector.face_detected _); [|reflexivity].
  destruct (FaceMovementDetector.looking_away _).
  - cbn [set_active_students face_movement_detector].
    pose proof (face_update_reset (face_movement_detector self) (face_clock f) true) as H.
    destruct (FaceMovementDetector.update_looking_away_count _ _ _) as [d [|]];
      exact H.
  - apply face_update_reset.
Qed.

Lemma process_frame_default_thresholds self f :
  default_thresholds self -> default_thresholds (_process_frame self f).1.
Proof.
  intros [Hh Hf]. unfold default_thresholds. split.
  - rewrite process_frame_hand_detector.
    destruct (multi_hand_landmarks f); [exact Hh|]. rewrite hand_update_reset. exact Hh.
  - rewrite process_frame_unfold. cbn [fst]. rewrite face_stage_detector_reset.
    rewrite (proj1 (hand_stage_keeps _ f)).
    rewrite (proj2 (recognition_stage_keeps self f)). exact Hf.
Qed.

Lemma web_process_frame self f :
  WebApp.process_frame self f = _process_frame self f.
Proof. reflexivity. Qed.

Lemma web_save_session_report self session_date :
  WebApp.save_session_report self session_date = _save_session_report self session_date.
Proof. reflexivity. Qed.

Lemma handle_default_thresholds self r :
  default_thresholds (WebApp.monitoring_state self) ->
  default_thresholds (WebApp.monitoring_state (WebApp.handle self r).1.1).
Proof.
  intros H. destruct r as [students opens now|session_date|read]; cbn [WebApp.handle].
  - destruct students; cbn; [|exact H].
    destruct (WebApp.is_monitoring self); cbn; [exact H|].
    destruct opens; cbn; [|exact H].
    destruct H as [Hh Hf]. split; cbn.
    + rewrite <- Hh. destruct (hand_detector _); reflexivity.
    + rewrite <- Hf. destruct (face_movement_detector _); reflexivity.
  - destruct (WebApp.is_monitoring self); exact H.
  - destruct (WebApp.is_monitoring self); [|exact H].
    destruct (WebApp.camera self) as [[|]|]; [|exact H|exact H].
    destruct read as [f|]; [|exact H].
    rewrite web_process_frame.
    pose proof (process_frame_default_thresholds _ f H) as Hp.
    destruct (_process_frame (WebApp.monitoring_state self) f) as [state1 calls].
    exact Hp.
Qed.

Lemma serve_default_thresholds requests : forall acc,
  default_thresholds (WebApp.monitoring_state acc.1) ->
  default_thresholds
    (WebApp.monitoring_state (fold_left WebApp.serve_step requests acc).1).
Proof.
  induction requests as [|r rest IH]; intros acc H; [exact H|].
  cbn [fold_left]. apply IH. unfold WebApp.serve_step.
  pose proof (handle_default_thresholds acc.1 r H) as Hh.
  destruct (WebApp.handle acc.1 r) as [[self1 calls] answer]. exact Hh.
Qed.

Lemma serve_frames frames : forall state before calls,
  fold_left WebApp.serve_step (map (fun f => WebApp.next_frame (Some f)) frames)
    ({| WebApp.is_monitoring := true; WebApp.camera := Some true;
        WebApp.monitoring_state := state |}, before ++ map WebApp.made calls)
  = ({| WebApp.is_monitoring := true; WebApp.camera := Some true;
        WebApp.monitoring_state :=
          (fold_left do_step (map process frames) (state, calls)).1 |},
     before ++ map WebApp.made (fold_left do_step (map process frames) (state, calls)).2).
Proof.
  induction frames as [|f rest IH]; intros state before calls; [reflexivity|].
  cbn [map fold_left]. unfold WebApp.serve_step at 2. cbn [WebApp.handle fst snd
    WebApp.is_monitoring WebApp.camera WebApp.monitoring_state do_step].
  rewrite web_process_frame.
  destruct (_process_frame state f) as [state1 new].
  rewrite <- app_assoc, <- map_app. apply IH.
Qed.

(** X22.  On the web application every session starts afresh.  Whatever
    requests were served before, if no session is running, then a start
    request that succeeds, followed by frames and a stop request, makes on
    the database one query of the students and then exactly the calls that a
    session of a newly constructed [BehaviorTrackingSystem] makes on frames
    for which the recogniser and the detectors return the same results (the
    web application runs the detectors on the image with the face boxes
    drawn on it): nothing of the earlier sessions (records, attendance
    already marked, detector counts, cooldown or episode in progress)
    carries over. *)
Theorem web_session_starts_afresh : forall history now frames session_date,
  WebApp.is_monitoring (WebApp.serve WebApp.init history).1 = false ->
  (WebApp.serve (WebApp.serve WebApp.init history).1
     ([WebApp.start_monitoring true true now]
      ++ map (fun f => WebApp.next_frame (Some f)) frames
      ++ [WebApp.stop_monitoring session_date])).2
  = WebApp.get_all_students
    :: map WebApp.made
         (start_monitoring_session init now (map process frames) session_date).2.
Proof.
  intros history now frames session_date Hidle.
  pose proof (serve_default_thresholds history (WebApp.init, [])
                ltac:(split; reflexivity)) as [Hh Hf].
  fold (WebApp.serve WebApp.init history) in Hh, Hf.
  set (s := (WebApp.serve WebApp.init history).1) in *.
  unfold WebApp.serve. rewrite fold_left_app. cbn [fold_left].
  assert (Hstart : WebApp.serve_step (s, []) (WebApp.start_monitoring true true now)
    = ({| WebApp.is_monitoring := true; WebApp.camera := Some true;
          WebApp.monitoring_state := set_session_start_time init now |},
       [WebApp.get_all_students] ++ map WebApp.made [])).
  { unfold WebApp.serve_step. cbn [WebApp.handle fst snd negb]. rewrite Hidle.
    cbn [negb]. rewrite Hh, Hf. reflexivity. }
  rewrite Hstart, fold_left_app, serve_frames. cbn [fold_left].
  unfold WebApp.serve_step. cbn [WebApp.handle fst snd WebApp.is_monitoring
    WebApp.monitoring_state].
  rewrite web_save_session_report.
  unfold start_monitoring_session, run.
  destruct (fold_left do_step (map process frames) (set_session_start_time init now, []))
    as [self1 calls]. cbn [fst snd]. rewrite <- app_assoc, <- map_app. reflexivity.
Qed.

Lemma web_session_starts_afresh_witness :
  (WebApp.serve (WebApp.serve WebApp.init earlier_requests).1
     ([WebApp.start_monitoring true true (seconds 36000)]
      ++ map (fun f => WebApp.next_frame (Some f)) [one_student_frame; later_frame]
      ++ [WebApp.stop_monitoring "2024-03-02"])).2
  = WebApp.get_all_students
    :: map WebApp.made
         (start_monitoring_session init (seconds 36000)
            (map process [one_student_frame; later_frame]) "2024-03-02").2.
Proof.
  apply (web_session_starts_afresh earlier_requests (seconds 36000)
           [one_student_frame; later_frame] "2024-03-02").
  reflexivity.
Defined.

Lemma serve_idle requests : forall self calls,
  WebApp.is_monitoring self = false ->
  Forall (fun r => WebApp.starts r = false) requests ->
  (fold_left WebApp.serve_step requests (self, calls)).2
    = calls ++ WebApp.start_queries requests /\
  WebApp.monitoring_state (fold_left WebApp.serve_step requests (self, calls)).1
    = WebApp.monitoring_state self /\
  WebApp.is_monitoring (fold_left WebApp.serve_step requests (self, calls)).1 = false.
Proof.
  induction requests as [|r rest IH]; intros self calls Hidle Hall.
  { cbn. rewrite app_nil_r. auto. }
  apply Forall_cons in Hall as [Hr Hall]. cbn [fold_left].
  assert (Hstep : exists self1,
    WebApp.serve_step (self, calls) r
      = (self1, calls ++ match r with
                         | WebApp.start_monitoring _ _ _ => [WebApp.get_all_students]
                         | _ => []
                         end) /\
    WebApp.monitoring_state self1 = WebApp.monitoring_state self /\
    WebApp.is_monitoring self1 = false).
  { unfold WebApp.serve_step.
    destruct r as [students opens now|session_date|read]; cbn [WebApp.handle fst snd].
    - destruct students; cbn [negb].
      + rewrite Hidle. cbn [negb]. destruct opens; [discriminate|]. cbn [negb].
        eexists. split; [reflexivity|]. split; reflexivity.
      + exists self. split; [reflexivity|]. split; [reflexivity | exact Hidle].
    - rewrite Hidle. exists self. split; [reflexivity|]. split; [reflexivity | exact Hidle].
    - rewrite Hidle. exists self. split; [reflexivity|]. split; [reflexivity | exact Hidle]. }
  destruct Hstep as (self1 & -> & Hm & Hi).
  set (q := match r with
            | WebApp.start_monitoring _ _ _ => [WebApp.get_all_students]
            | _ => []
            end).
  destruct (IH self1 (calls ++ q) Hi Hall) as (H1 & H2 & H3).
  rewrite H1, H2, H3, Hm, <- app_assoc. split; [reflexivity|]. split; reflexivity.
Qed.

(** X23.  Outside a session nothing reaches the records, and no attendance
    or behaviour row is written.  While no session is running, stop requests
    (a second stop after a first one, for instance), turns of the streaming
    loop, and start requests that fail for want of a registered student or
    of a camera make no database call other than the query of the students
    with which every start request begins, one per start request; they leave
    the records, the attendance set and the detectors as they were, and no
    session is running afterwards either. *)
Theorem web_idle_requests_do_nothing : forall self requests,
  WebApp.is_monitoring self = false ->
  Forall (fun r => WebApp.starts r = false) requests ->
  (WebApp.serve self requests).2 = WebApp.start_queries requests /\
  Forall (fun c => c = WebApp.get_all_students) (WebApp.serve self requests).2 /\
  WebApp.monitoring_state (WebApp.serve self requests).1 = WebApp.monitoring_state self /\
  WebApp.is_monitoring (WebApp.serve self requests).1 = false.
Proof.
  intros self requests Hidle Hall.
  destruct (serve_idle requests self [] Hidle Hall) as (H1 & H2 & H3).
  unfold WebApp.serve. rewrite H1. cbn [app].
  split; [reflexivity|]. split; [|split; assumption].
  clear. induction requests as [|r rest IH]; [constructor|].
  unfold WebApp.start_queries. cbn [flat_map]. fold (WebApp.start_queries rest).
  destruct r; cbn [app]; [constructor; [reflexivity | exact IH] | exact IH | exact IH].
Qed.

Lemma web_idle_requests_do_nothing_witness :
  (WebApp.serve (WebApp.serve WebApp.init earlier_requests).1
     [WebApp.stop_monitoring "2024-03-01"; WebApp.next_frame (Some later_frame);
      WebApp.start_monitoring true false (seconds 40000);
      WebApp.start_monitoring false true (seconds 40001)]).2
  = [WebApp.get_all_students; WebApp.get_all_students].
Proof.
  destruct (web_idle_requests_do_nothing (WebApp.serve WebApp.init earlier_requests).1
              [WebApp.stop_monitoring "2024-03-01"; WebApp.next_frame (Some later_frame);
               WebApp.start_monitoring true false (seconds 40000);
               WebApp.start_monitoring false true (seconds 40001)]) as [H _].
  - reflexivity.
  - repeat constructor.
  - exact H.
Defined.

End Web.

(** * Only the first hand is looked at *)

Section FirstHand.

Import BehaviorTrackingSystem.

Lemma update_student_credited f acc student k :
  credited k (active_students (update_student f acc student).1)
  = credited k (active_students acc.1).
Proof.
  destruct acc as [self calls]. unfold credited. rewrite update_student_get. cbn [fst].
  destruct (truthy (Student.student_id student)) as [sid|]; [|reflexivity].
  destruct (String.eqb sid k) eqn:E; [|reflexivity].
  apply String.eqb_eq in E. subst sid.
  destruct (dict_get k (active_students self)); reflexivity.
Qed.

Lemma recognition_credited f students k : forall acc,
  credited k (active_students (fold_left (update_student f) students acc).1)
  = credited k (active_students acc.1).
Proof.
  induction students as [|student rest IH]; intros acc; [reflexivity|].
  cbn [fold_left]. rewrite IH. apply update_student_credited.
Qed.

Lemma face_stage_credited self f k :
  credited k (active_students (face_stage self f)) = credited k (active_students self).
Proof.
  unfold face_stage, credited.
  destruct (FaceMovementDetector.face_detected _); [|reflexivity].
  destruct (FaceMovementDetector.looking_away _).
  - destruct (FaceMovementDetector.update_looking_away_count _ _ _) as [d [|]];
      cbn [set_active_students set_face_movement_detector active_students];
      rewrite ?dict_get_for_each; destruct (dict_get k (active_students self));
      reflexivity.
  - cbn [set_active_students set_face_movement_detector active_students].
    rewrite dict_get_for_each. destruct (dict_get k (active_students self)); reflexivity.
Qed.

(** X24.  Only the first detected hand is looked at.  In a frame whose first
    hand is not raised, whatever the other hands of the frame do, the hand
    detector ends up idle with its start time cleared and no student is
    credited with a hand raise: the hand raises of every id are what they
    were before the frame. *)
Theorem only_first_hand_counts : forall self f first others student_id,
  multi_hand_landmarks f = first :: others ->
  HandGestureDetector._is_hand_raised first = false ->
  HandGestureDetector.hand_raised (hand_detector (_process_frame self f).1) = false /\
  HandGestureDetector.hand_raise_start_time (hand_detector (_process_frame self f).1)
    = None /\
  credited student_id (active_students (_process_frame self f).1)
    = credited student_id (active_students self).
Proof.
  intros self f first others k Hhands Hdown.
  rewrite process_frame_hand_detector, Hhands, Hdown.
  split; [reflexivity|]. split; [reflexivity|].
  rewrite process_frame_unfold. cbn [fst]. rewrite face_stage_credited.
  unfold credited at 1. rewrite hand_stage_records.
  rewrite Hhands, Hdown. cbn [andb]. fold (credited k (active_students (recognition_stage self f).1)).
  unfold recognition_stage. apply recognition_credited.
Qed.

Lemma only_first_hand_counts_witness :
  HandGestureDetector.hand_raised
    (hand_detector
       (_process_frame (_process_frame init one_student_frame).1
          second_hand_raised_frame).1) = false /\
  HandGestureDetector.hand_raise_start_time
    (hand_detector
       (_process_frame (_process_frame init one_student_frame).1
          second_hand_raised_frame).1) = None /\
  credited "S001"
    (active_students
       (_process_frame (_process_frame init one_student_frame).1
          second_hand_raised_frame).1)
  = credited "S001" (active_students (_process_frame init one_student_frame).1).
Proof.
  apply (only_first_hand_counts (_process_frame init one_student_frame).1
           second_hand_raised_frame
           {| wrist_y := 8 # 10; middle_finger_tip_y := 7 # 10 |}
           [{| wrist_y := 3 # 10; middle_finger_tip_y := 2 # 10 |}] "S001");
    reflexivity.
Defined.

End FirstHand.
